(** * MVG backend: wallet ledger, withdrawals, order splitting, payment capture

    A shallow embedding of the financial core of the marketplace backend
    (controllers/walletController.js, controllers/orderController.js, the
    payment controller, and the Wallet / WithdrawalRequest schemas) together
    with the properties the specification states about it.

    Modelling conventions.
    - JavaScript numbers that carry money are exact rationals ([Q]); counts and
      minor-unit amounts are integers ([Z]).  Rounding error of IEEE doubles is
      outside the model.
    - A MongoDB collection addressed through a unique key is a [gmap]; a
      collection that is scanned ([find], [findOne], [countDocuments]) is a
      list in insertion order.
    - [Date.now()] and freshly generated ObjectIds are inputs of the
      operation that uses them.
    - A Mongoose [save()] runs the schema validators of the schemas at
      hand (Wallet, WithdrawalRequest); a failed validation is a thrown
      error.  Storage and network faults other than the ones the
      controllers test for are not modelled. *)

From Stdlib Require Import QArith Qround ZArith Lia Lqa.
From stdpp Require Import gmap strings list.

Abbreviation ObjectId := string.

#[local] Open Scope Q_scope.

(** ** JavaScript primitives *)

(** [a < b] on numbers. *)
Definition Qlt_bool (a b : Q) : bool := negb (Qle_bool b a).

(** Truthiness of a string: only the empty string is falsy. *)
Definition truthy (s : string) : bool := negb (String.eqb s "").

(** [Math.round]: nearest integer, halves towards +infinity. *)
Definition Math_round (x : Q) : Z := Qfloor (x + (1 # 2)).

(** [x || 0] for a possibly undefined number. *)
Definition orZero (x : option Q) : Q := default 0%Q x.

(** [arr.slice().reverse().find(p)] followed by an assignment to the element
    found: the elements of the reversed copy are shared with the original
    array, so the LAST element that satisfies [p] is updated in place.
    [None] when no element satisfies [p]. *)
Fixpoint updateFirst {A} (p : A -> bool) (f : A -> A) (l : list A) : option (list A) :=
  match l with
  | [] => None
  | x :: r => if p x then Some (f x :: r)
              else match updateFirst p f r with
                   | Some r' => Some (x :: r')
                   | None => None
                   end
  end.

Definition updateLast {A} (p : A -> bool) (f : A -> A) (l : list A) : option (list A) :=
  match updateFirst p f (rev l) with
  | Some l' => Some (rev l')
  | None => None
  end.

(** [Model.findOne(q)]: the first document, in collection order, matching [q]. *)
Definition findOne {A} (p : A -> bool) (l : list A) : option A := List.find p l.

(** A [save()] of a document loaded from a scanned collection overwrites the
    stored document with the same [_id]. *)
Fixpoint replaceFirst {A} (p : A -> bool) (y : A) (l : list A) : list A :=
  match l with
  | [] => []
  | x :: r => if p x then y :: r else x :: replaceFirst p y r
  end.

(** [.sort({ createdAt: 1 })], as a stable insertion sort. *)
Fixpoint insertBy {A} (key : A -> Z) (x : A) (l : list A) : list A :=
  match l with
  | [] => [x]
  | y :: r => if (key x <? key y)%Z then x :: y :: r else y :: insertBy key x r
  end.

Definition sortBy {A} (key : A -> Z) (l : list A) : list A :=
  fold_right (insertBy key) [] l.

(** Outcome of a request handler: the HTTP status with its payload, or the
    status with the error message.  An error thrown out of a handler is
    answered by the error middleware with the status set before the throw,
    and with 500 when none was set. *)
Inductive result (A : Type) : Type :=
| Ok (code : nat) (a : A)
| Err (code : nat) (message : string).
Arguments Ok {A} code a.
Arguments Err {A} code message.

(** ** transactionSchema *)
Module Transaction.

Inductive type_ := credit | debit.
Inductive status_ := completed | pending | failed.

Record t := {
  type : type_;
  amount : Q;
  description : string;
  orderId : option ObjectId;
  withdrawalId : option ObjectId;
  balance : Q;
  status : status_
}.

(** Schema validators: [amount] has [min: 0]; [description] is required (an
    empty string does not satisfy [required]). *)
Definition valid (x : t) : bool :=
  Qle_bool 0 (amount x) && truthy (description x).

Definition isDebit (x : t) : bool :=
  match type x with debit => true | credit => false end.

Definition isPending (x : t) : bool :=
  match status x with pending => true | _ => false end.

Definition setStatus (s : status_) (x : t) : t :=
  {| type := type x; amount := amount x; description := description x;
     orderId := orderId x; withdrawalId := withdrawalId x;
     balance := balance x; status := s |}.

End Transaction.

(** ** walletSchema

    The [seller] field carries a unique index; the wallet collection is keyed
    by it, so the record holds the remaining fields. *)
Module Wallet.

Record t := {
  balance : Q;
  totalEarnings : Q;
  totalWithdrawn : Q;
  pendingWithdrawals : Q;
  transactions : list Transaction.t;
  isActive : bool
}.

(** [Wallet.create({ seller })]: every aggregate at its schema default. *)
Definition create : t :=
  {| balance := 0; totalEarnings := 0; totalWithdrawn := 0;
     pendingWithdrawals := 0; transactions := []; isActive := true |}.

(** Schema validators run by [save()]: the four aggregates have [min: 0] and
    every embedded transaction is validated. *)
Definition valid (w : t) : bool :=
  Qle_bool 0 (balance w) && Qle_bool 0 (totalEarnings w) &&
  Qle_bool 0 (totalWithdrawn w) && Qle_bool 0 (pendingWithdrawals w) &&
  forallb Transaction.valid (transactions w).

(** [this.save()]. *)
Definition save (seller : ObjectId) (w : t) (ws : gmap ObjectId t)
  : option (gmap ObjectId t) :=
  if valid w then Some (<[seller := w]> ws) else None.

(** [walletSchema.methods.addTransaction], up to its final [this.save()]:
    the entry is built from [this.balance] and pushed, and only then are the
    aggregates updated. *)
Definition addTransaction (type : Transaction.type_) (amount : Q)
    (description : string) (orderId withdrawalId : option ObjectId)
    (this : t) : t :=
  let transaction :=
    {| Transaction.type := type;
       Transaction.amount := amount;
       Transaction.description := description;
       Transaction.orderId := orderId;
       Transaction.withdrawalId := withdrawalId;
       Transaction.balance := balance this;
       Transaction.status := Transaction.completed |} in
  let transactions' := transactions this ++ [transaction] in
  match type with
  | Transaction.credit =>
      {| balance := balance this + amount;
         totalEarnings := totalEarnings this + amount;
         totalWithdrawn := totalWithdrawn this;
         pendingWithdrawals := pendingWithdrawals this;
         transactions := transactions';
         isActive := isActive this |}
  | Transaction.debit =>
      {| balance := balance this - amount;
         totalEarnings := totalEarnings this;
         totalWithdrawn := totalWithdrawn this + amount;
         pendingWithdrawals := pendingWithdrawals this;
         transactions := transactions';
         isActive := isActive this |}
  end.

End Wallet.

(** ** withdrawalRequestSchema *)
Module WithdrawalRequest.

Inductive status_ := pending | approved | rejected | processed.
Inductive method := bank_transfer | upi | paytm | phonepe.

(** Every detail is an optional string; the empty string stands for an
    absent one (both are falsy). *)
Record bankDetails_ := {
  accountHolderName : string;
  accountNumber : string;
  ifscCode : string;
  bankName : string;
  branch : string;
  upiId : string;
  walletNumber : string
}.

Record t := {
  _id : ObjectId;
  seller : ObjectId;
  amount : Q;
  bankDetails : bankDetails_;
  status : status_;
  adminNotes : option string;
  processedBy : option ObjectId;
  processedAt : option Z;
  rejectionReason : option string;
  transactionId : option string;
  paymentMethod : method;
  createdAt : Z
}.

Definition status_eqb (a b : status_) : bool :=
  match a, b with
  | pending, pending | approved, approved
  | rejected, rejected | processed, processed => true
  | _, _ => false
  end.

(** [pre('validate')]: the destination details the payout method needs. *)
Definition preValidate (this : t) : option string :=
  let details := bankDetails this in
  match paymentMethod this with
  | bank_transfer =>
      if negb (truthy (accountNumber details)) || negb (truthy (ifscCode details))
      then Some "Account number and IFSC code are required for bank transfer"
      else None
  | upi =>
      if negb (truthy (upiId details))
      then Some "UPI ID is required for UPI withdrawals"
      else None
  | paytm | phonepe =>
      if negb (truthy (walletNumber details))
      then Some "Wallet/mobile number is required for this payment method"
      else None
  end.

(** [pre('save')]; the [min: 100] validator of [amount] rejects the same
    documents. *)
Definition preSave (this : t) : option string :=
  if Qlt_bool (amount this) 100
  then Some "Minimum withdrawal amount is ₹100"
  else None.

(** The error [save()] throws, if any. *)
Definition validationError (this : t) : option string :=
  match preValidate this with
  | Some e => Some e
  | None => preSave this
  end.

Definition hasId (id : ObjectId) (x : t) : bool := String.eqb (_id x) id.

(** [WithdrawalRequest.create(doc)]: validate, then insert. *)
Definition create (doc : t) (l : list t) : result (list t) :=
  match validationError doc with
  | Some e => Err 500 e
  | None => Ok 201 (l ++ [doc])
  end.

(** [this.save()] of a loaded document: validate, then overwrite the stored
    document with the same [_id]. *)
Definition save (this : t) (l : list t) : result (list t) :=
  match validationError this with
  | Some e => Err 500 e
  | None => Ok 200 (replaceFirst (hasId (_id this)) this l)
  end.

Definition stamp (s : status_) (notes : option string) (reason : option string)
    (txid : option string) (adminId : ObjectId) (now : Z) (this : t) : t :=
  {| _id := _id this; seller := seller this; amount := amount this;
     bankDetails := bankDetails this; status := s;
     adminNotes := notes; processedBy := Some adminId;
     processedAt := Some now; rejectionReason := reason;
     transactionId := txid; paymentMethod := paymentMethod this;
     createdAt := createdAt this |}.

(** [methods.approve], [methods.reject], [methods.markAsProcessed], each up
    to its final [this.save()]. *)
Definition approve (adminId : ObjectId) (notes : string) (now : Z) (this : t) : t :=
  stamp approved (Some notes) (rejectionReason this) (transactionId this)
        adminId now this.

Definition reject (adminId : ObjectId) (reason : string) (now : Z) (this : t) : t :=
  stamp rejected (adminNotes this) (Some reason) (transactionId this)
        adminId now this.

Definition markAsProcessed (adminId : ObjectId) (txid : string) (now : Z) (this : t) : t :=
  stamp processed (adminNotes this) (rejectionReason this) (Some txid)
        adminId now this.

End WithdrawalRequest.

(** ** Product, SellerProduct and Order documents *)

(** Modelled from the spec: the Product schema (models/Product.js) is not
    among the sources.  The record holds the fields the order controller
    reads, and the cumulative sold count of section 4.1 of the specification
    ([totalSold]). *)
Module Product.

Record t := {
  name : string;
  images : list string;
  sku : string;
  totalSold : Z
}.

Definition addSold (q : Z) (p : t) : t :=
  {| name := name p; images := images p; sku := sku p;
     totalSold := (totalSold p + q)%Z |}.

End Product.

Module SellerProduct.

Record t := {
  seller : ObjectId;
  product : ObjectId;
  sellerPrice : Q
}.

End SellerProduct.

(** Modelled from the spec: the Order schema (models/Order.js) is not among
    the sources.  The record holds the fields of the persisted Order of
    section 6 of the specification under the names the controllers use;
    statuses and the payment method are the strings the controllers assign
    and compare. *)
Module Order.

Record item := {
  product : ObjectId;
  name : string;
  image : string;
  price : Q;
  quantity : Z;
  sku : string
}.

Record address := {
  type : string;
  firstName : string;
  lastName : string;
  street : string;
  city : string;
  state : string;
  zipCode : string;
  country : string;
  phone : string
}.

Record paymentResult_ := {
  id : string;
  status : string;
  update_time : Z;
  email_address : string;
  razorpay_order_id : string;
  razorpay_signature : string
}.

Record t := {
  _id : ObjectId;
  orderNumber : string;
  user : ObjectId;
  seller : ObjectId;
  orderItems : list item;
  shippingAddress : address;
  paymentMethod : string;
  itemsPrice : Q;
  taxPrice : Q;
  shippingPrice : Q;
  totalPrice : Q;
  orderStatus : string;
  paymentStatus : string;
  shippingStatus : string;
  coupon : option string;
  discount : Q;
  orderIdempotencyKey : option string;
  razorpayOrderId : option string;
  commission : option Q;
  sellerEarnings : option Q;
  isEarningsCredited : bool;
  paymentResult : option paymentResult_;
  createdAt : Z
}.

Definition hasId (i : ObjectId) (o : t) : bool := String.eqb (_id o) i.

End Order.

(** ** The database *)
Record DB := {
  orders : list Order.t;
  products : gmap ObjectId Product.t;
  sellerProducts : gmap ObjectId SellerProduct.t;
  wallets : gmap ObjectId Wallet.t;
  withdrawals : list WithdrawalRequest.t
}.

Definition setOrders (os : list Order.t) (db : DB) : DB :=
  {| orders := os; products := products db;
     sellerProducts := sellerProducts db; wallets := wallets db;
     withdrawals := withdrawals db |}.

Definition setProducts (ps : gmap ObjectId Product.t) (db : DB) : DB :=
  {| orders := orders db; products := ps;
     sellerProducts := sellerProducts db; wallets := wallets db;
     withdrawals := withdrawals db |}.

Definition setWallets (ws : gmap ObjectId Wallet.t) (db : DB) : DB :=
  {| orders := orders db; products := products db;
     sellerProducts := sellerProducts db; wallets := ws;
     withdrawals := withdrawals db |}.

Definition setWithdrawals (l : list WithdrawalRequest.t) (db : DB) : DB :=
  {| orders := orders db; products := products db;
     sellerProducts := sellerProducts db; wallets := wallets db;
     withdrawals := l |}.

(** ** controllers/walletController.js *)

(** *** recomputeWalletForSeller *)
Module Recompute.

(** The in-memory state of the replay: [transactions], [runningBalance],
    [totalEarnings], [totalWithdrawn], [pendingWithdrawals]. *)
Record t := {
  transactions : list Transaction.t;
  runningBalance : Q;
  totalEarnings : Q;
  totalWithdrawn : Q;
  pendingWithdrawals : Q
}.

Definition init : t :=
  {| transactions := []; runningBalance := 0; totalEarnings := 0;
     totalWithdrawn := 0; pendingWithdrawals := 0 |}.

(** [order.commission && order.commission > 0 ? order.commission
     : order.totalPrice * 0.10] *)
Definition commissionOf (order : Order.t) : Q :=
  match Order.commission order with
  | Some c => if Qlt_bool 0 c then c else Order.totalPrice order * (1 # 10)
  | None => Order.totalPrice order * (1 # 10)
  end.

(** [order.sellerEarnings && order.sellerEarnings > 0 ? order.sellerEarnings
     : order.totalPrice - commission] *)
Definition sellerEarningsOf (order : Order.t) : Q :=
  match Order.sellerEarnings order with
  | Some e => if Qlt_bool 0 e then e
              else Order.totalPrice order - commissionOf order
  | None => Order.totalPrice order - commissionOf order
  end.

Definition entry (ty : Transaction.type_) (amount : Q) (description : string)
    (orderId withdrawalId : option ObjectId) (balance : Q)
    (status : Transaction.status_) : Transaction.t :=
  {| Transaction.type := ty; Transaction.amount := amount;
     Transaction.description := description;
     Transaction.orderId := orderId;
     Transaction.withdrawalId := withdrawalId;
     Transaction.balance := balance; Transaction.status := status |}.

(** Body of the loop over the delivered orders. *)
Definition creditOrder (acc : t) (order : Order.t) : t :=
  let sellerEarnings := sellerEarningsOf order in
  let runningBalance' := runningBalance acc + sellerEarnings in
  {| transactions := transactions acc ++
       [entry Transaction.credit sellerEarnings
          (String.append "Earnings from order " (Order.orderNumber order))
          (Some (Order._id order)) None runningBalance' Transaction.completed];
     runningBalance := runningBalance';
     totalEarnings := totalEarnings acc + sellerEarnings;
     totalWithdrawn := totalWithdrawn acc;
     pendingWithdrawals := pendingWithdrawals acc |}.

(** Body of the loop over the withdrawal requests. *)
Definition applyWithdrawal (acc : t) (wr : WithdrawalRequest.t) : t :=
  let amount := WithdrawalRequest.amount wr in
  let wid := Some (WithdrawalRequest._id wr) in
  match WithdrawalRequest.status wr with
  | WithdrawalRequest.pending | WithdrawalRequest.approved =>
      let runningBalance' := runningBalance acc - amount in
      {| transactions := transactions acc ++
           [entry Transaction.debit amount "Withdrawal request created"
              None wid runningBalance' Transaction.pending];
         runningBalance := runningBalance';
         totalEarnings := totalEarnings acc;
         totalWithdrawn := totalWithdrawn acc;
         pendingWithdrawals := pendingWithdrawals acc + amount |}
  | WithdrawalRequest.rejected =>
      let held := runningBalance acc - amount in
      let runningBalance' := held + amount in
      {| transactions := transactions acc ++
           [entry Transaction.debit amount "Withdrawal request created"
              None wid held Transaction.pending;
            entry Transaction.credit amount
              "Withdrawal request rejected - amount refunded"
              None wid runningBalance' Transaction.completed];
         runningBalance := runningBalance';
         totalEarnings := totalEarnings acc;
         totalWithdrawn := totalWithdrawn acc;
         pendingWithdrawals := pendingWithdrawals acc |}
  | WithdrawalRequest.processed =>
      let runningBalance' := runningBalance acc - amount in
      {| transactions := transactions acc ++
           [entry Transaction.debit amount "Withdrawal processed"
              None wid runningBalance' Transaction.completed];
         runningBalance := runningBalance';
         totalEarnings := totalEarnings acc;
         totalWithdrawn := totalWithdrawn acc + amount;
         pendingWithdrawals := pendingWithdrawals acc |}
  end.

(** The two loops, over the sorted query results. *)
Definition replay (deliveredOrders : list Order.t)
    (withdrawals : list WithdrawalRequest.t) : t :=
  fold_left applyWithdrawal withdrawals
    (fold_left creditOrder deliveredOrders init).

(** [Wallet.updateOne({ seller }, { $set: ... }, { upsert: true,
    setDefaultsOnInsert: true })]: the six fields are overwritten, any other
    field of an existing document is kept; update validators are off. *)
Definition upsert (existing : option Wallet.t) (r : t) : Wallet.t :=
  {| Wallet.balance := runningBalance r;
     Wallet.totalEarnings := totalEarnings r;
     Wallet.totalWithdrawn := totalWithdrawn r;
     Wallet.pendingWithdrawals := pendingWithdrawals r;
     Wallet.transactions := transactions r;
     Wallet.isActive := match existing with
                        | Some w => Wallet.isActive w
                        | None => true
                        end |}.

End Recompute.

Definition deliveredOrdersOf (sellerId : ObjectId) (db : DB) : list Order.t :=
  sortBy Order.createdAt
    (List.filter (fun o => String.eqb (Order.seller o) sellerId &&
                           String.eqb (Order.orderStatus o) "delivered")
       (orders db)).

Definition withdrawalsOf (sellerId : ObjectId) (db : DB) : list WithdrawalRequest.t :=
  sortBy WithdrawalRequest.createdAt
    (List.filter (fun wr => String.eqb (WithdrawalRequest.seller wr) sellerId)
       (withdrawals db)).

Definition recomputeWalletForSeller (sellerId : ObjectId) (db : DB)
  : option Wallet.t * DB :=
  let existing := wallets db !! sellerId in
  let r := Recompute.replay (deliveredOrdersOf sellerId db)
                            (withdrawalsOf sellerId db) in
  let db' := setWallets (<[sellerId := Recompute.upsert existing r]> (wallets db)) db in
  (wallets db' !! sellerId, db').

(** *** createWithdrawalRequest *)

(** Lines 360-373: the hold on the wallet document. *)
Definition holdFunds (amount : Q) (withdrawalId : ObjectId) (wallet : Wallet.t)
  : Wallet.t :=
  let pendingWithdrawals' := Wallet.pendingWithdrawals wallet + amount in
  let balance' := Wallet.balance wallet - amount in
  {| Wallet.balance := balance';
     Wallet.totalEarnings := Wallet.totalEarnings wallet;
     Wallet.totalWithdrawn := Wallet.totalWithdrawn wallet;
     Wallet.pendingWithdrawals := pendingWithdrawals';
     Wallet.transactions := Wallet.transactions wallet ++
       [Recompute.entry Transaction.debit amount "Withdrawal request created"
          None (Some withdrawalId) balance' Transaction.pending];
     Wallet.isActive := Wallet.isActive wallet |}.

Definition isPendingOf (sellerId : ObjectId) (wr : WithdrawalRequest.t) : bool :=
  String.eqb (WithdrawalRequest.seller wr) sellerId &&
  WithdrawalRequest.status_eqb (WithdrawalRequest.status wr)
                               WithdrawalRequest.pending.

(** The document given to [WithdrawalRequest.create]: the four fields of the
    call, every other field at its schema default. *)
Definition newRequest (now : Z) (newId sellerId : ObjectId) (amount : Q)
    (bankDetails : WithdrawalRequest.bankDetails_)
    (paymentMethod : option WithdrawalRequest.method) : WithdrawalRequest.t :=
  {| WithdrawalRequest._id := newId;
     WithdrawalRequest.seller := sellerId;
     WithdrawalRequest.amount := amount;
     WithdrawalRequest.bankDetails := bankDetails;
     WithdrawalRequest.status := WithdrawalRequest.pending;
     WithdrawalRequest.adminNotes := None;
     WithdrawalRequest.processedBy := None;
     WithdrawalRequest.processedAt := None;
     WithdrawalRequest.rejectionReason := None;
     WithdrawalRequest.transactionId := None;
     WithdrawalRequest.paymentMethod :=
       default WithdrawalRequest.bank_transfer paymentMethod;
     WithdrawalRequest.createdAt := now |}.

Definition createWithdrawalRequest (now : Z) (newId : ObjectId)
    (sellerId : ObjectId) (amount : Q)
    (bankDetails : WithdrawalRequest.bankDetails_)
    (paymentMethod : option WithdrawalRequest.method) (db : DB)
  : result WithdrawalRequest.t * DB :=
  if Qlt_bool amount 100 then
    (Err 400 "Minimum withdrawal amount is ₹100", db)
  else
    match wallets db !! sellerId with
    | None => (Err 400 "Insufficient balance", db)
    | Some wallet =>
        if Qlt_bool (Wallet.balance wallet) amount then
          (Err 400 "Insufficient balance", db)
        else
          let pendingWithdrawals :=
            length (List.filter (isPendingOf sellerId) (withdrawals db)) in
          if (0 <? pendingWithdrawals)%nat then
            (Err 400 "You already have a pending withdrawal request", db)
          else
            let doc := newRequest now newId sellerId amount bankDetails
                         paymentMethod in
            match WithdrawalRequest.create doc (withdrawals db) with
            | Err c e => (Err c e, db)
            | Ok _ l =>
                let db1 := setWithdrawals l db in
                match Wallet.save sellerId (holdFunds amount newId wallet)
                                  (wallets db1) with
                | None => (Err 500 "Wallet validation failed", db1)
                | Some ws => (Ok 201 doc, setWallets ws db1)
                end
            end
    end.

(** *** approveWithdrawal *)
Definition approveWithdrawal (now : Z) (adminId : ObjectId) (id : ObjectId)
    (notes : string) (db : DB) : result WithdrawalRequest.t * DB :=
  match findOne (WithdrawalRequest.hasId id) (withdrawals db) with
  | None => (Err 404 "Withdrawal request not found", db)
  | Some withdrawal =>
      if negb (WithdrawalRequest.status_eqb (WithdrawalRequest.status withdrawal)
                 WithdrawalRequest.pending) then
        (Err 400 "Withdrawal request is not pending", db)
      else
        let withdrawal' := WithdrawalRequest.approve adminId notes now withdrawal in
        match WithdrawalRequest.save withdrawal' (withdrawals db) with
        | Err c e => (Err c e, db)
        | Ok _ l => (Ok 200 withdrawal', setWithdrawals l db)
        end
  end.

(** *** rejectWithdrawal *)

(** Lines 471-482: the refund on the wallet document. *)
Definition refundHold (amount : Q) (withdrawalId : ObjectId) (wallet : Wallet.t)
  : Wallet.t :=
  let pendingWithdrawals' := Wallet.pendingWithdrawals wallet - amount in
  let balance' := Wallet.balance wallet + amount in
  {| Wallet.balance := balance';
     Wallet.totalEarnings := Wallet.totalEarnings wallet;
     Wallet.totalWithdrawn := Wallet.totalWithdrawn wallet;
     Wallet.pendingWithdrawals := pendingWithdrawals';
     Wallet.transactions := Wallet.transactions wallet ++
       [Recompute.entry Transaction.credit amount
          "Withdrawal request rejected - amount refunded"
          None (Some withdrawalId) balance' Transaction.completed];
     Wallet.isActive := Wallet.isActive wallet |}.

Definition rejectWithdrawal (now : Z) (adminId : ObjectId) (id : ObjectId)
    (reason : string) (db : DB) : result WithdrawalRequest.t * DB :=
  match findOne (WithdrawalRequest.hasId id) (withdrawals db) with
  | None => (Err 404 "Withdrawal request not found", db)
  | Some withdrawal =>
      if negb (WithdrawalRequest.status_eqb (WithdrawalRequest.status withdrawal)
                 WithdrawalRequest.pending) then
        (Err 400 "Withdrawal request is not pending", db)
      else
        let withdrawal' := WithdrawalRequest.reject adminId reason now withdrawal in
        match WithdrawalRequest.save withdrawal' (withdrawals db) with
        | Err c e => (Err c e, db)
        | Ok _ l =>
            let db1 := setWithdrawals l db in
            let sellerId := WithdrawalRequest.seller withdrawal' in
            match wallets db1 !! sellerId with
            | None => (Ok 200 withdrawal', db1)
            | Some wallet =>
                let wallet' :=
                  refundHold (WithdrawalRequest.amount withdrawal')
                             (WithdrawalRequest._id withdrawal') wallet in
                match Wallet.save sellerId wallet' (wallets db1) with
                | None => (Err 500 "Wallet validation failed", db1)
                | Some ws => (Ok 200 withdrawal', setWallets ws db1)
                end
            end
        end
  end.

(** *** processWithdrawal *)

(** The predicate of the [find] at line 525. *)
Definition isPendingDebitOf (withdrawalId : ObjectId) (t : Transaction.t) : bool :=
  match Transaction.withdrawalId t with
  | Some w => String.eqb w withdrawalId
  | None => false
  end && Transaction.isDebit t && Transaction.isPending t.

(** Lines 517-539: settlement on the wallet document. *)
Definition settleHold (amount : Q) (withdrawalId : ObjectId) (wallet : Wallet.t)
  : Wallet.t :=
  let pendingWithdrawals' := Wallet.pendingWithdrawals wallet - amount in
  let totalWithdrawn' := Wallet.totalWithdrawn wallet + amount in
  let transactions' :=
    match updateLast (isPendingDebitOf withdrawalId)
            (Transaction.setStatus Transaction.completed)
            (Wallet.transactions wallet) with
    | Some txs => txs
    | None =>
        Wallet.transactions wallet ++
          [Recompute.entry Transaction.debit amount "Withdrawal processed"
             None (Some withdrawalId) (Wallet.balance wallet)
             Transaction.completed]
    end in
  {| Wallet.balance := Wallet.balance wallet;
     Wallet.totalEarnings := Wallet.totalEarnings wallet;
     Wallet.totalWithdrawn := totalWithdrawn';
     Wallet.pendingWithdrawals := pendingWithdrawals';
     Wallet.transactions := transactions';
     Wallet.isActive := Wallet.isActive wallet |}.

Definition processWithdrawal (now : Z) (adminId : ObjectId) (id : ObjectId)
    (transactionId : string) (db : DB) : result WithdrawalRequest.t * DB :=
  match findOne (WithdrawalRequest.hasId id) (withdrawals db) with
  | None => (Err 404 "Withdrawal request not found", db)
  | Some withdrawal =>
      if negb (WithdrawalRequest.status_eqb (WithdrawalRequest.status withdrawal)
                 WithdrawalRequest.approved) then
        (Err 400 "Withdrawal request must be approved first", db)
      else
        let withdrawal' :=
          WithdrawalRequest.markAsProcessed adminId transactionId now withdrawal in
        match WithdrawalRequest.save withdrawal' (withdrawals db) with
        | Err c e => (Err c e, db)
        | Ok _ l =>
            let db1 := setWithdrawals l db in
            let sellerId := WithdrawalRequest.seller withdrawal' in
            match wallets db1 !! sellerId with
            | None => (Ok 200 withdrawal', db1)
            | Some wallet =>
                let wallet' :=
                  settleHold (WithdrawalRequest.amount withdrawal')
                             (WithdrawalRequest._id withdrawal') wallet in
                match Wallet.save sellerId wallet' (wallets db1) with
                | None => (Err 500 "Wallet validation failed", db1)
                | Some ws => (Ok 200 withdrawal', setWallets ws db1)
                end
            end
        end
  end.

(** ** controllers/orderController.js *)

Module CartItem.

(** An element of [req.body.items].  [price] is the price the client sent. *)
Record t := {
  product : string;
  seller : string;
  sellerProduct : string;
  price : Q;
  quantity : Z
}.

End CartItem.

Module OrderRequest.

(** [req.user._id] and the fields read from [req.body].  An absent string
    field is the empty string. *)
Record t := {
  user : option ObjectId;
  shippingAddress : option Order.address;
  items : list CartItem.t;
  paymentMethod : string;
  coupon : option string;
  discount : option Q;
  orderIdempotencyKey : string;
  razorpay_order_id : string
}.

End OrderRequest.

(** The filter of the duplicate check: same buyer, same key, created within
    the last five minutes. *)
Definition isDuplicateOf (userId : ObjectId) (key : string) (now : Z)
    (o : Order.t) : bool :=
  String.eqb (Order.user o) userId &&
  match Order.orderIdempotencyKey o with
  | Some k => String.eqb k key
  | None => false
  end &&
  (now - 5 * 60 * 1000 <=? Order.createdAt o)%Z.

(** [itemsBySeller]: a JavaScript object used as a map; [Object.keys] lists
    its keys in the order of their first insertion. *)
Fixpoint pushItem (item : CartItem.t) (m : list (ObjectId * list CartItem.t))
  : list (ObjectId * list CartItem.t) :=
  match m with
  | [] => [(CartItem.seller item, [item])]
  | (k, l) :: r =>
      if String.eqb k (CartItem.seller item) then (k, l ++ [item]) :: r
      else (k, l) :: pushItem item r
  end.

(** The grouping loop; [inl] is the message of the 400 response. *)
Fixpoint groupBySeller (items : list CartItem.t)
    (itemsBySeller : list (ObjectId * list CartItem.t))
  : string + list (ObjectId * list CartItem.t) :=
  match items with
  | [] => inr itemsBySeller
  | item :: rest =>
      if negb (truthy (CartItem.product item)) || negb (truthy (CartItem.seller item))
      then inl "Product or seller missing in order item."
      else if negb (String.length (CartItem.product item) =? 24)%nat
      then inl "Invalid product ID format."
      else if negb (String.length (CartItem.seller item) =? 24)%nat
      then inl "Invalid seller ID format."
      else groupBySeller rest (pushItem item itemsBySeller)
  end.

(** [items.reduce((sum, item) => sum + (item.price * item.quantity), 0)] *)
Definition totalOrderValueOf (items : list CartItem.t) : Q :=
  fold_left (fun sum item =>
               sum + CartItem.price item * inject_Z (CartItem.quantity item))
            items 0.

(** [orderItems.reduce((sum, i) => sum + i.price * i.quantity, 0)] *)
Definition itemsPriceOf (orderItems : list Order.item) : Q :=
  fold_left (fun sum i => sum + Order.price i * inject_Z (Order.quantity i))
            orderItems 0.

(** [totalOrderValue > 0 ? (discount || 0) * (itemsPrice / totalOrderValue) : 0] *)
Definition sellerDiscountOf (discount : option Q) (itemsPrice totalOrderValue : Q) : Q :=
  if Qlt_bool 0 totalOrderValue
  then orZero discount * (itemsPrice / totalOrderValue)
  else 0.

(** A MongoDB session with a started transaction: writes made with
    [{ session }] are staged and reach the collections on commit only. *)
Record Session := {
  stagedOrders : list Order.t;
  stagedProducts : list (ObjectId * Product.t)
}.

Definition startTransaction : Session :=
  {| stagedOrders := []; stagedProducts := [] |}.

Definition commitTransaction (s : Session) (db : DB) : DB :=
  setOrders (orders db ++ stagedOrders s)
    (setProducts
       (fold_left (fun ps kv => <[fst kv := snd kv]> ps)
                  (stagedProducts s) (products db))
       db).

(** [abortTransaction] discards the session: the database stays as the
    writes made outside the session left it. *)
Definition abortTransaction (s : Session) (db : DB) : DB := db.

(** [product.save()] in [createOrder] and [product.save({ session })] in
    [createOrderForRazorpay]. *)
Definition saveProduct (inSession : bool) (id : ObjectId) (p : Product.t)
    (st : DB * Session) : DB * Session :=
  if inSession then
    (fst st, {| stagedOrders := stagedOrders (snd st);
                stagedProducts := stagedProducts (snd st) ++ [(id, p)] |})
  else
    (setProducts (<[id := p]> (products (fst st))) (fst st), snd st).

(** [order.save({ session })] *)
Definition saveOrder (o : Order.t) (st : DB * Session) : DB * Session :=
  (fst st, {| stagedOrders := stagedOrders (snd st) ++ [o];
              stagedProducts := stagedProducts (snd st) |}).

(** The callback mapped over the items of one seller.  [inl] is the message
    of the thrown error.  Both lookups are made outside the session. *)
Definition resolveItem (inSession : bool) (sellerId : ObjectId)
    (item : CartItem.t) (st : DB * Session)
  : (string + Order.item) * (DB * Session) :=
  match products (fst st) !! CartItem.product item with
  | None => (inl (String.append "Product not found: " (CartItem.product item)), st)
  | Some product =>
      match sellerProducts (fst st) !! CartItem.sellerProduct item with
      | None =>
          (inl (String.append "Seller product not found: "
                  (CartItem.sellerProduct item)), st)
      | Some sellerProduct =>
          if negb (String.eqb (SellerProduct.seller sellerProduct) sellerId) then
            (inl (String.append "Seller mismatch for product "
                    (CartItem.product item)), st)
          else
            let product' := Product.addSold (CartItem.quantity item) product in
            (inr {| Order.product := CartItem.product item;
                    Order.name := Product.name product;
                    Order.image := hd "" (Product.images product);
                    Order.price := SellerProduct.sellerPrice sellerProduct;
                    Order.quantity := CartItem.quantity item;
                    Order.sku := Product.sku product |},
             saveProduct inSession (CartItem.product item) product' st)
      end
  end.

(** [Promise.all(sellerItems.map(...))], with the callbacks run one after the
    other in list order up to the first one that throws. *)
Fixpoint resolveItems (inSession : bool) (sellerId : ObjectId)
    (sellerItems : list CartItem.t) (st : DB * Session)
  : (string + list Order.item) * (DB * Session) :=
  match sellerItems with
  | [] => (inr [], st)
  | item :: rest =>
      match resolveItem inSession sellerId item st with
      | (inl e, st1) => (inl e, st1)
      | (inr oi, st1) =>
          match resolveItems inSession sellerId rest st1 with
          | (inl e, st2) => (inl e, st2)
          | (inr ois, st2) => (inr (oi :: ois), st2)
          end
      end
  end.

Definition orElse (s d : string) : string := if truthy s then s else d.

(** The [shippingAddress] sub-document of the new order. *)
Definition addressOf (a : Order.address) : Order.address :=
  {| Order.type := orElse (Order.type a) "home";
     Order.firstName := orElse (Order.firstName a) "";
     Order.lastName := orElse (Order.lastName a) "";
     Order.street := Order.street a;
     Order.city := Order.city a;
     Order.state := Order.state a;
     Order.zipCode := Order.zipCode a;
     Order.country := Order.country a;
     Order.phone := orElse (Order.phone a) "" |}.

(** [new Order({...})] for one seller.  [razorpay] selects the fields of
    [createOrderForRazorpay]: [paymentMethod: 'razorpay'] and
    [razorpayOrderId]. *)
Definition newOrder (razorpay : bool) (now : Z) (id : ObjectId)
    (number : string) (userId sellerId : ObjectId) (req : OrderRequest.t)
    (address : Order.address) (orderItems : list Order.item)
    (totalOrderValue : Q) : Order.t :=
  let itemsPrice := itemsPriceOf orderItems in
  let shippingPrice := 0 in
  let taxPrice := 0 in
  let sellerDiscount :=
    sellerDiscountOf (OrderRequest.discount req) itemsPrice totalOrderValue in
  let totalPrice := itemsPrice + shippingPrice + taxPrice - sellerDiscount in
  {| Order._id := id;
     Order.orderNumber := number;
     Order.user := userId;
     Order.seller := sellerId;
     Order.orderItems := orderItems;
     Order.shippingAddress := addressOf address;
     Order.paymentMethod :=
       if razorpay then "razorpay" else OrderRequest.paymentMethod req;
     Order.itemsPrice := itemsPrice;
     Order.taxPrice := taxPrice;
     Order.shippingPrice := shippingPrice;
     Order.totalPrice := totalPrice;
     Order.orderStatus := "pending";
     Order.paymentStatus := "pending";
     Order.shippingStatus := "pending";
     Order.coupon := OrderRequest.coupon req;
     Order.discount := orZero (OrderRequest.discount req);
     Order.orderIdempotencyKey :=
       if truthy (OrderRequest.orderIdempotencyKey req)
       then Some (OrderRequest.orderIdempotencyKey req) else None;
     Order.razorpayOrderId :=
       if razorpay then Some (OrderRequest.razorpay_order_id req) else None;
     Order.commission := None;
     Order.sellerEarnings := None;
     Order.isEarningsCredited := false;
     Order.paymentResult := None;
     Order.createdAt := now |}.

(** The loop over [Object.keys(itemsBySeller)].  [fresh k] is the ObjectId
    and the order number given to the [k]-th order of the request.  [inl] is
    the message of the error caught by the inner [catch]. *)
Fixpoint forEachSeller (razorpay : bool) (now : Z)
    (fresh : nat -> ObjectId * string) (userId : ObjectId)
    (req : OrderRequest.t) (address : Order.address) (totalOrderValue : Q)
    (itemsBySeller : list (ObjectId * list CartItem.t)) (k : nat)
    (createdOrders : list Order.t) (st : DB * Session)
  : (string + list Order.t) * (DB * Session) :=
  match itemsBySeller with
  | [] => (inr createdOrders, st)
  | (sellerId, sellerItems) :: rest =>
      match resolveItems razorpay sellerId sellerItems st with
      | (inl e, st1) => (inl e, st1)
      | (inr orderItems, st1) =>
          let order := newOrder razorpay now (fst (fresh k)) (snd (fresh k))
                         userId sellerId req address orderItems
                         totalOrderValue in
          forEachSeller razorpay now fresh userId req address totalOrderValue
            rest (S k) (createdOrders ++ [order]) (saveOrder order st1)
      end
  end.

(** [createOrder] and [createOrderForRazorpay] share their text; the second
    differs in four places, selected here by [razorpay]: the required
    [razorpay_order_id], [product.save({ session })], and the two order
    fields of [newOrder].  [Ok 200] is the duplicate response, [Ok 201] the
    response with the created orders. *)
Definition createOrderWith (razorpay : bool) (now : Z)
    (fresh : nat -> ObjectId * string) (req : OrderRequest.t) (db : DB)
  : result (list Order.t) * DB :=
  match OrderRequest.user req with
  | None => (Err 401 "User not authenticated", db)
  | Some userId =>
      let orderIdempotencyKey := OrderRequest.orderIdempotencyKey req in
      match (if truthy orderIdempotencyKey
             then findOne (isDuplicateOf userId orderIdempotencyKey now) (orders db)
             else None) with
      | Some existingOrder => (Ok 200 [existingOrder], db)
      | None =>
          match OrderRequest.shippingAddress req with
          | None =>
              (Err 400 (if razorpay
                        then "Missing required fields: shippingAddress, items, paymentMethod, or razorpay_order_id"
                        else "Missing required fields: shippingAddress, items, or paymentMethod"), db)
          | Some shippingAddress =>
              if negb (truthy (OrderRequest.paymentMethod req)) ||
                 (razorpay && negb (truthy (OrderRequest.razorpay_order_id req)))
              then
                (Err 400 (if razorpay
                          then "Missing required fields: shippingAddress, items, paymentMethod, or razorpay_order_id"
                          else "Missing required fields: shippingAddress, items, or paymentMethod"), db)
              else
                match OrderRequest.items req with
                | [] => (Err 400 "Items must be a non-empty array", db)
                | items =>
                    match groupBySeller items [] with
                    | inl e => (Err 400 e, db)
                    | inr itemsBySeller =>
                        let session := startTransaction in
                        let totalOrderValue := totalOrderValueOf items in
                        match forEachSeller razorpay now fresh userId req
                                shippingAddress totalOrderValue itemsBySeller
                                0%nat [] (db, session) with
                        | (inl e, (db1, s)) =>
                            (Err 500 (String.append "Failed to create order: " e),
                             abortTransaction s db1)
                        | (inr createdOrders, (db1, s)) =>
                            (Ok 201 createdOrders, commitTransaction s db1)
                        end
                    end
                end
          end
      end
  end.

Definition createOrder := createOrderWith false.
Definition createOrderForRazorpay := createOrderWith true.

(** *** updateOrderStatus *)

Definition withStatus (status : string) (o : Order.t) : Order.t :=
  {| Order._id := Order._id o; Order.orderNumber := Order.orderNumber o;
     Order.user := Order.user o; Order.seller := Order.seller o;
     Order.orderItems := Order.orderItems o;
     Order.shippingAddress := Order.shippingAddress o;
     Order.paymentMethod := Order.paymentMethod o;
     Order.itemsPrice := Order.itemsPrice o; Order.taxPrice := Order.taxPrice o;
     Order.shippingPrice := Order.shippingPrice o;
     Order.totalPrice := Order.totalPrice o;
     Order.orderStatus := status;
     Order.paymentStatus := Order.paymentStatus o;
     Order.shippingStatus := Order.shippingStatus o;
     Order.coupon := Order.coupon o; Order.discount := Order.discount o;
     Order.orderIdempotencyKey := Order.orderIdempotencyKey o;
     Order.razorpayOrderId := Order.razorpayOrderId o;
     Order.commission := Order.commission o;
     Order.sellerEarnings := Order.sellerEarnings o;
     Order.isEarningsCredited := Order.isEarningsCredited o;
     Order.paymentResult := Order.paymentResult o;
     Order.createdAt := Order.createdAt o |}.

(** [order.commission = commission; order.sellerEarnings = sellerEarnings;
     order.isEarningsCredited = true] *)
Definition withEarnings (commission sellerEarnings : Q) (o : Order.t) : Order.t :=
  {| Order._id := Order._id o; Order.orderNumber := Order.orderNumber o;
     Order.user := Order.user o; Order.seller := Order.seller o;
     Order.orderItems := Order.orderItems o;
     Order.shippingAddress := Order.shippingAddress o;
     Order.paymentMethod := Order.paymentMethod o;
     Order.itemsPrice := Order.itemsPrice o; Order.taxPrice := Order.taxPrice o;
     Order.shippingPrice := Order.shippingPrice o;
     Order.totalPrice := Order.totalPrice o;
     Order.orderStatus := Order.orderStatus o;
     Order.paymentStatus := Order.paymentStatus o;
     Order.shippingStatus := Order.shippingStatus o;
     Order.coupon := Order.coupon o; Order.discount := Order.discount o;
     Order.orderIdempotencyKey := Order.orderIdempotencyKey o;
     Order.razorpayOrderId := Order.razorpayOrderId o;
     Order.commission := Some commission;
     Order.sellerEarnings := Some sellerEarnings;
     Order.isEarningsCredited := true;
     Order.paymentResult := Order.paymentResult o;
     Order.createdAt := Order.createdAt o |}.

(** [order.save()] *)
Definition storeOrder (o : Order.t) (db : DB) : DB :=
  setOrders (replaceFirst (Order.hasId (Order._id o)) o (orders db)) db.

(** The [try] block of [updateOrderStatus] on the wallet collection: find or
    create the seller's wallet, then [addTransaction].  An error thrown by
    the final [save()] is caught and logged, leaving what was written before
    it. *)
Definition creditEarnings (order : Order.t) (sellerEarnings : Q)
    (ws : gmap ObjectId Wallet.t) : gmap ObjectId Wallet.t :=
  let found := ws !! Order.seller order in
  let wallet := default Wallet.create found in
  let ws1 := match found with
             | Some _ => ws
             | None => <[Order.seller order := Wallet.create]> ws
             end in
  match Wallet.save (Order.seller order)
          (Wallet.addTransaction Transaction.credit sellerEarnings
             (String.append "Earnings from order " (Order.orderNumber order))
             (Some (Order._id order)) None wallet) ws1 with
  | Some ws2 => ws2
  | None => ws1
  end.

Definition updateOrderStatus (id : ObjectId) (status : string) (db : DB)
  : result Order.t * DB :=
  match findOne (Order.hasId id) (orders db) with
  | None => (Err 404 "Order not found", db)
  | Some order0 =>
      let order := withStatus status order0 in
      if String.eqb status "delivered" && negb (Order.isEarningsCredited order) then
        let commission := Order.totalPrice order * (1 # 10) in
        let sellerEarnings := Order.totalPrice order - commission in
        let order' := withEarnings commission sellerEarnings order in
        let db1 := setWallets (creditEarnings order' sellerEarnings (wallets db)) db in
        (Ok 200 order', storeOrder order' db1)
      else
        (Ok 200 order, storeOrder order db)
  end.

(** ** The payment controller: capturePaymentForOrders *)

(** [process.env] *)
Record Env := {
  RAZORPAY_KEY_ID : option string;
  RAZORPAY_KEY_SECRET : option string
}.

(** Answer of [instance.orders.fetch]: a thrown error, a null order, or an
    order with its (possibly absent) [amount] in paise. *)
Inductive fetched := FetchThrows | FetchNull | Fetched (amount : option Z).

(** What the handler calls outside the repository: the HMAC of the crypto
    module ([createHmac('sha256', key).update(msg).digest('hex')]) and the
    two gateway calls; [payments_capture] answers [false] when it throws. *)
Record Collaborators := {
  hmac_sha256_hex : string -> string -> string;
  orders_fetch : string -> fetched;
  payments_capture : string -> Z -> string -> bool
}.

Module CaptureRequest.

(** [req.user] ([_id] and [email]) and the fields read from [req.body]. *)
Record t := {
  user : option (ObjectId * string);
  orderIds : list ObjectId;
  razorpay_order_id : string;
  razorpay_payment_id : string;
  razorpay_signature : string
}.

End CaptureRequest.

(** [getRazorpayInstance] throws unless both keys are set and non-empty. *)
Definition getRazorpayInstance (env : Env) : bool :=
  match RAZORPAY_KEY_ID env, RAZORPAY_KEY_SECRET env with
  | Some keyId, Some keySecret => truthy keyId && truthy keySecret
  | _, _ => false
  end.

(** [Order.find({ _id: { $in: orderIds } })] *)
Definition findOrdersIn (orderIds : list ObjectId) (db : DB) : list Order.t :=
  List.filter (fun o => existsb (String.eqb (Order._id o)) orderIds) (orders db).

(** [Math.round(orders.reduce((sum, o) => sum + (o.totalPrice || 0), 0) * 100)] *)
Definition sumOfTotals (os : list Order.t) : Q :=
  fold_left (fun sum o => sum + Order.totalPrice o) os 0.

Definition totalAmountPaiseOf (os : list Order.t) : Z :=
  Math_round (sumOfTotals os * 100).

(** [Math.abs((rpOrder.amount || 0) - totalAmountPaise)] *)
Definition amountDiffOf (amount : option Z) (totalAmountPaise : Z) : Z :=
  Z.abs (default 0%Z amount - totalAmountPaise).

(** Body of the final loop, up to [order.save()]. *)
Definition markPaid (now : Z) (req : CaptureRequest.t) (o : Order.t) : Order.t :=
  {| Order._id := Order._id o; Order.orderNumber := Order.orderNumber o;
     Order.user := Order.user o; Order.seller := Order.seller o;
     Order.orderItems := Order.orderItems o;
     Order.shippingAddress := Order.shippingAddress o;
     Order.paymentMethod := "razorpay";
     Order.itemsPrice := Order.itemsPrice o; Order.taxPrice := Order.taxPrice o;
     Order.shippingPrice := Order.shippingPrice o;
     Order.totalPrice := Order.totalPrice o;
     Order.orderStatus := "confirmed";
     Order.paymentStatus := "paid";
     Order.shippingStatus := Order.shippingStatus o;
     Order.coupon := Order.coupon o; Order.discount := Order.discount o;
     Order.orderIdempotencyKey := Order.orderIdempotencyKey o;
     Order.razorpayOrderId := Order.razorpayOrderId o;
     Order.commission := Order.commission o;
     Order.sellerEarnings := Order.sellerEarnings o;
     Order.isEarningsCredited := Order.isEarningsCredited o;
     Order.paymentResult :=
       Some {| Order.id := CaptureRequest.razorpay_payment_id req;
               Order.status := "captured";
               Order.update_time := now;
               Order.email_address :=
                 match CaptureRequest.user req with
                 | Some (_, email) => email
                 | None => ""
                 end;
               Order.razorpay_order_id := CaptureRequest.razorpay_order_id req;
               Order.razorpay_signature := CaptureRequest.razorpay_signature req |};
     Order.createdAt := Order.createdAt o |}.

(** The [try] block around the gateway: [inl] is the response that leaves
    the handler there, [inr tt] lets it go on to the update loop. *)
Definition secureFunds (env : Env) (c : Collaborators) (req : CaptureRequest.t)
    (totalAmountPaise : Z) : (nat * string) + unit :=
  if negb (getRazorpayInstance env) then inl (502%nat, "Failed to capture payment")
  else
    match orders_fetch c (CaptureRequest.razorpay_order_id req) with
    | FetchThrows => inl (502%nat, "Failed to capture payment")
    | FetchNull => inl (400%nat, "Razorpay order not found")
    | Fetched amount =>
        if (2 <? amountDiffOf amount totalAmountPaise)%Z then
          inl (400%nat, "Payment amount mismatch")
        else if payments_capture c (CaptureRequest.razorpay_payment_id req)
                  totalAmountPaise "INR"
        then inr tt
        else inl (502%nat, "Failed to capture payment")
    end.

Definition capturePaymentForOrders (env : Env) (c : Collaborators) (now : Z)
    (req : CaptureRequest.t) (db : DB) : result (list Order.t) * DB :=
  match CaptureRequest.orderIds req with
  | [] => (Err 400 "orderIds is required", db)
  | orderIds =>
      if negb (truthy (CaptureRequest.razorpay_order_id req)) ||
         negb (truthy (CaptureRequest.razorpay_payment_id req)) ||
         negb (truthy (CaptureRequest.razorpay_signature req))
      then (Err 400 "Missing payment fields", db)
      else
        match RAZORPAY_KEY_SECRET env with
        | None => (Err 500 "The key argument must be a string", db)
        | Some keySecret =>
            let hmac :=
              hmac_sha256_hex c keySecret
                (String.append (CaptureRequest.razorpay_order_id req)
                   (String.append "|" (CaptureRequest.razorpay_payment_id req))) in
            if negb (String.eqb hmac (CaptureRequest.razorpay_signature req)) then
              (Err 400 "Invalid payment signature", db)
            else
              let found := findOrdersIn orderIds db in
              if negb (length found =? length orderIds)%nat then
                (Err 404 "Some orders not found", db)
              else
                let userIdStr := option_map fst (CaptureRequest.user req) in
                let allOwned :=
                  forallb (fun o => match userIdStr with
                                    | Some u => String.eqb (Order.user o) u
                                    | None => false
                                    end) found in
                if negb allOwned then
                  (Err 403 "You are not authorized to pay for these orders", db)
                else
                  let totalAmountPaise := totalAmountPaiseOf found in
                  match secureFunds env c req totalAmountPaise with
                  | inl (code, message) => (Err code message, db)
                  | inr _ =>
                      let paid := map (markPaid now req) found in
                      (Ok 200 paid, fold_left (fun d o => storeOrder o d) paid db)
                  end
        end
  end.

(** ** Specification vocabulary *)

(** The amount of an entry with the sign of its type. *)
Definition signedAmount (t : Transaction.t) : Q :=
  match Transaction.type t with
  | Transaction.credit => Transaction.amount t
  | Transaction.debit => - Transaction.amount t
  end.

(** Every entry records the balance recorded by the entry before it (the
    opening balance [prev] for the first one) plus its signed amount. *)
Fixpoint ledgerChain (prev : Q) (txs : list Transaction.t) : Prop :=
  match txs with
  | [] => True
  | t :: rest =>
      Transaction.balance t == prev + signedAmount t /\
      ledgerChain (Transaction.balance t) rest
  end.

(** The balance recorded by the last entry; [opening] for an empty log. *)
Definition lastBalance (opening : Q) (txs : list Transaction.t) : Q :=
  fold_left (fun _ t => Transaction.balance t) txs opening.

(** The running-balance invariant of an account opened at zero. *)
Definition ledgerInvariant (w : Wallet.t) : Prop :=
  ledgerChain 0 (Wallet.transactions w) /\
  Wallet.balance w == lastBalance 0 (Wallet.transactions w).

(** The running-balance invariant on the in-memory state of the replay. *)
Definition replayInvariant (r : Recompute.t) : Prop :=
  ledgerChain 0 (Recompute.transactions r) /\
  Recompute.runningBalance r == lastBalance 0 (Recompute.transactions r).

(** The five fields that make up the ledger state of a stored wallet. *)
Definition ledgerState (w : Wallet.t)
  : list Transaction.t * Q * Q * Q * Q :=
  (Wallet.transactions w, Wallet.balance w, Wallet.totalEarnings w,
   Wallet.totalWithdrawn w, Wallet.pendingWithdrawals w).

(** The seller has a request in state [pending]. *)
Definition hasPendingRequest (sellerId : ObjectId) (db : DB) : Prop :=
  Exists (fun wr => WithdrawalRequest.seller wr = sellerId /\
                    WithdrawalRequest.status wr = WithdrawalRequest.pending)
         (withdrawals db).

(** The seller has no wallet, or less in it than [amount]. *)
Definition insufficientBalance (sellerId : ObjectId) (amount : Q) (db : DB) : Prop :=
  match wallets db !! sellerId with
  | None => True
  | Some w => Wallet.balance w < amount
  end.

(** [w'] differs from [w] in its aggregates by the given amounts, with
    [totalEarnings] unchanged. *)
Definition aggregatesMoved (w w' : Wallet.t) (dBalance dPending dWithdrawn : Q)
  : Prop :=
  Wallet.balance w' == Wallet.balance w + dBalance /\
  Wallet.pendingWithdrawals w' == Wallet.pendingWithdrawals w + dPending /\
  Wallet.totalWithdrawn w' == Wallet.totalWithdrawn w + dWithdrawn /\
  Wallet.totalEarnings w' == Wallet.totalEarnings w.

(** The preconditions of withdrawal creation: the seller's wallet [w] holds
    at least [amount], [amount] reaches the minimum of 100, and the seller
    has no pending request. *)
Definition creationPreconditions (sellerId : ObjectId) (amount : Q)
    (w : Wallet.t) (db : DB) : Prop :=
  wallets db !! sellerId = Some w /\
  100 <= amount /\
  amount <= Wallet.balance w /\
  ~ hasPendingRequest sellerId db.

(** The destination details are the ones the payout method requires. *)
Definition detailsAccepted (paymentMethod : option WithdrawalRequest.method)
    (bankDetails : WithdrawalRequest.bankDetails_) : Prop :=
  let details := bankDetails in
  match default WithdrawalRequest.bank_transfer paymentMethod with
  | WithdrawalRequest.bank_transfer =>
      WithdrawalRequest.accountNumber details <> "" /\
      WithdrawalRequest.ifscCode details <> ""
  | WithdrawalRequest.upi => WithdrawalRequest.upiId details <> ""
  | WithdrawalRequest.paytm | WithdrawalRequest.phonepe =>
      WithdrawalRequest.walletNumber details <> ""
  end.

(** No stored withdrawal request carries the id [newId]. *)
Definition freshWithdrawalId (newId : ObjectId) (db : DB) : Prop :=
  Forall (fun wr => WithdrawalRequest._id wr <> newId) (withdrawals db).

(** The message signed by the gateway and the orders a capture request
    names. *)
Definition signedMessage (req : CaptureRequest.t) : string :=
  String.append (CaptureRequest.razorpay_order_id req)
    (String.append "|" (CaptureRequest.razorpay_payment_id req)).

(** The failures of a capture: the signature does not match, an order is
    missing, an order belongs to another buyer, the gateway's amount is off
    by more than the tolerance, or a gateway call throws. *)
Definition captureFails (env : Env) (c : Collaborators) (req : CaptureRequest.t)
    (db : DB) : Prop :=
  let found := findOrdersIn (CaptureRequest.orderIds req) db in
  (forall key, RAZORPAY_KEY_SECRET env = Some key ->
     hmac_sha256_hex c key (signedMessage req) <> CaptureRequest.razorpay_signature req) \/
  length found <> length (CaptureRequest.orderIds req) \/
  (exists o, In o found /\
     Some (Order.user o) <> option_map fst (CaptureRequest.user req)) \/
  (exists amount,
     orders_fetch c (CaptureRequest.razorpay_order_id req) = Fetched amount /\
     (2 < amountDiffOf amount (totalAmountPaiseOf found))%Z) \/
  orders_fetch c (CaptureRequest.razorpay_order_id req) = FetchThrows \/
  payments_capture c (CaptureRequest.razorpay_payment_id req)
    (totalAmountPaiseOf found) "INR" = false.

(** The request passes every check made before the amounts are compared,
    and the gateway knows the order with the recorded [amount]. *)
Definition reachesAmountCheck (env : Env) (c : Collaborators)
    (req : CaptureRequest.t) (db : DB) (amount : option Z) : Prop :=
  let found := findOrdersIn (CaptureRequest.orderIds req) db in
  CaptureRequest.orderIds req <> [] /\
  CaptureRequest.razorpay_order_id req <> "" /\
  CaptureRequest.razorpay_payment_id req <> "" /\
  CaptureRequest.razorpay_signature req <> "" /\
  (exists key, RAZORPAY_KEY_SECRET env = Some key /\
     hmac_sha256_hex c key (signedMessage req) = CaptureRequest.razorpay_signature req) /\
  length found = length (CaptureRequest.orderIds req) /\
  (exists u, option_map fst (CaptureRequest.user req) = Some u /\
     Forall (fun o => Order.user o = u) found) /\
  getRazorpayInstance env = true /\
  orders_fetch c (CaptureRequest.razorpay_order_id req) = Fetched amount.

(** The order item [oi] made from the cart item [item] of seller [sellerId]
    carries the price of the seller's listing in [db]. *)
Definition pricedFromListing (db : DB) (sellerId : ObjectId)
    (item : CartItem.t) (oi : Order.item) : Prop :=
  exists listing,
    sellerProducts db !! CartItem.sellerProduct item = Some listing /\
    SellerProduct.seller listing = sellerId /\
    Order.price oi = SellerProduct.sellerPrice listing /\
    Order.quantity oi = CartItem.quantity item /\
    Order.product oi = CartItem.product item.

(** [share] is the part of the cart discount that falls to a seller whose
    items are worth [sellerSubtotal]. *)
Definition discountShare (discount totalOrderValue sellerSubtotal share : Q)
  : Prop :=
  (0 < totalOrderValue ->
     share == discount * (sellerSubtotal / totalOrderValue)) /\
  (totalOrderValue == 0 -> share == 0).

(** The order [o] is the one built for the seller partition [part]. *)
Definition orderOfPartition (db : DB) (discount totalOrderValue : Q)
    (part : ObjectId * list CartItem.t) (o : Order.t) : Prop :=
  Order.seller o = fst part /\
  Forall2 (pricedFromListing db (fst part)) (snd part) (Order.orderItems o) /\
  Order.itemsPrice o = itemsPriceOf (Order.orderItems o) /\
  exists share,
    discountShare discount totalOrderValue (Order.itemsPrice o) share /\
    Order.totalPrice o ==
      Order.itemsPrice o + Order.shippingPrice o + Order.taxPrice o - share.

(** Two databases agree on everything but the product collection. *)
Definition sameButProducts (db db' : DB) : Prop :=
  orders db' = orders db /\ sellerProducts db' = sellerProducts db /\
  wallets db' = wallets db /\ withdrawals db' = withdrawals db.

(** ** Further handlers of controllers/walletController.js *)

(** [order.isEarningsCredited = true] *)
Definition withCredited (o : Order.t) : Order.t :=
  {| Order._id := Order._id o; Order.orderNumber := Order.orderNumber o;
     Order.user := Order.user o; Order.seller := Order.seller o;
     Order.orderItems := Order.orderItems o;
     Order.shippingAddress := Order.shippingAddress o;
     Order.paymentMethod := Order.paymentMethod o;
     Order.itemsPrice := Order.itemsPrice o; Order.taxPrice := Order.taxPrice o;
     Order.shippingPrice := Order.shippingPrice o;
     Order.totalPrice := Order.totalPrice o;
     Order.orderStatus := Order.orderStatus o;
     Order.paymentStatus := Order.paymentStatus o;
     Order.shippingStatus := Order.shippingStatus o;
     Order.coupon := Order.coupon o; Order.discount := Order.discount o;
     Order.orderIdempotencyKey := Order.orderIdempotencyKey o;
     Order.razorpayOrderId := Order.razorpayOrderId o;
     Order.commission := Order.commission o;
     Order.sellerEarnings := Order.sellerEarnings o;
     Order.isEarningsCredited := true;
     Order.paymentResult := Order.paymentResult o;
     Order.createdAt := Order.createdAt o |}.

(** [t && t.type === 'credit' && String(t.orderId?._id || t.orderId) ===
     String(order._id)] *)
Definition isCreditFor (orderId : ObjectId) (t : Transaction.t) : bool :=
  negb (Transaction.isDebit t) &&
  match Transaction.orderId t with
  | Some o => String.eqb o orderId
  | None => false
  end.

(** [Wallet.findOne({ seller }) || Wallet.create({ seller })]: the wallet
    document in hand and the collection after the possible insert. *)
Definition findOrCreateWallet (sellerId : ObjectId) (ws : gmap ObjectId Wallet.t)
  : Wallet.t * gmap ObjectId Wallet.t :=
  match ws !! sellerId with
  | Some w => (w, ws)
  | None => (Wallet.create, <[sellerId := Wallet.create]> ws)
  end.

(** The description of an earnings credit. *)
Definition earningsDescription (order : Order.t) : string :=
  String.append "Earnings from order " (Order.orderNumber order).

(** *** adminResyncOrderToWallet *)
Definition adminResyncOrderToWallet (orderId : ObjectId) (db : DB)
  : result (string * Wallet.t) * DB :=
  match findOne (Order.hasId orderId) (orders db) with
  | None => (Err 404 "Order not found", db)
  | Some order =>
      if negb (String.eqb (Order.orderStatus order) "delivered") then
        (Err 400 "Order is not delivered", db)
      else
        let (wallet, ws1) := findOrCreateWallet (Order.seller order) (wallets db) in
        let db1 := setWallets ws1 db in
        let alreadyCredited :=
          existsb (isCreditFor (Order._id order)) (Wallet.transactions wallet) in
        if alreadyCredited then
          if negb (Order.isEarningsCredited order) then
            (Ok 200 ("Order already credited", wallet),
             storeOrder (withCredited order) db1)
          else
            (Ok 200 ("Order already credited", wallet), db1)
        else
          let commission := Recompute.commissionOf order in
          let sellerEarnings := Recompute.sellerEarningsOf order in
          let order' := withEarnings commission sellerEarnings order in
          let db2 := storeOrder order' db1 in
          let wallet' :=
            Wallet.addTransaction Transaction.credit sellerEarnings
              (earningsDescription order') (Some (Order._id order')) None wallet in
          match Wallet.save (Order.seller order) wallet' (wallets db2) with
          | None => (Err 500 "Wallet validation failed", db2)
          | Some ws => (Ok 200 ("Order credited to wallet", wallet'), setWallets ws db2)
          end
  end.

(** *** adminResyncSellerWallet *)

(** [creditedOrderIdSet]: the order ids of the credit entries of the log. *)
Definition creditedOrderIds (txs : list Transaction.t) : gset ObjectId :=
  list_to_set
    (omap (fun t => if Transaction.isDebit t then None else Transaction.orderId t)
          txs).

(** The loop over the delivered orders.  It carries the wallet document in
    hand, the count of credits made and the database; [None] is the error
    thrown by a failed [save()] of the wallet, which ends the handler. *)
Fixpoint resyncLoop (sellerId : ObjectId) (creditedOrderIdSet : gset ObjectId)
    (deliveredOrders : list Order.t) (wallet : Wallet.t) (creditedCount : nat)
    (db : DB) : option (Wallet.t * nat) * DB :=
  match deliveredOrders with
  | [] => (Some (wallet, creditedCount), db)
  | order :: rest =>
      let alreadyCredited := bool_decide (Order._id order ∈ creditedOrderIdSet) in
      if alreadyCredited then
        let db1 := if negb (Order.isEarningsCredited order)
                   then storeOrder (withCredited order) db else db in
        resyncLoop sellerId creditedOrderIdSet rest wallet creditedCount db1
      else
        let commission := Recompute.commissionOf order in
        let sellerEarnings := Recompute.sellerEarningsOf order in
        let order' := withEarnings commission sellerEarnings order in
        let db1 := storeOrder order' db in
        let wallet' :=
          Wallet.addTransaction Transaction.credit sellerEarnings
            (earningsDescription order') (Some (Order._id order')) None wallet in
        match Wallet.save sellerId wallet' (wallets db1) with
        | None => (None, db1)
        | Some ws =>
            resyncLoop sellerId creditedOrderIdSet rest wallet'
              (S creditedCount) (setWallets ws db1)
        end
  end.

(** [Order.find({ seller, orderStatus: 'delivered' })], unsorted. *)
Definition deliveredOf (sellerId : ObjectId) (db : DB) : list Order.t :=
  List.filter (fun o => String.eqb (Order.seller o) sellerId &&
                        String.eqb (Order.orderStatus o) "delivered")
    (orders db).

(** [sellerExists] stands for [Seller.findById]: the Seller collection is
    read by this handler only.  The answer carries [creditedCount] and the
    wallet read back at the end. *)
Definition adminResyncSellerWallet (sellerExists : ObjectId -> bool)
    (sellerId : ObjectId) (db : DB) : result (nat * option Wallet.t) * DB :=
  if negb (sellerExists sellerId) then (Err 404 "Seller not found", db)
  else
    let (wallet, ws1) := findOrCreateWallet sellerId (wallets db) in
    let db1 := setWallets ws1 db in
    let deliveredOrders := deliveredOf sellerId db1 in
    let creditedOrderIdSet := creditedOrderIds (Wallet.transactions wallet) in
    match resyncLoop sellerId creditedOrderIdSet deliveredOrders wallet 0 db1 with
    | (None, db2) => (Err 500 "Wallet validation failed", db2)
    | (Some (_, creditedCount), db2) =>
        (Ok 200 (creditedCount, wallets db2 !! sellerId), db2)
    end.

(** ** A further handler of the payment controller: verifyRazorpayPayment *)
Definition verifyRazorpayPayment (env : Env) (c : Collaborators)
    (razorpay_order_id razorpay_payment_id razorpay_signature : string)
  : result bool :=
  if negb (truthy razorpay_order_id) || negb (truthy razorpay_payment_id) ||
     negb (truthy razorpay_signature)
  then Err 400 "Missing payment verification fields"
  else
    match RAZORPAY_KEY_SECRET env with
    | None => Err 500 "The key argument must be a string"
    | Some keySecret =>
        let hmac :=
          hmac_sha256_hex c keySecret
            (String.append razorpay_order_id
               (String.append "|" razorpay_payment_id)) in
        let isValid := String.eqb hmac razorpay_signature in
        if negb isValid then Err 400 "Payment signature verification failed"
        else Ok 200 true
    end.

(** ** The handlers as one request type *)

(** A call of one of the handlers that write to the database, with what it
    reads from the request and from its environment. *)
Inductive request :=
| CreateWithdrawal (now : Z) (newId sellerId : ObjectId) (amount : Q)
    (bankDetails : WithdrawalRequest.bankDetails_)
    (paymentMethod : option WithdrawalRequest.method)
| ApproveWithdrawal (now : Z) (adminId id : ObjectId) (notes : string)
| RejectWithdrawal (now : Z) (adminId id : ObjectId) (reason : string)
| ProcessWithdrawal (now : Z) (adminId id : ObjectId) (transactionId : string)
| RecomputeWallet (sellerId : ObjectId)
| UpdateOrderStatus (id : ObjectId) (status : string)
| ResyncOrder (orderId : ObjectId)
| ResyncSeller (sellerExists : ObjectId -> bool) (sellerId : ObjectId)
| CreateOrder (razorpay : bool) (now : Z) (fresh : nat -> ObjectId * string)
    (req : OrderRequest.t)
| CapturePayment (env : Env) (c : Collaborators) (now : Z)
    (req : CaptureRequest.t).

(** The database a request leaves behind. *)
Definition handle (r : request) (db : DB) : DB :=
  match r with
  | CreateWithdrawal now newId sellerId amount bankDetails paymentMethod =>
      snd (createWithdrawalRequest now newId sellerId amount bankDetails
             paymentMethod db)
  | ApproveWithdrawal now adminId id notes =>
      snd (approveWithdrawal now adminId id notes db)
  | RejectWithdrawal now adminId id reason =>
      snd (rejectWithdrawal now adminId id reason db)
  | ProcessWithdrawal now adminId id transactionId =>
      snd (processWithdrawal now adminId id transactionId db)
  | RecomputeWallet sellerId => snd (recomputeWalletForSeller sellerId db)
  | UpdateOrderStatus id status => snd (updateOrderStatus id status db)
  | ResyncOrder orderId => snd (adminResyncOrderToWallet orderId db)
  | ResyncSeller sellerExists sellerId =>
      snd (adminResyncSellerWallet sellerExists sellerId db)
  | CreateOrder razorpay now fresh req =>
      snd (createOrderWith razorpay now fresh req db)
  | CapturePayment env c now req =>
      snd (capturePaymentForOrders env c now req db)
  end.

(** The database after a sequence of requests, served one after the other. *)
Definition serve (rs : list request) (db : DB) : DB :=
  fold_left (fun d r => handle r d) rs db.

(** ** Further specification vocabulary *)

(** Every stored wallet satisfies [P]. *)
Definition allWallets (P : Wallet.t -> Prop) (db : DB) : Prop :=
  map_Forall (fun _ w => P w) (wallets db).

(** The balance is what was earned, less what was paid out, less what is
    held for open withdrawal requests. *)
Definition accountingIdentity (w : Wallet.t) : Prop :=
  Wallet.balance w ==
  Wallet.totalEarnings w - Wallet.totalWithdrawn w - Wallet.pendingWithdrawals w.

(** An entry is a completed credit, or a debit tied to a withdrawal request
    that is pending or completed. *)
Definition entryShape (t : Transaction.t) : Prop :=
  match Transaction.type t with
  | Transaction.credit =>
      Transaction.status t = Transaction.completed
  | Transaction.debit =>
      Transaction.status t <> Transaction.failed /\
      Transaction.orderId t = None /\
      Transaction.withdrawalId t <> None
  end.

Definition sumQ (l : list Q) : Q := fold_right Qplus 0 l.

(** A request whose amount is held: pending or approved. *)
Definition isOpen (wr : WithdrawalRequest.t) : bool :=
  match WithdrawalRequest.status wr with
  | WithdrawalRequest.pending | WithdrawalRequest.approved => true
  | _ => false
  end.

Definition isProcessed (wr : WithdrawalRequest.t) : bool :=
  match WithdrawalRequest.status wr with
  | WithdrawalRequest.processed => true
  | _ => false
  end.

(** What the request [wr] holds of seller [sellerId]'s money, and what it has
    paid out of it. *)
Definition heldBy (sellerId : ObjectId) (wr : WithdrawalRequest.t) : Q :=
  if String.eqb (WithdrawalRequest.seller wr) sellerId && isOpen wr
  then WithdrawalRequest.amount wr else 0.

Definition paidBy (sellerId : ObjectId) (wr : WithdrawalRequest.t) : Q :=
  if String.eqb (WithdrawalRequest.seller wr) sellerId && isProcessed wr
  then WithdrawalRequest.amount wr else 0.

(** The sums over the stored requests and delivered orders of a seller. *)
Definition heldFor (sellerId : ObjectId) (db : DB) : Q :=
  sumQ (map (heldBy sellerId) (withdrawals db)).

Definition paidOutTo (sellerId : ObjectId) (db : DB) : Q :=
  sumQ (map (paidBy sellerId) (withdrawals db)).

Definition earnedBy (sellerId : ObjectId) (db : DB) : Q :=
  sumQ (map Recompute.sellerEarningsOf (deliveredOf sellerId db)).

(** The number of the seller's requests in state [pending]. *)
Definition pendingCount (sellerId : ObjectId) (db : DB) : nat :=
  length (List.filter (isPendingOf sellerId) (withdrawals db)).

(** The statuses a request in status [a] can be found in later. *)
Definition mayBecome (a b : WithdrawalRequest.status_) : Prop :=
  match a with
  | WithdrawalRequest.pending => True
  | WithdrawalRequest.approved =>
      b = WithdrawalRequest.approved \/ b = WithdrawalRequest.processed
  | WithdrawalRequest.rejected => b = WithdrawalRequest.rejected
  | WithdrawalRequest.processed => b = WithdrawalRequest.processed
  end.

(** The number of credit entries for the order [orderId] in a log. *)
Definition creditsFor (orderId : ObjectId) (txs : list Transaction.t) : nat :=
  length (List.filter (isCreditFor orderId) txs).

(** The status changes the admin handlers make. *)
Inductive move : WithdrawalRequest.status_ -> WithdrawalRequest.status_ -> Prop :=
| move_approve : move WithdrawalRequest.pending WithdrawalRequest.approved
| move_reject : move WithdrawalRequest.pending WithdrawalRequest.rejected
| move_process : move WithdrawalRequest.approved WithdrawalRequest.processed.

(** What one request can do to the collection of withdrawal requests:
    nothing; append a pending request of at least 100 for a seller who has
    no pending one; or overwrite a stored request, found by its id, with one
    that differs from it by a status change of [move] and in the audit
    fields. *)
Inductive requestsStep (l : list WithdrawalRequest.t)
  : list WithdrawalRequest.t -> Prop :=
| step_none : requestsStep l l
| step_new doc :
    WithdrawalRequest.status doc = WithdrawalRequest.pending ->
    List.filter (isPendingOf (WithdrawalRequest.seller doc)) l = [] ->
    100 <= WithdrawalRequest.amount doc ->
    requestsStep l (l ++ [doc])
| step_move x y :
    findOne (WithdrawalRequest.hasId (WithdrawalRequest._id x)) l = Some x ->
    WithdrawalRequest._id y = WithdrawalRequest._id x ->
    WithdrawalRequest.seller y = WithdrawalRequest.seller x ->
    WithdrawalRequest.amount y = WithdrawalRequest.amount x ->
    move (WithdrawalRequest.status x) (WithdrawalRequest.status y) ->
    requestsStep l
      (replaceFirst (WithdrawalRequest.hasId (WithdrawalRequest._id x)) y l).

(** The amount the seller's wallet records as held; zero without a wallet. *)
Definition pendingOf (sellerId : ObjectId) (db : DB) : Q :=
  match wallets db !! sellerId with
  | Some w => Wallet.pendingWithdrawals w
  | None => 0
  end.

(** The holds are in step with the requests: every stored request has a
    positive amount, and for every seller the wallet's [pendingWithdrawals]
    is the sum of the amounts of the seller's pending and approved
    requests. *)
Definition holdsInSync (db : DB) : Prop :=
  Forall (fun wr => 0 < WithdrawalRequest.amount wr) (withdrawals db) /\
  forall s, pendingOf s db == heldFor s db.

Definition isOk {A} (r : result A) : bool :=
  match r with Ok _ _ => true | Err _ _ => false end.

(** The request is not one of the four withdrawal requests, or it is
    answered without an error. *)
Definition accepted (r : request) (db : DB) : bool :=
  match r with
  | CreateWithdrawal now newId sellerId amount bankDetails paymentMethod =>
      isOk (fst (createWithdrawalRequest now newId sellerId amount bankDetails
                   paymentMethod db))
  | ApproveWithdrawal now adminId id notes =>
      isOk (fst (approveWithdrawal now adminId id notes db))
  | RejectWithdrawal now adminId id reason =>
      isOk (fst (rejectWithdrawal now adminId id reason db))
  | ProcessWithdrawal now adminId id transactionId =>
      isOk (fst (processWithdrawal now adminId id transactionId db))
  | _ => true
  end.

(** Every request of the sequence is accepted in the database it meets. *)
Fixpoint allAccepted (rs : list request) (db : DB) : bool :=
  match rs with
  | [] => true
  | r :: rest => accepted r db && allAccepted rest (handle r db)
  end.

(** The stored wallet of the seller carries the ledger state the
    reconciliation computes from the orders and requests of the database. *)
Definition reconciled (sellerId : ObjectId) (db : DB) : Prop :=
  exists w w',
    wallets db !! sellerId = Some w /\
    fst (recomputeWalletForSeller sellerId db) = Some w' /\
    ledgerState w = ledgerState w'.

(** The log of the seller's wallet; empty without a wallet. *)
Definition logOf (sellerId : ObjectId) (db : DB) : list Transaction.t :=
  match wallets db !! sellerId with
  | Some w => Wallet.transactions w
  | None => []
  end.


(** The delivered orders the seller resync has to back-fill: those whose id
    has no credit entry in the wallet's log. *)
Definition uncredited (w : Wallet.t) (deliveredOrders : list Order.t)
  : list Order.t :=
  List.filter
    (fun o => negb (existsb (isCreditFor (Order._id o)) (Wallet.transactions w)))
    deliveredOrders.

(** The credit entry that pays the order's earnings. *)
Definition paysFor (o : Order.t) (t : Transaction.t) : Prop :=
  Transaction.type t = Transaction.credit /\
  Transaction.orderId t = Some (Order._id o) /\
  Transaction.withdrawalId t = None /\
  Transaction.amount t = Recompute.sellerEarningsOf o /\
  Transaction.status t = Transaction.completed.

(** The cart items of one seller. *)
Definition itemsOf (sellerId : ObjectId) (items : list CartItem.t)
  : list CartItem.t :=
  List.filter (fun item => String.eqb (CartItem.seller item) sellerId) items.

(** The product collection as the session would leave it on commit. *)
Definition productsOnCommit (st : DB * Session) : gmap ObjectId Product.t :=
  products (commitTransaction (snd st) (fst st)).

(** From [st] to [st'] the sold count of the product of each of [items] has
    been raised by the item's quantity over its value in [db0], and nothing
    else has changed in the product collection. *)
Definition soldCounted (inSession : bool) (db0 : DB) (items : list CartItem.t)
    (st st' : DB * Session) : Prop :=
  (forall item, In item items ->
     exists p, products db0 !! CartItem.product item = Some p /\
       productsOnCommit st' !! CartItem.product item
         = Some (Product.addSold (CartItem.quantity item) p)) /\
  (forall id, ~ In id (map CartItem.product items) ->
     productsOnCommit st' !! id = productsOnCommit st !! id /\
     products (fst st') !! id = products (fst st) !! id) /\
  (inSession = false -> stagedProducts (snd st') = []).

(** The request is a recomputation of a wallet, the one writer of wallets
    that goes through [updateOne] and not through [save()]. *)
Definition isRecompute (r : request) : bool :=
  match r with RecomputeWallet _ => true | _ => false end.

(** None of the four aggregates of the wallet is negative. *)
Definition nonNegative (w : Wallet.t) : Prop :=
  0 <= Wallet.balance w /\ 0 <= Wallet.totalEarnings w /\
  0 <= Wallet.totalWithdrawn w /\ 0 <= Wallet.pendingWithdrawals w.

(** The terms of an order: what the buyer ordered from whom, at what price
    and when; everything but the statuses, the payment method and result and
    the earnings fields. *)
Definition termsOf (o : Order.t) :=
  (Order._id o, Order.orderNumber o, Order.user o, Order.seller o,
   Order.orderItems o, Order.shippingAddress o,
   (Order.itemsPrice o, Order.taxPrice o, Order.shippingPrice o,
    Order.totalPrice o, Order.discount o),
   Order.coupon o, Order.orderIdempotencyKey o, Order.razorpayOrderId o,
   Order.createdAt o).

(** The order ids are distinct in every database the requests meet, as the
    unique index on [_id] guarantees. *)
Fixpoint uniqueIdsAlong (rs : list request) (db : DB) : Prop :=
  List.NoDup (map Order._id (orders db)) /\
  match rs with
  | [] => True
  | r :: rest => uniqueIdsAlong rest (handle r db)
  end.

(** The value of a cart item as the client sent it, and of an order item. *)
Definition cartValue (item : CartItem.t) : Q :=
  CartItem.price item * inject_Z (CartItem.quantity item).

Definition orderItemValue (i : Order.item) : Q :=
  Order.price i * inject_Z (Order.quantity i).

(** The price sent with every cart item is the price of the listing the item
    names. *)
Definition pricesMatchListings (db : DB) (items : list CartItem.t) : Prop :=
  Forall (fun item =>
            exists listing,
              sellerProducts db !! CartItem.sellerProduct item = Some listing /\
              SellerProduct.sellerPrice listing == CartItem.price item) items.
(** ** Sample data *)

Module Sample.

Definition bankAccount : WithdrawalRequest.bankDetails_ :=
  {| WithdrawalRequest.accountHolderName := "A Seller";
     WithdrawalRequest.accountNumber := "000111222333";
     WithdrawalRequest.ifscCode := "HDFC0000001";
     WithdrawalRequest.bankName := "";
     WithdrawalRequest.branch := "";
     WithdrawalRequest.upiId := "";
     WithdrawalRequest.walletNumber := "" |}.

(** A wallet holding [b], earned by one credit. *)
Definition walletWith (b : Q) : Wallet.t :=
  {| Wallet.balance := b; Wallet.totalEarnings := b;
     Wallet.totalWithdrawn := 0; Wallet.pendingWithdrawals := 0;
     Wallet.transactions :=
       [Recompute.entry Transaction.credit b "Earnings from order ORD-0"
          (Some "o0") None b Transaction.completed];
     Wallet.isActive := true |}.

Definition emptyDb : DB :=
  {| orders := []; products := ∅; sellerProducts := ∅; wallets := ∅;
     withdrawals := [] |}.

(** One seller, ["s1"], with a wallet holding 500. *)
Definition walletDb : DB := setWallets (<["s1" := walletWith 500]> ∅) emptyDb.

Definition address : Order.address :=
  {| Order.type := ""; Order.firstName := "A"; Order.lastName := "Buyer";
     Order.street := "1 Main Road"; Order.city := "Pune";
     Order.state := "MH"; Order.zipCode := "411001";
     Order.country := "India"; Order.phone := "" |}.

(** An order of buyer ["u1"] with the given total and status. *)
Definition order (id seller : ObjectId) (total : Q) (status : string)
    (created : Z) : Order.t :=
  {| Order._id := id; Order.orderNumber := String.append "ORD-" id;
     Order.user := "u1"; Order.seller := seller; Order.orderItems := [];
     Order.shippingAddress := address; Order.paymentMethod := "cod";
     Order.itemsPrice := total; Order.taxPrice := 0;
     Order.shippingPrice := 0; Order.totalPrice := total;
     Order.orderStatus := status; Order.paymentStatus := "pending";
     Order.shippingStatus := "pending"; Order.coupon := None;
     Order.discount := 0; Order.orderIdempotencyKey := None;
     Order.razorpayOrderId := None; Order.commission := None;
     Order.sellerEarnings := None; Order.isEarningsCredited := false;
     Order.paymentResult := None; Order.createdAt := created |}.

Definition request (id : ObjectId) (amount : Q)
    (status : WithdrawalRequest.status_) (created : Z) : WithdrawalRequest.t :=
  {| WithdrawalRequest._id := id; WithdrawalRequest.seller := "s1";
     WithdrawalRequest.amount := amount;
     WithdrawalRequest.bankDetails := bankAccount;
     WithdrawalRequest.status := status;
     WithdrawalRequest.adminNotes := None;
     WithdrawalRequest.processedBy := None;
     WithdrawalRequest.processedAt := None;
     WithdrawalRequest.rejectionReason := None;
     WithdrawalRequest.transactionId := None;
     WithdrawalRequest.paymentMethod := WithdrawalRequest.bank_transfer;
     WithdrawalRequest.createdAt := created |}.

(** Seller ["s1"] with two delivered orders and three withdrawal requests,
    and no wallet yet. *)
Definition historyDb : DB :=
  setWithdrawals
    [request "w1" 200 WithdrawalRequest.processed 30;
     request "w2" 100 WithdrawalRequest.rejected 40;
     request "w3" 150 WithdrawalRequest.pending 50]
    (setOrders
       [order "o1" "s1" 1000 "delivered" 20;
        order "o2" "s1" 500 "delivered" 10;
        order "o3" "s1" 300 "pending" 15;
        order "o4" "s2" 700 "delivered" 16]
       emptyDb).

(** The same history with a stale wallet stored for ["s1"]. *)
Definition staleDb : DB := setWallets (<["s1" := walletWith 7]> ∅) historyDb.

(** One order of 1000 for seller ["s1"], shipped and not yet credited. *)
Definition shippedDb : DB :=
  setOrders [order "o1" "s1" 1000 "shipped" 10] emptyDb.

(** Two unpaid orders of buyer ["u1"], 1000 and 500. *)
Definition unpaidDb : DB :=
  setOrders [order "o1" "s1" 1000 "pending" 10;
             order "o2" "s2" 500 "pending" 10] emptyDb.

Definition env : Env :=
  {| RAZORPAY_KEY_ID := Some "rzp_test_key";
     RAZORPAY_KEY_SECRET := Some "secret" |}.

(** Stand-ins for the crypto module and the gateway: the gateway holds the
    order at 150001 paise and captures every payment. *)
Definition collaborators : Collaborators :=
  {| hmac_sha256_hex := fun key message => String.append key message;
     orders_fetch := fun _ => Fetched (Some 150001%Z);
     payments_capture := fun _ _ _ => true |}.

Definition capture (signature : string) : CaptureRequest.t :=
  {| CaptureRequest.user := Some ("u1", "buyer@example.com");
     CaptureRequest.orderIds := ["o1"; "o2"];
     CaptureRequest.razorpay_order_id := "order_1";
     CaptureRequest.razorpay_payment_id := "pay_1";
     CaptureRequest.razorpay_signature := signature |}.

(** *** A shop with two sellers *)

Definition p1 : ObjectId := "000000000000000000000a01".
Definition p2 : ObjectId := "000000000000000000000a02".
Definition p9 : ObjectId := "000000000000000000000a09".
Definition sA : ObjectId := "000000000000000000000b01".
Definition sB : ObjectId := "000000000000000000000b02".
Definition l1 : ObjectId := "000000000000000000000c01".
Definition l2 : ObjectId := "000000000000000000000c02".

Definition product (name : string) : Product.t :=
  {| Product.name := name; Product.images := []; Product.sku := "";
     Product.totalSold := 0 |}.

(** Seller A lists product 1 at 500, seller B lists product 2 at 250.
    Product 9 does not exist. *)
Definition shopDb : DB :=
  {| orders := [];
     products := <[p1 := product "Rice"]> (<[p2 := product "Oil"]> ∅);
     sellerProducts :=
       <[l1 := {| SellerProduct.seller := sA; SellerProduct.product := p1;
                  SellerProduct.sellerPrice := 500 |}]>
       (<[l2 := {| SellerProduct.seller := sB; SellerProduct.product := p2;
                   SellerProduct.sellerPrice := 250 |}]> ∅);
     wallets := ∅;
     withdrawals := [] |}.

Definition item (product seller listing : ObjectId) (price : Q) (quantity : Z)
  : CartItem.t :=
  {| CartItem.product := product; CartItem.seller := seller;
     CartItem.sellerProduct := listing; CartItem.price := price;
     CartItem.quantity := quantity |}.

Definition requestFor (items : list CartItem.t) : OrderRequest.t :=
  {| OrderRequest.user := Some "u1";
     OrderRequest.shippingAddress := Some address;
     OrderRequest.items := items;
     OrderRequest.paymentMethod := "cod";
     OrderRequest.coupon := None;
     OrderRequest.discount := Some 150;
     OrderRequest.orderIdempotencyKey := "key-1";
     OrderRequest.razorpay_order_id := "order_1" |}.

(** Two of product 1 from seller A (1000) and two of product 2 from seller B
    (500), under a cart discount of 150. *)
Definition cart : OrderRequest.t :=
  requestFor [item p1 sA l1 500 2; item p2 sB l2 250 2].

(** The same cart with the second item naming a product that does not
    exist. *)
Definition brokenCart : OrderRequest.t :=
  requestFor [item p1 sA l1 500 2; item p9 sB l2 250 2].

(** The ids and order numbers handed to the orders of one request. *)
Definition fresh (k : nat) : ObjectId * string :=
  match k with
  | O => ("00000000000000000000d001", "ORD-1")
  | S O => ("00000000000000000000d002", "ORD-2")
  | _ => ("00000000000000000000d003", "ORD-3")
  end.

End Sample.


(** ** Sample runs *)

Module Scenario.

(** Seller ["s1"] holds 500 and has one shipped order of 1000. *)
Definition startDb : DB :=
  setOrders [Sample.order "o1" "s1" 1000 "shipped" 10] Sample.walletDb.

(** A morning of requests: the order is delivered; a withdrawal of 300 is
    created, approved and paid out; one of 200 is created and rejected; one
    of 100 is created and left pending; then the admin resyncs. *)
Definition morning : list request :=
  [UpdateOrderStatus "o1" "delivered";
   CreateWithdrawal 100 "w1" "s1" 300 Sample.bankAccount None;
   ApproveWithdrawal 110 "admin" "w1" "ok";
   ProcessWithdrawal 120 "admin" "w1" "txn-1";
   CreateWithdrawal 130 "w2" "s1" 200 Sample.bankAccount None;
   RejectWithdrawal 140 "admin" "w2" "no";
   CreateWithdrawal 150 "w3" "s1" 100 Sample.bankAccount None;
   ResyncOrder "o1";
   ResyncSeller (fun _ => true) "s1"].

(** The morning, and then the wallet is recomputed. *)
Definition day : list request := morning ++ [RecomputeWallet "s1"].

(** Attempts on the requests of [Sample.historyDb]: a second pending
    request, and admin moves on requests that are already closed. *)
Definition attempts : list request :=
  [CreateWithdrawal 100 "w4" "s1" 100 Sample.bankAccount None;
   ApproveWithdrawal 110 "admin" "w1" "again";
   RejectWithdrawal 120 "admin" "w1" "undo";
   ProcessWithdrawal 130 "admin" "w2" "txn-2";
   ApproveWithdrawal 140 "admin" "w3" "ok";
   RecomputeWallet "s1"].

(** Seller ["s1"] with one delivered order and one paid-out request, and
    the wallet the reconciliation computes from them. *)
Definition reconciledDb : DB :=
  snd (recomputeWalletForSeller "s1"
         (setWithdrawals [Sample.request "w1" 200 WithdrawalRequest.processed 30]
            (setOrders [Sample.order "o1" "s1" 1000 "delivered" 20]
               Sample.emptyDb))).

(** Three delivered orders, two of them of seller ["s1"], whose wallet holds
    500 and has no credit for them. *)
Definition deliveredDb : DB :=
  setOrders [Sample.order "o1" "s1" 1000 "delivered" 10;
             Sample.order "o2" "s2" 700 "delivered" 15;
             Sample.order "o3" "s1" 500 "delivered" 20]
    Sample.walletDb.

(** The signature the stand-in HMAC gives to the sample payment. *)
Definition goodSignature : string := "secretorder_1|pay_1".

(** The sample shop with the two unpaid orders of buyer ["u1"]. *)
Definition busyDb : DB := setOrders (orders Sample.unpaidDb) Sample.shopDb.

(** The two orders are paid for, the first one is delivered, the admin
    resyncs its seller, and the sample cart is ordered. *)
Definition trade : list request :=
  [CapturePayment Sample.env Sample.collaborators 5000
     (Sample.capture goodSignature);
   UpdateOrderStatus "o1" "delivered";
   ResyncSeller (fun _ => true) "s1";
   CreateOrder false 6000 Sample.fresh Sample.cart].

End Scenario.
(** ** Arithmetic and list facts *)

(** Case analysis on the scrutinee of the first [match] or [if] of the goal. *)
Ltac case_scrutinee :=
  match goal with
  | |- context [match ?x with _ => _ end] => destruct x
  end.

Lemma Qlt_bool_iff (a b : Q) : Qlt_bool a b = true <-> a < b.
Proof.
  unfold Qlt_bool. rewrite negb_true_iff. split.
  - intros H. apply Qnot_le_lt. intros Hle.
    apply Qle_bool_iff in Hle. congruence.
  - intros H. destruct (Qle_bool b a) eqn:E; [|reflexivity].
    apply Qle_bool_iff in E. exfalso. apply (Qlt_not_le _ _ H E).
Qed.

Lemma Qlt_bool_false_iff (a b : Q) : Qlt_bool a b = false <-> b <= a.
Proof.
  unfold Qlt_bool. rewrite negb_false_iff. apply Qle_bool_iff.
Qed.

Lemma lastBalance_snoc opening txs t :
  lastBalance opening (txs ++ [t]) = Transaction.balance t.
Proof.
  unfold lastBalance. rewrite fold_left_app. reflexivity.
Qed.

Lemma ledgerChain_app p txs1 txs2 :
  ledgerChain p (txs1 ++ txs2) <->
  ledgerChain p txs1 /\ ledgerChain (lastBalance p txs1) txs2.
Proof.
  revert p. induction txs1 as [|t rest IH]; intros p; simpl.
  - tauto.
  - rewrite IH. unfold lastBalance. simpl. tauto.
Qed.

Lemma ledgerChain_snoc p txs t :
  ledgerChain p txs ->
  Transaction.balance t == lastBalance p txs + signedAmount t ->
  ledgerChain p (txs ++ [t]).
Proof.
  intros H1 H2. apply ledgerChain_app. split; [exact H1|].
  simpl. split; [exact H2|exact I].
Qed.

(** ** The running-balance invariant of the ledger *)

(** The entry pushed by [addTransaction] carries the balance the wallet had
    before the call. *)
Lemma addTransaction_entry ty amount description orderId withdrawalId this :
  Wallet.transactions
    (Wallet.addTransaction ty amount description orderId withdrawalId this) =
  Wallet.transactions this ++
    [Recompute.entry ty amount description orderId withdrawalId
       (Wallet.balance this) Transaction.completed].
Proof. destruct ty; reflexivity. Qed.

Lemma addTransaction_balance ty amount description orderId withdrawalId this :
  Wallet.balance
    (Wallet.addTransaction ty amount description orderId withdrawalId this) ==
  Wallet.balance this +
  signedAmount (Recompute.entry ty amount description orderId withdrawalId
                  (Wallet.balance this) Transaction.completed).
Proof. destruct ty; unfold signedAmount; simpl; ring. Qed.

(** Whenever the amount is not zero, the wallet left by [addTransaction]
    disagrees with the balance its last entry records. *)
Lemma addTransaction_breaks_invariant ty amount description orderId withdrawalId this :
  ~ amount == 0 ->
  ~ ledgerInvariant
      (Wallet.addTransaction ty amount description orderId withdrawalId this).
Proof.
  intros Hnz [_ Hbal]. rewrite addTransaction_entry, lastBalance_snoc in Hbal.
  rewrite addTransaction_balance in Hbal. simpl in Hbal.
  apply Hnz. destruct ty; unfold signedAmount in Hbal; simpl in Hbal; lra.
Qed.

(** The hold placed by [createWithdrawalRequest] keeps the invariant. *)
Lemma holdFunds_invariant amount wid w :
  ledgerInvariant w -> ledgerInvariant (holdFunds amount wid w).
Proof.
  intros [Hc Hb]. split; simpl.
  - apply ledgerChain_snoc; [exact Hc|].
    unfold signedAmount; simpl. rewrite Hb. ring.
  - rewrite lastBalance_snoc. reflexivity.
Qed.

(** The refund made by [rejectWithdrawal] keeps the invariant. *)
Lemma refundHold_invariant amount wid w :
  ledgerInvariant w -> ledgerInvariant (refundHold amount wid w).
Proof.
  intros [Hc Hb]. split; simpl.
  - apply ledgerChain_snoc; [exact Hc|].
    unfold signedAmount; simpl. rewrite Hb. ring.
  - rewrite lastBalance_snoc. reflexivity.
Qed.

(** The settlement made by [processWithdrawal] keeps the invariant when it
    finds the pending debit entry: the entry changes its status only. *)
Lemma updateFirst_setStatus p s l l' :
  updateFirst p (Transaction.setStatus s) l = Some l' ->
  Forall2 (fun x y => Transaction.balance y = Transaction.balance x /\
                      signedAmount y = signedAmount x) l l'.
Proof.
  revert l'. induction l as [|x l IH]; intros l'; simpl; [discriminate|].
  destruct (p x).
  - intros [= <-]. constructor; [split; reflexivity|].
    clear. induction l; constructor; auto.
  - destruct (updateFirst p (Transaction.setStatus s) l) as [r|]; [|discriminate].
    intros [= <-]. constructor; [split; reflexivity|]. apply IH. reflexivity.
Qed.

Lemma ledgerChain_pointwise p l l' :
  Forall2 (fun x y => Transaction.balance y = Transaction.balance x /\
                      signedAmount y = signedAmount x) l l' ->
  (ledgerChain p l -> ledgerChain p l') /\ lastBalance p l' = lastBalance p l.
Proof.
  intros H. revert p. induction H as [|x y l l' [Hb Hs] _ IH]; intros p; simpl.
  - split; [tauto|reflexivity].
  - unfold lastBalance. simpl. rewrite Hb, Hs.
    destruct (IH (Transaction.balance x)) as [IH1 IH2]. split; [tauto|exact IH2].
Qed.

Lemma Forall2_rev_both {A B} (R : A -> B -> Prop) l l' :
  Forall2 R l l' -> Forall2 R (rev l) (rev l').
Proof.
  induction 1 as [|x y l l' Hxy _ IH]; simpl; [constructor|].
  apply Forall2_app; [exact IH|]. constructor; [exact Hxy|constructor].
Qed.

Lemma settleHold_invariant amount wid w txs :
  updateLast (isPendingDebitOf wid) (Transaction.setStatus Transaction.completed)
    (Wallet.transactions w) = Some txs ->
  ledgerInvariant w -> ledgerInvariant (settleHold amount wid w).
Proof.
  intros Hu [Hc Hb]. unfold ledgerInvariant, settleHold. simpl. rewrite Hu.
  unfold updateLast in Hu.
  destruct (updateFirst _ _ (rev (Wallet.transactions w))) as [r|] eqn:E;
    [|discriminate].
  injection Hu as <-. apply updateFirst_setStatus in E.
  apply Forall2_rev_both in E. rewrite rev_involutive in E.
  destruct (ledgerChain_pointwise 0 _ _ E) as [H1 H2].
  split; [exact (H1 Hc)|]. rewrite H2. exact Hb.
Qed.

(** The replay of [recomputeWalletForSeller] builds a log that satisfies the
    invariant: every entry is pushed with the running balance after it. *)
Lemma creditOrder_invariant acc order :
  replayInvariant acc -> replayInvariant (Recompute.creditOrder acc order).
Proof.
  intros [Hc Hb]. split; simpl.
  - apply ledgerChain_snoc; [exact Hc|].
    unfold signedAmount; simpl. rewrite Hb. reflexivity.
  - rewrite lastBalance_snoc. reflexivity.
Qed.

Lemma applyWithdrawal_invariant acc wr :
  replayInvariant acc -> replayInvariant (Recompute.applyWithdrawal acc wr).
Proof.
  intros [Hc Hb]. unfold Recompute.applyWithdrawal.
  destruct (WithdrawalRequest.status wr); split; simpl;
    try (rewrite lastBalance_snoc; reflexivity);
    try (apply ledgerChain_snoc; [exact Hc|];
         unfold signedAmount; simpl; rewrite Hb; ring).
  - change [?a; ?b] with ([a] ++ [b]). rewrite app_assoc.
    apply ledgerChain_snoc.
    + apply ledgerChain_snoc; [exact Hc|].
      unfold signedAmount; simpl. rewrite Hb. ring.
    + rewrite lastBalance_snoc. unfold signedAmount; simpl. ring.
  - change [?a; ?b] with ([a] ++ [b]). rewrite app_assoc.
    rewrite lastBalance_snoc. reflexivity.
Qed.

Lemma replay_invariant orders wrs :
  replayInvariant (Recompute.replay orders wrs).
Proof.
  unfold Recompute.replay.
  assert (H0 : replayInvariant Recompute.init) by (split; simpl; [exact I|reflexivity]).
  assert (H1 : forall l acc, replayInvariant acc ->
                 replayInvariant (fold_left Recompute.creditOrder l acc)).
  { induction l as [|o l IH]; intros acc H; simpl; [exact H|].
    apply IH, creditOrder_invariant, H. }
  assert (H2 : forall l acc, replayInvariant acc ->
                 replayInvariant (fold_left Recompute.applyWithdrawal l acc)).
  { induction l as [|o l IH]; intros acc H; simpl; [exact H|].
    apply IH, applyWithdrawal_invariant, H. }
  apply H2, H1, H0.
Qed.

Lemma recompute_invariant sellerId db w :
  fst (recomputeWalletForSeller sellerId db) = Some w -> ledgerInvariant w.
Proof.
  unfold recomputeWalletForSeller. simpl. rewrite lookup_insert_eq.
  intros [= <-]. exact (replay_invariant _ _).
Qed.

(** C1.  [addTransaction] on a new wallet, crediting 900: the entry records
    the balance 0 the wallet had before the credit, not the balance 900 after
    it, and the wallet's balance differs from the balance of its last entry;
    the running-balance invariant, which the sibling writers ([holdFunds],
    [refundHold], [settleHold] on the entry it finds, the replay of the
    reconciliation) keep, is broken. *)
Theorem addTransaction_records_balance_before :
  let w := Wallet.addTransaction Transaction.credit 900
             "Earnings from order ORD-1" (Some "o1") None Wallet.create in
  map Transaction.balance (Wallet.transactions w) = [0] /\
  Wallet.balance w == 900 /\
  ~ (forall t, In t (Wallet.transactions w) ->
               Transaction.balance t == 0 + signedAmount t) /\
  ~ ledgerInvariant w.
Proof.
  cbv zeta. split; [reflexivity|]. split; [reflexivity|]. split.
  - intros H. specialize (H _ (or_introl eq_refl)).
    unfold signedAmount in H. simpl in H. discriminate H.
  - apply addTransaction_breaks_invariant. discriminate.
Qed.

(** ** Withdrawal creation: rejected requests *)

Lemma pending_count_positive sellerId db :
  hasPendingRequest sellerId db ->
  (0 <? length (List.filter (isPendingOf sellerId) (withdrawals db)))%nat = true.
Proof.
  unfold hasPendingRequest. induction (withdrawals db) as [|wr l IH]; intros H.
  - inversion H.
  - simpl. destruct (isPendingOf sellerId wr) eqn:E; [reflexivity|].
    apply IH. inversion H as [? ? [Hs Hp]|]; subst; [|assumption].
    unfold isPendingOf in E. rewrite Hp in E.
    rewrite (proj2 (String.eqb_eq _ _) eq_refl) in E. discriminate.
Qed.

(** C8.  A withdrawal request below the minimum of 100, above the wallet's
    balance (or without a wallet), or made while the seller has a pending
    request, is answered with an error and leaves the database as it was: no
    request is stored, no entry is appended, no aggregate changes.  The error
    is that of the first check that fails, in the order minimum, balance,
    pending request; the balance case answers "Insufficient balance". *)
Theorem createWithdrawalRequest_rejected_no_mutation
    now newId sellerId amount bankDetails paymentMethod db :
  amount < 100 \/ insufficientBalance sellerId amount db \/
    hasPendingRequest sellerId db ->
  exists message,
    createWithdrawalRequest now newId sellerId amount bankDetails paymentMethod db
      = (Err 400 message, db) /\
    (amount < 100 -> message = "Minimum withdrawal amount is ₹100") /\
    (100 <= amount -> insufficientBalance sellerId amount db ->
       message = "Insufficient balance") /\
    (100 <= amount -> ~ insufficientBalance sellerId amount db ->
       message = "You already have a pending withdrawal request").
Proof.
  intros H. unfold createWithdrawalRequest, insufficientBalance in *.
  destruct (Qlt_bool amount 100) eqn:Emin.
  - apply Qlt_bool_iff in Emin. eexists; split; [reflexivity|].
    repeat split; intros; try reflexivity; exfalso; lra.
  - apply Qlt_bool_false_iff in Emin.
    destruct (wallets db !! sellerId) as [w|] eqn:Ew.
    + destruct (Qlt_bool (Wallet.balance w) amount) eqn:Ebal.
      * apply Qlt_bool_iff in Ebal. eexists; split; [reflexivity|].
        repeat split; intros; try reflexivity; try (exfalso; lra); try contradiction.
      * apply Qlt_bool_false_iff in Ebal.
        destruct H as [H|[H|H]]; try (exfalso; lra).
        rewrite (pending_count_positive _ _ H).
        eexists; split; [reflexivity|].
        repeat split; intros; try reflexivity; exfalso; lra.
    + eexists; split; [reflexivity|].
      repeat split; intros; try reflexivity; try (exfalso; lra); try (exfalso; tauto).
Qed.

Lemma createWithdrawalRequest_rejected_witness :
  exists message,
    createWithdrawalRequest 0 "w1" "s1" 800 Sample.bankAccount None Sample.walletDb
      = (Err 400 message, Sample.walletDb) /\
    (800 < 100 -> message = "Minimum withdrawal amount is ₹100") /\
    (100 <= 800 -> insufficientBalance "s1" 800 Sample.walletDb ->
       message = "Insufficient balance") /\
    (100 <= 800 -> ~ insufficientBalance "s1" 800 Sample.walletDb ->
       message = "You already have a pending withdrawal request").
Proof.
  apply createWithdrawalRequest_rejected_no_mutation.
  right; left. vm_compute. reflexivity.
Defined.

(** ** Reconciliation *)

Lemma recompute_sources sellerId db :
  deliveredOrdersOf sellerId (snd (recomputeWalletForSeller sellerId db)) =
    deliveredOrdersOf sellerId db /\
  withdrawalsOf sellerId (snd (recomputeWalletForSeller sellerId db)) =
    withdrawalsOf sellerId db.
Proof. split; reflexivity. Qed.

Lemma recompute_wallet sellerId db :
  fst (recomputeWalletForSeller sellerId db) =
  Some (Recompute.upsert (wallets db !! sellerId)
          (Recompute.replay (deliveredOrdersOf sellerId db)
                            (withdrawalsOf sellerId db))).
Proof.
  unfold recomputeWalletForSeller. simpl. apply lookup_insert_eq.
Qed.



(** The replay on the sample history: 450 + 900 earned, 200 paid out, 150
    held; the refunded 100 leaves no trace in the aggregates. *)
Example recompute_sample :
  exists w, fst (recomputeWalletForSeller "s1" Sample.historyDb) = Some w /\
    Wallet.balance w == 1000 /\ Wallet.totalEarnings w == 1350 /\
    Wallet.totalWithdrawn w == 200 /\ Wallet.pendingWithdrawals w == 150 /\
    map (fun t => Qred (Transaction.balance t)) (Wallet.transactions w) =
      [450; 1350; 1150; 1050; 1150; 1000].
Proof.
  eexists. split; [apply recompute_wallet|]. vm_compute. 
  repeat split; reflexivity.
Qed.

(** ** The withdrawal round trip *)

Lemma truthy_true s : s <> "" -> truthy s = true.
Proof.
  intros H. unfold truthy. destruct (String.eqb s "") eqn:E; [|reflexivity].
  apply String.eqb_eq in E. contradiction.
Qed.

Lemma find_snoc_fresh {A} (p : A -> bool) l y :
  Forall (fun x => p x = false) l -> p y = true ->
  findOne p (l ++ [y]) = Some y.
Proof.
  unfold findOne. induction 1 as [|x l Hx _ IH]; intros Hy; simpl.
  - rewrite Hy. reflexivity.
  - rewrite Hx. apply IH, Hy.
Qed.

Lemma replaceFirst_snoc_fresh {A} (p : A -> bool) l y z :
  Forall (fun x => p x = false) l -> p y = true ->
  replaceFirst p z (l ++ [y]) = l ++ [z].
Proof.
  induction 1 as [|x l Hx _ IH]; intros Hy; simpl.
  - rewrite Hy. reflexivity.
  - rewrite Hx, IH by exact Hy. reflexivity.
Qed.

Lemma updateLast_snoc {A} (p : A -> bool) f l x :
  p x = true -> updateLast p f (l ++ [x]) = Some (l ++ [f x]).
Proof.
  intros Hx. unfold updateLast. rewrite rev_app_distr. simpl. rewrite Hx.
  simpl. rewrite rev_involutive. reflexivity.
Qed.

Lemma fresh_hasId newId l :
  Forall (fun wr => WithdrawalRequest._id wr <> newId) l ->
  Forall (fun wr => WithdrawalRequest.hasId newId wr = false) l.
Proof.
  apply List.Forall_impl. intros wr H. unfold WithdrawalRequest.hasId.
  destruct (String.eqb (WithdrawalRequest._id wr) newId) eqn:E; [|reflexivity].
  apply String.eqb_eq in E. contradiction.
Qed.

Lemma no_pending_count sellerId db :
  ~ hasPendingRequest sellerId db ->
  (0 <? length (List.filter (isPendingOf sellerId) (withdrawals db)))%nat = false.
Proof.
  unfold hasPendingRequest. induction (withdrawals db) as [|wr l IH]; intros H.
  - reflexivity.
  - simpl. destruct (isPendingOf sellerId wr) eqn:E.
    + exfalso. apply H. left. unfold isPendingOf in E.
      apply andb_true_iff in E as [E1 E2]. apply String.eqb_eq in E1.
      split; [exact E1|].
      destruct (WithdrawalRequest.status wr); try discriminate; reflexivity.
    + apply IH. intros H'. apply H. right. exact H'.
Qed.

Lemma detailsAccepted_preValidate doc pm :
  WithdrawalRequest.paymentMethod doc = default WithdrawalRequest.bank_transfer pm ->
  detailsAccepted pm (WithdrawalRequest.bankDetails doc) ->
  WithdrawalRequest.preValidate doc = None.
Proof.
  unfold detailsAccepted, WithdrawalRequest.preValidate. intros ->.
  destruct (default WithdrawalRequest.bank_transfer pm).
  - intros [H1 H2]. rewrite (truthy_true _ H1), (truthy_true _ H2). reflexivity.
  - intros H. rewrite (truthy_true _ H). reflexivity.
  - intros H. rewrite (truthy_true _ H). reflexivity.
  - intros H. rewrite (truthy_true _ H). reflexivity.
Qed.

Lemma validationError_stamp s notes reason txid adminId now doc :
  WithdrawalRequest.validationError
    (WithdrawalRequest.stamp s notes reason txid adminId now doc) =
  WithdrawalRequest.validationError doc.
Proof. reflexivity. Qed.

Lemma Wallet_valid_iff w :
  Wallet.valid w = true <->
  0 <= Wallet.balance w /\ 0 <= Wallet.totalEarnings w /\
  0 <= Wallet.totalWithdrawn w /\ 0 <= Wallet.pendingWithdrawals w /\
  forallb Transaction.valid (Wallet.transactions w) = true.
Proof.
  unfold Wallet.valid. rewrite !andb_true_iff, !Qle_bool_iff. tauto.
Qed.

Lemma holdFunds_valid amount wid w :
  Wallet.valid w = true -> 0 <= amount -> amount <= Wallet.balance w ->
  Wallet.valid (holdFunds amount wid w) = true.
Proof.
  rewrite !Wallet_valid_iff. intros (Hb & He & Hw & Hp & Ht) Ha Hle. simpl.
  repeat split; try lra.
  rewrite forallb_app, Ht. simpl. unfold Transaction.valid. simpl.
  rewrite (proj2 (Qle_bool_iff 0 amount) Ha). reflexivity.
Qed.

Lemma createWithdrawalRequest_accepts now newId sellerId amount bd pm w db :
  creationPreconditions sellerId amount w db ->
  Wallet.valid w = true ->
  detailsAccepted pm bd ->
  createWithdrawalRequest now newId sellerId amount bd pm db =
  (Ok 201 (newRequest now newId sellerId amount bd pm),
   setWallets (<[sellerId := holdFunds amount newId w]> (wallets db))
     (setWithdrawals
        (withdrawals db ++ [newRequest now newId sellerId amount bd pm]) db)).
Proof.
  intros (Hw & Hmin & Hbal & Hnp) Hv Hd. unfold createWithdrawalRequest.
  rewrite (proj2 (Qlt_bool_false_iff amount 100) Hmin), Hw.
  rewrite (proj2 (Qlt_bool_false_iff _ _) Hbal).
  rewrite (no_pending_count _ _ Hnp).
  unfold WithdrawalRequest.create, WithdrawalRequest.validationError.
  rewrite (detailsAccepted_preValidate
             (newRequest now newId sellerId amount bd pm) pm eq_refl Hd).
  unfold WithdrawalRequest.preSave. simpl WithdrawalRequest.amount.
  rewrite (proj2 (Qlt_bool_false_iff amount 100) Hmin).
  unfold Wallet.save. rewrite holdFunds_valid; [reflexivity|exact Hv|lra|exact Hbal].
Qed.

Lemma hasId_self wr : WithdrawalRequest.hasId (WithdrawalRequest._id wr) wr = true.
Proof. unfold WithdrawalRequest.hasId. apply String.eqb_refl. Qed.

Section LastRequest.

Variables (db : DB) (l : list WithdrawalRequest.t) (wr : WithdrawalRequest.t).
Hypothesis Hlast : withdrawals db = l ++ [wr].
Hypothesis Hfresh :
  Forall (fun x => WithdrawalRequest.hasId (WithdrawalRequest._id wr) x = false) l.
Hypothesis Hvalid : WithdrawalRequest.validationError wr = None.

Lemma approveWithdrawal_last now adminId notes :
  WithdrawalRequest.status wr = WithdrawalRequest.pending ->
  approveWithdrawal now adminId (WithdrawalRequest._id wr) notes db =
  (Ok 200 (WithdrawalRequest.approve adminId notes now wr),
   setWithdrawals (l ++ [WithdrawalRequest.approve adminId notes now wr]) db).
Proof.
  intros Hs. unfold approveWithdrawal.
  rewrite Hlast, (find_snoc_fresh _ _ _ Hfresh (hasId_self wr)), Hs. simpl.
  unfold WithdrawalRequest.save, WithdrawalRequest.approve.
  rewrite validationError_stamp, Hvalid. simpl WithdrawalRequest._id.
  rewrite (replaceFirst_snoc_fresh _ _ _ _ Hfresh (hasId_self wr)).
  reflexivity.
Qed.

Lemma rejectWithdrawal_last now adminId reason w :
  WithdrawalRequest.status wr = WithdrawalRequest.pending ->
  wallets db !! WithdrawalRequest.seller wr = Some w ->
  Wallet.valid (refundHold (WithdrawalRequest.amount wr)
                  (WithdrawalRequest._id wr) w) = true ->
  rejectWithdrawal now adminId (WithdrawalRequest._id wr) reason db =
  (Ok 200 (WithdrawalRequest.reject adminId reason now wr),
   setWallets
     (<[WithdrawalRequest.seller wr :=
          refundHold (WithdrawalRequest.amount wr) (WithdrawalRequest._id wr) w]>
        (wallets db))
     (setWithdrawals (l ++ [WithdrawalRequest.reject adminId reason now wr]) db)).
Proof.
  intros Hs Hw Hv. unfold rejectWithdrawal.
  rewrite Hlast, (find_snoc_fresh _ _ _ Hfresh (hasId_self wr)), Hs. simpl.
  unfold WithdrawalRequest.save, WithdrawalRequest.reject.
  rewrite validationError_stamp, Hvalid. simpl.
  rewrite (replaceFirst_snoc_fresh _ _ _ _ Hfresh (hasId_self wr)).
  rewrite Hw. unfold Wallet.save. rewrite Hv. reflexivity.
Qed.

Lemma processWithdrawal_last now adminId txid w :
  WithdrawalRequest.status wr = WithdrawalRequest.approved ->
  wallets db !! WithdrawalRequest.seller wr = Some w ->
  Wallet.valid (settleHold (WithdrawalRequest.amount wr)
                  (WithdrawalRequest._id wr) w) = true ->
  processWithdrawal now adminId (WithdrawalRequest._id wr) txid db =
  (Ok 200 (WithdrawalRequest.markAsProcessed adminId txid now wr),
   setWallets
     (<[WithdrawalRequest.seller wr :=
          settleHold (WithdrawalRequest.amount wr) (WithdrawalRequest._id wr) w]>
        (wallets db))
     (setWithdrawals
        (l ++ [WithdrawalRequest.markAsProcessed adminId txid now wr]) db)).
Proof.
  intros Hs Hw Hv. unfold processWithdrawal.
  rewrite Hlast, (find_snoc_fresh _ _ _ Hfresh (hasId_self wr)), Hs. simpl.
  unfold WithdrawalRequest.save, WithdrawalRequest.markAsProcessed.
  rewrite validationError_stamp, Hvalid. simpl.
  rewrite (replaceFirst_snoc_fresh _ _ _ _ Hfresh (hasId_self wr)).
  rewrite Hw. unfold Wallet.save. rewrite Hv. reflexivity.
Qed.

End LastRequest.



(** ** Crediting earnings on delivery *)

Lemma findOne_holds {A} (p : A -> bool) l x : findOne p l = Some x -> p x = true.
Proof. intros H. apply (find_some p l H). Qed.

Lemma findOne_replaceFirst {A} (p : A -> bool) l x y :
  findOne p l = Some x -> p y = true ->
  findOne p (replaceFirst p y l) = Some y.
Proof.
  unfold findOne. induction l as [|z l IH]; simpl; [discriminate|].
  intros H Hy. destruct (p z) eqn:E; simpl.
  - rewrite Hy. reflexivity.
  - rewrite E. apply IH; assumption.
Qed.

Lemma Order_hasId_eq id o : Order.hasId id o = true -> Order._id o = id.
Proof. unfold Order.hasId. apply String.eqb_eq. Qed.

Lemma addTransaction_credit_valid amount description orderId w :
  Wallet.valid w = true -> 0 <= amount -> truthy description = true ->
  Wallet.valid (Wallet.addTransaction Transaction.credit amount description
                  orderId None w) = true.
Proof.
  rewrite !Wallet_valid_iff. intros (Hb & He & Hw & Hp & Ht) Ha Hd. simpl.
  repeat split; try lra.
  rewrite forallb_app, Ht. simpl. unfold Transaction.valid. simpl.
  rewrite (proj2 (Qle_bool_iff 0 amount) Ha), Hd. reflexivity.
Qed.



(** ** Payment capture *)

(** What a successful capture has checked. *)
Lemma capture_success_inv env c now req db code paid db' :
  capturePaymentForOrders env c now req db = (Ok code paid, db') ->
  let found := findOrdersIn (CaptureRequest.orderIds req) db in
  (exists key, RAZORPAY_KEY_SECRET env = Some key /\
     hmac_sha256_hex c key (signedMessage req) = CaptureRequest.razorpay_signature req) /\
  length found = length (CaptureRequest.orderIds req) /\
  Forall (fun o => Some (Order.user o) = option_map fst (CaptureRequest.user req)) found /\
  (exists amount,
     orders_fetch c (CaptureRequest.razorpay_order_id req) = Fetched amount /\
     (amountDiffOf amount (totalAmountPaiseOf found) <= 2)%Z) /\
  payments_capture c (CaptureRequest.razorpay_payment_id req)
    (totalAmountPaiseOf found) "INR" = true.
Proof.
  unfold capturePaymentForOrders, secureFunds.
  destruct (CaptureRequest.orderIds req) as [|i ids] eqn:Eids; [discriminate|].
  rewrite <- Eids.
  destruct (_ || _ || _); [discriminate|].
  destruct (RAZORPAY_KEY_SECRET env) as [key|]; [|discriminate].
  fold (signedMessage req).
  destruct (String.eqb _ _) eqn:Esig; simpl; [|discriminate].
  destruct (Nat.eqb _ _) eqn:Elen; simpl; [|discriminate].
  destruct (forallb _ _) eqn:Eown; simpl; [|discriminate].
  destruct (getRazorpayInstance env); simpl; [|discriminate].
  destruct (orders_fetch c _) as [| |amount]; try discriminate.
  destruct (Z.ltb _ _) eqn:Ediff; [discriminate|].
  destruct (payments_capture c _ _ _) eqn:Ecap; [|discriminate].
  intros _. split; [|split; [|split; [|split]]].
  - exists key. split; [reflexivity|]. apply String.eqb_eq, Esig.
  - apply Nat.eqb_eq, Elen.
  - apply List.Forall_forall. intros o Ho.
    rewrite forallb_forall in Eown. specialize (Eown o Ho).
    destruct (option_map fst (CaptureRequest.user req)); [|discriminate].
    apply String.eqb_eq in Eown. congruence.
  - exists amount. split; [reflexivity|]. apply Z.ltb_ge, Ediff.
  - reflexivity.
Qed.

(** C9.  A capture that ends in an error leaves the database as it was, so no
    order's [paymentStatus], [orderStatus], [paymentMethod] or
    [paymentResult] changes; and a capture ends in an error whenever the
    signature does not match, an order is missing, an order belongs to
    another buyer, the amounts differ by more than the tolerance, or a
    gateway call throws. *)
Theorem capture_failure_no_mutation env c now req db :
  (forall code message db',
     capturePaymentForOrders env c now req db = (Err code message, db') ->
     db' = db) /\
  (captureFails env c req db ->
   exists code message,
     capturePaymentForOrders env c now req db = (Err code message, db)).
Proof.
  assert (H1 : forall code message db',
            capturePaymentForOrders env c now req db = (Err code message, db') ->
            db' = db).
  { unfold capturePaymentForOrders. intros code message db'.
    repeat case_scrutinee; intros [= ]; subst; reflexivity. }
  split; [exact H1|].
  intros Hfail.
  destruct (capturePaymentForOrders env c now req db) as [[code paid|code message] db'] eqn:E.
  - exfalso. apply capture_success_inv in E.
    destruct E as ((key & Hk & Hsig) & Hlen & Hown & (amount & Hf & Hd) & Hcap).
    destruct Hfail as [H|[H|[H|[H|[H|H]]]]].
    + exact (H key Hk Hsig).
    + exact (H Hlen).
    + destruct H as (o & Ho & Hne). rewrite List.Forall_forall in Hown.
      exact (Hne (Hown o Ho)).
    + destruct H as (a & Ha & Hlt). rewrite Hf in Ha. injection Ha as <-. lia.
    + rewrite Hf in H. discriminate.
    + rewrite Hcap in H. discriminate.
  - exists code, message. rewrite (H1 _ _ _ eq_refl). reflexivity.
Qed.

Lemma reachesAmountCheck_result env c now req db amount :
  reachesAmountCheck env c req db amount ->
  let found := findOrdersIn (CaptureRequest.orderIds req) db in
  capturePaymentForOrders env c now req db =
  if (2 <? amountDiffOf amount (totalAmountPaiseOf found))%Z then
    (Err 400 "Payment amount mismatch", db)
  else if payments_capture c (CaptureRequest.razorpay_payment_id req)
            (totalAmountPaiseOf found) "INR"
  then (Ok 200 (map (markPaid now req) found),
        fold_left (fun d o => storeOrder o d) (map (markPaid now req) found) db)
  else (Err 502 "Failed to capture payment", db).
Proof.
  intros (Hids & Ho & Hp & Hs & (key & Hk & Hsig) & Hlen & (u & Hu & Hown) & Hinst & Hf).
  cbv zeta. unfold capturePaymentForOrders, secureFunds.
  destruct (CaptureRequest.orderIds req) as [|i ids] eqn:Eids; [congruence|].
  rewrite (truthy_true _ Ho), (truthy_true _ Hp), (truthy_true _ Hs). simpl.
  rewrite Hk. fold (signedMessage req). rewrite Hsig, String.eqb_refl. simpl.
  rewrite Hlen, Nat.eqb_refl. simpl. rewrite Hu.
  replace (forallb _ _) with true.
  2:{ symmetry. apply forallb_forall. intros o Hin.
      rewrite List.Forall_forall in Hown. rewrite (Hown o Hin).
      apply String.eqb_refl. }
  simpl. rewrite Hinst, Hf. simpl.
  destruct (Z.ltb _ _); [reflexivity|].
  destruct (payments_capture c _ _ _); reflexivity.
Qed.


Lemma capture_failure_no_mutation_witness :
  captureFails Sample.env Sample.collaborators (Sample.capture "forged")
    Sample.unpaidDb /\
  exists code message,
    capturePaymentForOrders Sample.env Sample.collaborators 0
      (Sample.capture "forged") Sample.unpaidDb
    = (Err code message, Sample.unpaidDb).
Proof.
  assert (H : captureFails Sample.env Sample.collaborators
                (Sample.capture "forged") Sample.unpaidDb).
  { left. intros key [= <-]. discriminate. }
  split; [exact H|].
  exact (proj2 (capture_failure_no_mutation Sample.env Sample.collaborators 0
                  (Sample.capture "forged") Sample.unpaidDb) H).
Defined.


(** ** Order splitting *)

Lemma sameButProducts_refl db : sameButProducts db db.
Proof. repeat split. Qed.

Lemma sameButProducts_trans a b c :
  sameButProducts a b -> sameButProducts b c -> sameButProducts a c.
Proof.
  unfold sameButProducts. intros (?&?&?&?) (?&?&?&?). repeat split; congruence.
Qed.

(** What a callback leaves behind, whether it throws or not: only products
    are written, and none outside the session when one is used; no order is
    staged. *)
Lemma resolveItem_state inSession sellerId item st r st' :
  resolveItem inSession sellerId item st = (r, st') ->
  sameButProducts (fst st) (fst st') /\
  stagedOrders (snd st') = stagedOrders (snd st) /\
  (inSession = true -> fst st' = fst st).
Proof.
  unfold resolveItem, saveProduct.
  destruct (products (fst st) !! CartItem.product item);
    [destruct (sellerProducts (fst st) !! CartItem.sellerProduct item);
     [destruct (negb _)|]|];
    try (intros [= <- <-]; repeat split; fail).
  destruct inSession; intros [= <- <-]; simpl; repeat split; discriminate.
Qed.

Lemma resolveItem_priced inSession sellerId item st oi st' :
  resolveItem inSession sellerId item st = (inr oi, st') ->
  pricedFromListing (fst st) sellerId item oi.
Proof.
  unfold resolveItem.
  destruct (products (fst st) !! CartItem.product item); [|discriminate].
  destruct (sellerProducts (fst st) !! CartItem.sellerProduct item) as [sp|] eqn:E;
    [|discriminate].
  destruct (String.eqb (SellerProduct.seller sp) sellerId) eqn:Es; simpl;
    [|discriminate].
  intros [= <- <-]. exists sp. apply String.eqb_eq in Es. repeat split; assumption.
Qed.

Lemma pricedFromListing_same db db' sellerId item oi :
  sameButProducts db db' ->
  pricedFromListing db' sellerId item oi -> pricedFromListing db sellerId item oi.
Proof.
  intros (_ & Hs & _) (sp & H). exists sp. rewrite <- Hs. exact H.
Qed.

Lemma resolveItems_state inSession sellerId items st r st' :
  resolveItems inSession sellerId items st = (r, st') ->
  sameButProducts (fst st) (fst st') /\
  stagedOrders (snd st') = stagedOrders (snd st) /\
  (inSession = true -> fst st' = fst st).
Proof.
  revert st r st'. induction items as [|item rest IH]; intros st r st'; simpl.
  - intros [= <- <-]. split; [apply sameButProducts_refl|]. split; reflexivity.
  - destruct (resolveItem inSession sellerId item st) as [[e|oi] st1] eqn:E1.
    + intros [= <- <-]. exact (resolveItem_state _ _ _ _ _ _ E1).
    + destruct (resolveItems inSession sellerId rest st1) as [r2 st2] eqn:E2.
      destruct (resolveItem_state _ _ _ _ _ _ E1) as (Ha & Hb & Hc).
      destruct (IH _ _ _ E2) as (Ha' & Hb' & Hc').
      intros H.
      assert (st' = st2) as -> by (destruct r2; injection H; auto).
      split; [exact (sameButProducts_trans _ _ _ Ha Ha')|].
      split; [congruence|]. intros Hs. rewrite (Hc' Hs). exact (Hc Hs).
Qed.

Lemma resolveItems_priced inSession sellerId items st ois st' :
  resolveItems inSession sellerId items st = (inr ois, st') ->
  Forall2 (pricedFromListing (fst st) sellerId) items ois.
Proof.
  revert st ois st'. induction items as [|item rest IH]; intros st ois st'; simpl.
  - intros [= <- <-]. constructor.
  - destruct (resolveItem inSession sellerId item st) as [[e|oi] st1] eqn:E1;
      [discriminate|].
    destruct (resolveItems inSession sellerId rest st1) as [[e|ois2] st2] eqn:E2;
      [discriminate|].
    intros [= <- <-]. constructor.
    + exact (resolveItem_priced _ _ _ _ _ _ E1).
    + eapply Forall2_impl; [exact (IH _ _ _ E2)|].
      intros x y. apply pricedFromListing_same.
      exact (proj1 (resolveItem_state _ _ _ _ _ _ E1)).
Qed.

Lemma sellerDiscountOf_share discount itemsPrice totalOrderValue :
  discountShare (orZero discount) totalOrderValue itemsPrice
    (sellerDiscountOf discount itemsPrice totalOrderValue).
Proof.
  unfold discountShare, sellerDiscountOf. split.
  - intros H. rewrite (proj2 (Qlt_bool_iff _ _) H). reflexivity.
  - intros H. destruct (Qlt_bool 0 totalOrderValue) eqn:E; [|reflexivity].
    apply Qlt_bool_iff in E. rewrite H in E. discriminate E.
Qed.

Lemma newOrder_partition razorpay now id number userId sellerId req address
    db sellerItems orderItems totalOrderValue :
  Forall2 (pricedFromListing db sellerId) sellerItems orderItems ->
  orderOfPartition db (orZero (OrderRequest.discount req)) totalOrderValue
    (sellerId, sellerItems)
    (newOrder razorpay now id number userId sellerId req address orderItems
       totalOrderValue).
Proof.
  intros H. split; [reflexivity|]. split; [exact H|]. split; [reflexivity|].
  eexists. split; [apply sellerDiscountOf_share|]. reflexivity.
Qed.

Lemma orderOfPartition_same db db' discount total part o :
  sameButProducts db db' ->
  orderOfPartition db' discount total part o -> orderOfPartition db discount total part o.
Proof.
  intros Hs (H1 & H2 & H3). split; [exact H1|]. split; [|exact H3].
  eapply Forall2_impl; [exact H2|].
  intros x y. apply pricedFromListing_same, Hs.
Qed.

Section ForEachSeller.

Variables (razorpay : bool) (now : Z) (fresh : nat -> ObjectId * string)
          (userId : ObjectId) (req : OrderRequest.t) (address : Order.address)
          (totalOrderValue : Q).

Let loop := forEachSeller razorpay now fresh userId req address totalOrderValue.

(** Whatever the outcome, the loop writes products only, and none outside
    the session when one is used. *)
Lemma forEachSeller_state parts k created st r st' :
  loop parts k created st = (r, st') ->
  sameButProducts (fst st) (fst st') /\
  (razorpay = true -> fst st' = fst st).
Proof.
  unfold loop. revert k created st.
  induction parts as [|[sellerId sellerItems] rest IH]; intros k created st; simpl.
  - intros [= <- <-]. split; [apply sameButProducts_refl|reflexivity].
  - destruct (resolveItems razorpay sellerId sellerItems st) as [[e|ois] st1] eqn:E1.
    + intros [= <- <-].
      destruct (resolveItems_state _ _ _ _ _ _ E1) as (Ha & _ & Hc). tauto.
    + intros H. apply IH in H. simpl in H. destruct H as (Ha' & Hc').
      destruct (resolveItems_state _ _ _ _ _ _ E1) as (Ha & _ & Hc).
      split; [exact (sameButProducts_trans _ _ _ Ha Ha')|].
      intros Hs. rewrite (Hc' Hs). exact (Hc Hs).
Qed.

(** A loop that ends without an error has staged one order per partition,
    in the order of the partitions. *)
Lemma forEachSeller_created parts k created st os st' :
  loop parts k created st = (inr os, st') ->
  exists new,
    os = created ++ new /\
    stagedOrders (snd st') = stagedOrders (snd st) ++ new /\
    Forall2 (orderOfPartition (fst st) (orZero (OrderRequest.discount req))
               totalOrderValue) parts new /\
    Forall (fun o => Order.user o = userId /\ Order.createdAt o = now /\
                     Order.orderIdempotencyKey o =
                       if truthy (OrderRequest.orderIdempotencyKey req)
                       then Some (OrderRequest.orderIdempotencyKey req)
                       else None) new.
Proof.
  unfold loop. revert k created st.
  induction parts as [|[sellerId sellerItems] rest IH]; intros k created st; simpl.
  - intros [= <- <-]. exists []. rewrite !app_nil_r.
    repeat split; constructor.
  - destruct (resolveItems razorpay sellerId sellerItems st) as [[e|ois] st1] eqn:E1;
      [discriminate|].
    intros H. apply IH in H. destruct H as (new & -> & Hst & Hparts & Hplaced).
    destruct (resolveItems_state _ _ _ _ _ _ E1) as (Ha & Hb & _).
    eexists (_ :: new). split; [rewrite <- app_assoc; reflexivity|].
    split; [|split].
    + rewrite Hst. simpl. rewrite Hb, <- app_assoc. reflexivity.
    + constructor.
      * apply newOrder_partition. exact (resolveItems_priced _ _ _ _ _ _ E1).
      * eapply Forall2_impl; [exact Hparts|].
        intros x y. simpl. apply orderOfPartition_same, Ha.
    + constructor; [|exact Hplaced]. repeat split.
Qed.

End ForEachSeller.

(** The path of a request that is answered with newly created orders. *)
Lemma createOrderWith_created razorpay now fresh req db os db' :
  createOrderWith razorpay now fresh req db = (Ok 201 os, db') ->
  exists userId address parts db1 s,
    OrderRequest.user req = Some userId /\
    (truthy (OrderRequest.orderIdempotencyKey req) = true ->
     findOne (isDuplicateOf userId (OrderRequest.orderIdempotencyKey req) now)
       (orders db) = None) /\
    OrderRequest.items req <> [] /\
    groupBySeller (OrderRequest.items req) [] = inr parts /\
    forEachSeller razorpay now fresh userId req address
      (totalOrderValueOf (OrderRequest.items req)) parts 0 [] (db, startTransaction)
      = (inr os, (db1, s)) /\
    db' = commitTransaction s db1.
Proof.
  unfold createOrderWith.
  destruct (OrderRequest.user req) as [userId|]; [|discriminate].
  destruct (if truthy (OrderRequest.orderIdempotencyKey req) then _ else None)
    as [existing|] eqn:Edup; [discriminate|].
  destruct (OrderRequest.shippingAddress req) as [address|]; [|discriminate].
  destruct (_ || _); [discriminate|].
  destruct (OrderRequest.items req) as [|item items] eqn:Eitems; [discriminate|].
  destruct (groupBySeller (item :: items) []) as [e|parts] eqn:Eg; [discriminate|].
  destruct (forEachSeller _ _ _ _ _ _ _ _ _ _ _) as [[e|created] [db1 s]] eqn:El;
    [discriminate|].
  intros [= <- <-]. exists userId, address, parts, db1, s.
  split; [reflexivity|]. split.
  - intros Ht. rewrite Ht in Edup. exact Edup.
  - split; [discriminate|]. split; [reflexivity|]. split; [exact El|reflexivity].
Qed.



(** The shares of the sample cart: 150 * (1000 / 1500) and 150 * (500 / 1500). *)
Example discount_share_sample :
  totalOrderValueOf (OrderRequest.items Sample.cart) == 1500 /\
  sellerDiscountOf (Some 150) 1000 1500 == 100 /\
  sellerDiscountOf (Some 150) 500 1500 == 50 /\
  sellerDiscountOf (Some 150) 1000 0 == 0.
Proof. vm_compute. repeat split; reflexivity. Qed.

(** ** Duplicate requests *)

Lemma pushItem_nonempty item m : pushItem item m <> [].
Proof.
  destruct m as [|[k l] r]; simpl; [discriminate|].
  destruct (String.eqb k (CartItem.seller item)); discriminate.
Qed.

Lemma groupBySeller_nonempty items acc parts :
  groupBySeller items acc = inr parts -> items <> [] \/ acc <> [] -> parts <> [].
Proof.
  revert acc. induction items as [|item rest IH]; intros acc; simpl.
  - intros [= <-] [H|H]; [contradiction|exact H].
  - do 3 (case_scrutinee; [discriminate|]).
    intros H _. apply (IH _ H). right. apply pushItem_nonempty.
Qed.

Lemma findOne_none_weaken {A} (p q : A -> bool) l :
  (forall x, q x = true -> p x = true) ->
  findOne p l = None -> findOne q l = None.
Proof.
  unfold findOne. intros Hpq. induction l as [|x l IH]; simpl; [reflexivity|].
  destruct (p x) eqn:Ep; [discriminate|].
  destruct (q x) eqn:Eq; [|exact IH].
  rewrite (Hpq x Eq) in Ep. discriminate.
Qed.

Lemma findOne_app_none {A} (p : A -> bool) l1 l2 :
  findOne p l1 = None -> findOne p (l1 ++ l2) = findOne p l2.
Proof.
  unfold findOne. induction l1 as [|x l IH]; simpl; [reflexivity|].
  destruct (p x); [discriminate|exact IH].
Qed.

Lemma isDuplicateOf_later userId key t1 t2 o :
  (t1 <= t2)%Z ->
  isDuplicateOf userId key t2 o = true -> isDuplicateOf userId key t1 o = true.
Proof.
  unfold isDuplicateOf. intros Ht.
  rewrite !andb_true_iff, !Z.leb_le. intros [H1 H2]. split; [exact H1|lia].
Qed.

(** The duplicate check answers before anything is written. *)
Lemma createOrderWith_duplicate razorpay now fresh req db userId existing :
  OrderRequest.user req = Some userId ->
  OrderRequest.orderIdempotencyKey req <> "" ->
  findOne (isDuplicateOf userId (OrderRequest.orderIdempotencyKey req) now)
    (orders db) = Some existing ->
  createOrderWith razorpay now fresh req db = (Ok 200 [existing], db).
Proof.
  intros Hu Hk Hf. unfold createOrderWith.
  rewrite Hu, (truthy_true _ Hk), Hf. reflexivity.
Qed.

(** A request answered with created orders has stored them, in order, after
    the orders that were there. *)
Lemma createOrderWith_stored razorpay now fresh req db os db' :
  createOrderWith razorpay now fresh req db = (Ok 201 os, db') ->
  orders db' = orders db ++ os /\ os <> [] /\
  forall userId, OrderRequest.user req = Some userId ->
    Forall (fun o => Order.user o = userId /\ Order.createdAt o = now /\
                     Order.orderIdempotencyKey o =
                       if truthy (OrderRequest.orderIdempotencyKey req)
                       then Some (OrderRequest.orderIdempotencyKey req)
                       else None) os.
Proof.
  intros H. apply createOrderWith_created in H.
  destruct H as (userId & address & parts & db1 & s & Hu & _ & Hne & Hg & Hl & ->).
  pose proof (forEachSeller_state _ _ _ _ _ _ _ _ _ _ _ _ _ Hl) as [(Ho & _) _].
  apply forEachSeller_created in Hl.
  destruct Hl as (new & -> & Hst & Hparts & Hplaced). simpl in *.
  split; [rewrite Ho, Hst; reflexivity|]. split.
  - intros ->. inversion Hparts as [E|]; subst.
    exact (groupBySeller_nonempty _ _ _ Hg (or_introl Hne) eq_refl).
  - intros u Hu'. rewrite Hu in Hu'. injection Hu' as <-. exact Hplaced.
Qed.

(** C3, as the code has it.  When an order creation with a non-empty
    idempotency key has created its orders and the same buyer submits the
    request again within five minutes, the duplicate check answers before
    any write: the database is left as the first call left it, and the
    answer is a list holding one order, the first one the first call
    created. *)
Theorem duplicate_request_returns_first_order
    razorpay razorpay' t1 t2 fresh fresh' req db os db1 :
  OrderRequest.orderIdempotencyKey req <> "" ->
  createOrderWith razorpay t1 fresh req db = (Ok 201 os, db1) ->
  (t1 <= t2 <= t1 + 5 * 60 * 1000)%Z ->
  exists first rest,
    os = first :: rest /\
    createOrderWith razorpay' t2 fresh' req db1 = (Ok 200 [first], db1).
Proof.
  intros Hk H1 Ht.
  destruct (createOrderWith_stored _ _ _ _ _ _ _ H1) as (Ho & Hne & Hplaced).
  apply createOrderWith_created in H1.
  destruct H1 as (userId & _ & _ & _ & _ & Hu & Hnodup & _).
  specialize (Hplaced userId Hu). specialize (Hnodup (truthy_true _ Hk)).
  rewrite (truthy_true _ Hk) in Hplaced.
  destruct os as [|first rest]; [contradiction|].
  exists first, rest. split; [reflexivity|].
  apply (createOrderWith_duplicate _ _ _ _ _ userId); [exact Hu|exact Hk|].
  rewrite Ho, findOne_app_none.
  - apply List.Forall_inv in Hplaced. destruct Hplaced as (Hpu & Hpt & Hpk).
    unfold findOne; simpl. unfold isDuplicateOf.
    rewrite Hpu, Hpk, Hpt, !String.eqb_refl. simpl.
    rewrite (proj2 (Z.leb_le _ _)) by lia. reflexivity.
  - apply (findOne_none_weaken _ _ _ (fun x => isDuplicateOf_later _ _ t1 t2 x (proj1 Ht))).
    exact Hnodup.
Qed.

Lemma duplicate_request_witness :
  exists os db1 first rest,
    createOrder 1000 Sample.fresh Sample.cart Sample.shopDb = (Ok 201 os, db1) /\
    os = first :: rest /\
    createOrder 2000 Sample.fresh Sample.cart db1 = (Ok 200 [first], db1).
Proof.
  destruct (createOrder 1000 Sample.fresh Sample.cart Sample.shopDb)
    as [r db1] eqn:E.
  assert (exists os, r = Ok 201 os) as (os & ->).
  { pose proof E as E'. vm_compute in E'. injection E' as <- _.
    eexists. reflexivity. }
  destruct (duplicate_request_returns_first_order false false 1000 2000
              Sample.fresh Sample.fresh Sample.cart Sample.shopDb os db1)
    as (first & rest & Hos & H2).
  - discriminate.
  - exact E.
  - lia.
  - exists os, db1, first, rest. auto.
Defined.

(** C3, as the specification has it, fails on a cart with two sellers: the
    first call answers with two orders, the second call, one second later
    and with the same key, answers with one. *)
Lemma duplicate_request_drops_orders :
  let first := createOrder 1000 Sample.fresh Sample.cart Sample.shopDb in
  let second := createOrder 2000 Sample.fresh Sample.cart (snd first) in
  snd second = snd first /\
  exists os answer,
    fst first = Ok 201 os /\ fst second = Ok 200 answer /\
    map Order._id os = ["00000000000000000000d001"; "00000000000000000000d002"] /\
    map Order._id answer = ["00000000000000000000d001"] /\
    answer <> os.
Proof.
  vm_compute. split; [reflexivity|].
  eexists _, _. split; [reflexivity|]. split; [reflexivity|].
  split; [reflexivity|]. split; [reflexivity|]. discriminate.
Qed.

(** ** Atomicity of order creation *)

(** [createOrderForRazorpay] stages every write in the session: unless it
    answers with created orders, it leaves the database as it was. *)
Lemma createOrderForRazorpay_all_or_nothing now fresh req db r db' :
  createOrderForRazorpay now fresh req db = (r, db') ->
  (forall os, r <> Ok 201 os) -> db' = db.
Proof.
  unfold createOrderForRazorpay, createOrderWith.
  destruct (OrderRequest.user req) as [userId|]; [|intros [= <- <-]; reflexivity].
  destruct (if truthy (OrderRequest.orderIdempotencyKey req) then _ else None);
    [intros [= <- <-]; reflexivity|].
  destruct (OrderRequest.shippingAddress req) as [address|];
    [|intros [= <- <-]; reflexivity].
  destruct (_ || _); [intros [= <- <-]; reflexivity|].
  destruct (OrderRequest.items req) as [|item items]; [intros [= <- <-]; reflexivity|].
  destruct (groupBySeller (item :: items) []) as [e|parts];
    [intros [= <- <-]; reflexivity|].
  destruct (forEachSeller _ _ _ _ _ _ _ _ _ _ _) as [[e|created] [db1 s]] eqn:El.
  - intros [= <- <-] _.
    exact (proj2 (forEachSeller_state _ _ _ _ _ _ _ _ _ _ _ _ _ El) eq_refl).
  - intros [= <- <-] H. exfalso. exact (H created eq_refl).
Qed.

(** [createOrder] never stores part of the orders of a request: when it
    answers with an error, the order collection is as it was.  Products are
    another matter. *)
Lemma createOrder_error_orders now fresh req db code message db' :
  createOrder now fresh req db = (Err code message, db') ->
  sameButProducts db db'.
Proof.
  unfold createOrder, createOrderWith.
  destruct (OrderRequest.user req) as [userId|];
    [|intros [= _ _ <-]; apply sameButProducts_refl].
  destruct (if truthy (OrderRequest.orderIdempotencyKey req) then _ else None);
    [discriminate|].
  destruct (OrderRequest.shippingAddress req) as [address|];
    [|intros [= _ _ <-]; apply sameButProducts_refl].
  destruct (_ || _); [intros [= _ _ <-]; apply sameButProducts_refl|].
  destruct (OrderRequest.items req) as [|item items];
    [intros [= _ _ <-]; apply sameButProducts_refl|].
  destruct (groupBySeller (item :: items) []) as [e|parts];
    [intros [= _ _ <-]; apply sameButProducts_refl|].
  destruct (forEachSeller _ _ _ _ _ _ _ _ _ _ _) as [[e|created] [db1 s]] eqn:El;
    [|discriminate].
  intros [= _ _ <-].
  exact (proj1 (forEachSeller_state _ _ _ _ _ _ _ _ _ _ _ _ _ El)).
Qed.

(** C2.  [createOrder] on the sample shop, with a cart whose first item (two
    of product 1, seller A) is sound and whose second item names a product
    that does not exist: the request fails and no order is stored, yet the
    sold count of product 1 has gone from 0 to 2, because [createOrder] saves
    the product outside the session; [createOrderForRazorpay], which saves it
    with the session, leaves the database untouched on the same cart. *)
Theorem createOrder_failure_keeps_sold_count :
  let db := Sample.shopDb in
  let outcome := createOrder 1000 Sample.fresh Sample.brokenCart db in
  fst outcome =
    Err 500 "Failed to create order: Product not found: 000000000000000000000a09" /\
  orders (snd outcome) = [] /\
  Product.totalSold <$> products db !! Sample.p1 = Some 0%Z /\
  Product.totalSold <$> products (snd outcome) !! Sample.p1 = Some 2%Z /\
  createOrderForRazorpay 1000 Sample.fresh Sample.brokenCart db =
    (fst outcome, db).
Proof. vm_compute. repeat split; reflexivity. Qed.

(** ** Invariants of the wallet collection under every handler *)

Lemma createOrderWith_wallets razorpay now fresh req db :
  wallets (snd (createOrderWith razorpay now fresh req db)) = wallets db.
Proof.
  unfold createOrderWith.
  destruct (OrderRequest.user req) as [userId|]; [|reflexivity].
  destruct (if truthy (OrderRequest.orderIdempotencyKey req) then _ else None);
    [reflexivity|].
  destruct (OrderRequest.shippingAddress req) as [address|]; [|reflexivity].
  destruct (_ || _); [reflexivity|].
  destruct (OrderRequest.items req) as [|item items]; [reflexivity|].
  destruct (groupBySeller (item :: items) []) as [e|parts]; [reflexivity|].
  destruct (forEachSeller _ _ _ _ _ _ _ _ _ _ _) as [[e|created] [db1 s]] eqn:El;
    apply forEachSeller_state in El; destruct El as [(_ & _ & Hw & _) _];
    simpl in *; exact Hw.
Qed.

Lemma storeOrders_wallets os db :
  wallets (fold_left (fun d o => storeOrder o d) os db) = wallets db.
Proof.
  revert db. induction os as [|o os IH]; intros db; simpl; [reflexivity|].
  rewrite IH. reflexivity.
Qed.

Lemma capture_wallets env c now req db :
  wallets (snd (capturePaymentForOrders env c now req db)) = wallets db.
Proof.
  unfold capturePaymentForOrders.
  repeat case_scrutinee; simpl; try reflexivity; apply storeOrders_wallets.
Qed.

Section WalletInvariant.

(** A property of wallet documents that a new wallet has and that each of
    the writers of the wallet collection keeps, for the documents that pass
    the validation of [save()]. *)
Variable P : Wallet.t -> Prop.
Hypothesis P_create : P Wallet.create.
Hypothesis P_credit : forall amount description orderId w,
  P w ->
  Wallet.valid (Wallet.addTransaction Transaction.credit amount description
                  orderId None w) = true ->
  P (Wallet.addTransaction Transaction.credit amount description orderId None w).
Hypothesis P_hold : forall amount wid w,
  P w -> Wallet.valid (holdFunds amount wid w) = true -> P (holdFunds amount wid w).
Hypothesis P_refund : forall amount wid w,
  P w -> Wallet.valid (refundHold amount wid w) = true ->
  P (refundHold amount wid w).
Hypothesis P_settle : forall amount wid w,
  P w -> Wallet.valid (settleHold amount wid w) = true ->
  P (settleHold amount wid w).
Hypothesis P_replay : forall existing os wrs,
  P (Recompute.upsert existing (Recompute.replay os wrs)).

Lemma allWallets_lookup db s w :
  allWallets P db -> wallets db !! s = Some w -> P w.
Proof. intros H E. exact (H s w E). Qed.

Lemma allWallets_insert db s w :
  allWallets P db -> P w -> allWallets P (setWallets (<[s := w]> (wallets db)) db).
Proof. intros H Hw. unfold allWallets. simpl. apply map_Forall_insert_2; assumption. Qed.

Lemma allWallets_same db db' :
  wallets db' = wallets db -> allWallets P db -> allWallets P db'.
Proof. unfold allWallets. intros ->. tauto. Qed.

Lemma save_allWallets db s w ws :
  allWallets P db -> P w -> Wallet.save s w (wallets db) = Some ws ->
  allWallets P (setWallets ws db).
Proof.
  unfold Wallet.save. destruct (Wallet.valid w); [|discriminate].
  intros H Hw [= <-]. apply allWallets_insert; assumption.
Qed.

Lemma findOrCreateWallet_P s db w ws :
  allWallets P db -> findOrCreateWallet s (wallets db) = (w, ws) ->
  P w /\ allWallets P (setWallets ws db).
Proof.
  unfold findOrCreateWallet. intros H.
  destruct (wallets db !! s) as [w0|] eqn:E; intros [= <- <-].
  - split; [exact (allWallets_lookup _ _ _ H E)|]. destruct db; exact H.
  - split; [exact P_create|]. apply allWallets_insert; [exact H|exact P_create].
Qed.

Lemma createWithdrawalRequest_allWallets now newId s amount bd pm db :
  allWallets P db ->
  allWallets P (snd (createWithdrawalRequest now newId s amount bd pm db)).
Proof.
  intros H. unfold createWithdrawalRequest.
  destruct (Qlt_bool amount 100); [exact H|].
  destruct (wallets db !! s) as [w|] eqn:E; [|exact H].
  destruct (Qlt_bool (Wallet.balance w) amount); [exact H|].
  destruct (0 <? _)%nat; [exact H|].
  destruct (WithdrawalRequest.create _ _) as [code l|code e]; [|exact H].
  destruct (Wallet.save s _ _) as [ws|] eqn:Es; simpl; [|exact H].
  unfold Wallet.save in Es. destruct (Wallet.valid _) eqn:Ev; [|discriminate].
  injection Es as <-. unfold allWallets. simpl.
  apply map_Forall_insert_2; [|exact H].
  apply P_hold; [exact (allWallets_lookup _ _ _ H E)|exact Ev].
Qed.

Lemma approveWithdrawal_wallets now adminId id notes db :
  wallets (snd (approveWithdrawal now adminId id notes db)) = wallets db.
Proof.
  unfold approveWithdrawal. repeat case_scrutinee; reflexivity.
Qed.

Lemma rejectWithdrawal_allWallets now adminId id reason db :
  allWallets P db -> allWallets P (snd (rejectWithdrawal now adminId id reason db)).
Proof.
  intros H. unfold rejectWithdrawal.
  destruct (findOne _ _) as [wr|]; [|exact H].
  destruct (negb _); [exact H|].
  destruct (WithdrawalRequest.save _ _) as [code l|code e]; [|exact H].
  simpl. destruct (wallets db !! WithdrawalRequest.seller wr) as [w|] eqn:E;
    [|exact H].
  unfold Wallet.save. destruct (Wallet.valid _) eqn:Ev; simpl; [|exact H].
  unfold allWallets. simpl. apply map_Forall_insert_2; [|exact H].
  apply P_refund; [exact (allWallets_lookup _ _ _ H E)|exact Ev].
Qed.

Lemma processWithdrawal_allWallets now adminId id txid db :
  allWallets P db -> allWallets P (snd (processWithdrawal now adminId id txid db)).
Proof.
  intros H. unfold processWithdrawal.
  destruct (findOne _ _) as [wr|]; [|exact H].
  destruct (negb _); [exact H|].
  destruct (WithdrawalRequest.save _ _) as [code l|code e]; [|exact H].
  simpl. destruct (wallets db !! WithdrawalRequest.seller wr) as [w|] eqn:E;
    [|exact H].
  unfold Wallet.save. destruct (Wallet.valid _) eqn:Ev; simpl; [|exact H].
  unfold allWallets. simpl. apply map_Forall_insert_2; [|exact H].
  apply P_settle; [exact (allWallets_lookup _ _ _ H E)|exact Ev].
Qed.

Lemma recompute_allWallets s db :
  allWallets P db -> allWallets P (snd (recomputeWalletForSeller s db)).
Proof.
  intros H. unfold recomputeWalletForSeller, allWallets. simpl.
  apply map_Forall_insert_2; [apply P_replay|exact H].
Qed.

Lemma creditEarnings_allWallets order amount db :
  allWallets P db ->
  allWallets P (setWallets (creditEarnings order amount (wallets db)) db).
Proof.
  intros H. unfold creditEarnings, allWallets. cbn -[Wallet.addTransaction].
  destruct (wallets db !! Order.seller order) as [w|] eqn:E;
    cbn -[Wallet.addTransaction].
  - unfold Wallet.save. destruct (Wallet.valid _) eqn:Ev; [|exact H].
    apply map_Forall_insert_2; [|exact H].
    apply P_credit; [exact (allWallets_lookup _ _ _ H E)|exact Ev].
  - unfold Wallet.save. destruct (Wallet.valid _) eqn:Ev.
    + apply map_Forall_insert_2; [apply P_credit; [exact P_create|exact Ev]|].
      apply map_Forall_insert_2; [exact P_create|exact H].
    + apply map_Forall_insert_2; [exact P_create|exact H].
Qed.

Lemma updateOrderStatus_allWallets id status db :
  allWallets P db -> allWallets P (snd (updateOrderStatus id status db)).
Proof.
  intros H. unfold updateOrderStatus.
  destruct (findOne _ _) as [order|]; [|exact H].
  destruct (_ && _); simpl; [|exact H].
  apply (creditEarnings_allWallets _ _ db H).
Qed.

Lemma adminResyncOrderToWallet_allWallets orderId db :
  allWallets P db -> allWallets P (snd (adminResyncOrderToWallet orderId db)).
Proof.
  intros H. unfold adminResyncOrderToWallet.
  destruct (findOne _ _) as [order|]; [|exact H].
  destruct (negb _); [exact H|].
  destruct (findOrCreateWallet _ _) as [w ws1] eqn:Ef.
  destruct (findOrCreateWallet_P _ _ _ _ H Ef) as [Hw H1].
  destruct (existsb _ _).
  - destruct (negb _); exact H1.
  - simpl. unfold Wallet.save. destruct (Wallet.valid _) eqn:Ev; simpl;
      [|exact H1].
    unfold allWallets. simpl. apply map_Forall_insert_2; [|exact H1].
    apply P_credit; [exact Hw|exact Ev].
Qed.

Lemma resyncLoop_allWallets s set os w n db :
  allWallets P db -> P w ->
  allWallets P (snd (resyncLoop s set os w n db)).
Proof.
  revert w n db. induction os as [|order rest IH]; intros w n db H Hw; simpl;
    [exact H|].
  destruct (bool_decide _).
  - apply IH; [|exact Hw]. destruct (negb _); exact H.
  - unfold Wallet.save. destruct (Wallet.valid _) eqn:Ev; simpl; [|exact H].
    apply IH; [|apply P_credit; [exact Hw|exact Ev]].
    unfold allWallets. simpl. apply map_Forall_insert_2; [|exact H].
    apply P_credit; [exact Hw|exact Ev].
Qed.

Lemma adminResyncSellerWallet_allWallets sellerExists s db :
  allWallets P db ->
  allWallets P (snd (adminResyncSellerWallet sellerExists s db)).
Proof.
  intros H. unfold adminResyncSellerWallet.
  destruct (negb _); [exact H|].
  destruct (findOrCreateWallet _ _) as [w ws1] eqn:Ef.
  destruct (findOrCreateWallet_P _ _ _ _ H Ef) as [Hw H1].
  pose proof (resyncLoop_allWallets s (creditedOrderIds (Wallet.transactions w))
                (deliveredOf s (setWallets ws1 db)) w 0 _ H1 Hw) as H2.
  destruct (resyncLoop _ _ _ _ _ _) as [[[w' n]|] db2]; exact H2.
Qed.

Lemma handle_allWallets r db : allWallets P db -> allWallets P (handle r db).
Proof.
  destruct r; simpl.
  - apply createWithdrawalRequest_allWallets.
  - apply allWallets_same, approveWithdrawal_wallets.
  - apply rejectWithdrawal_allWallets.
  - apply processWithdrawal_allWallets.
  - apply recompute_allWallets.
  - apply updateOrderStatus_allWallets.
  - apply adminResyncOrderToWallet_allWallets.
  - apply adminResyncSellerWallet_allWallets.
  - apply allWallets_same, createOrderWith_wallets.
  - apply allWallets_same, capture_wallets.
Qed.

Lemma serve_allWallets rs db : allWallets P db -> allWallets P (serve rs db).
Proof.
  unfold serve. revert db. induction rs as [|r rs IH]; intros db H; simpl;
    [exact H|].
  apply IH, handle_allWallets, H.
Qed.

End WalletInvariant.

Section SavedWallets.

(** The same for the handlers that write wallets through [save()] only,
    that is, all but the recomputation. *)
Variable P : Wallet.t -> Prop.
Hypothesis P_create : P Wallet.create.
Hypothesis P_saved : forall w, Wallet.valid w = true -> P w.

Lemma serve_saved rs db :
  forallb (fun r => negb (isRecompute r)) rs = true ->
  allWallets P db -> allWallets P (serve rs db).
Proof.
  unfold serve. revert db. induction rs as [|r rs IH]; intros db Hrs H; simpl;
    [exact H|].
  simpl in Hrs. apply andb_true_iff in Hrs as [Hr Hrs]. apply (IH _ Hrs).
  assert (Hs : forall amount description orderId w,
            P w ->
            Wallet.valid (Wallet.addTransaction Transaction.credit amount
                            description orderId None w) = true ->
            P (Wallet.addTransaction Transaction.credit amount description
                 orderId None w)) by (intros; apply P_saved; assumption).
  destruct r; simpl; try discriminate.
  - apply createWithdrawalRequest_allWallets; [|exact H].
    intros; apply P_saved; assumption.
  - apply (allWallets_same P db); [apply approveWithdrawal_wallets|exact H].
  - apply rejectWithdrawal_allWallets; [|exact H].
    intros; apply P_saved; assumption.
  - apply processWithdrawal_allWallets; [|exact H].
    intros; apply P_saved; assumption.
  - apply updateOrderStatus_allWallets; [exact P_create|exact Hs|exact H].
  - apply adminResyncOrderToWallet_allWallets; [exact P_create|exact Hs|exact H].
  - apply adminResyncSellerWallet_allWallets; [exact P_create|exact Hs|exact H].
  - apply (allWallets_same P db); [apply createOrderWith_wallets|exact H].
  - apply (allWallets_same P db); [apply capture_wallets|exact H].
Qed.

End SavedWallets.

(** *** The accounting identity *)

Lemma replay_accounting os wrs :
  let r := Recompute.replay os wrs in
  Recompute.runningBalance r ==
  Recompute.totalEarnings r - Recompute.totalWithdrawn r -
  Recompute.pendingWithdrawals r.
Proof.
  cbv zeta. unfold Recompute.replay.
  set (Q := fun r => Recompute.runningBalance r ==
                     Recompute.totalEarnings r - Recompute.totalWithdrawn r -
                     Recompute.pendingWithdrawals r).
  assert (H0 : Q Recompute.init) by (unfold Q; simpl; ring).
  assert (H1 : forall l acc, Q acc -> Q (fold_left Recompute.creditOrder l acc)).
  { induction l as [|o l IH]; intros acc H; simpl; [exact H|].
    apply IH. unfold Q in *. simpl. rewrite H. ring. }
  assert (H2 : forall l acc, Q acc -> Q (fold_left Recompute.applyWithdrawal l acc)).
  { induction l as [|o l IH]; intros acc H; simpl; [exact H|].
    apply IH. unfold Q, Recompute.applyWithdrawal in *.
    destruct (WithdrawalRequest.status o); simpl; rewrite H; ring. }
  exact (H2 _ _ (H1 _ _ H0)).
Qed.


(** X18.  No handler that writes wallets through [save()] leaves a negative
    aggregate behind: when no stored wallet has a negative [balance],
    [totalEarnings], [totalWithdrawn] or [pendingWithdrawals], none has after
    any sequence of requests that holds no recomputation of a wallet. *)
Theorem aggregates_stay_non_negative rs db :
  forallb (fun r => negb (isRecompute r)) rs = true ->
  allWallets nonNegative db ->
  allWallets nonNegative (serve rs db).
Proof.
  intros Hrs. apply serve_saved; [|  |exact Hrs].
  - repeat split; discriminate.
  - intros w Hv. apply Wallet_valid_iff in Hv. unfold nonNegative. tauto.
Qed.

(** *** The shape of the entries *)

Lemma updateFirst_Forall {A} (Q : A -> Prop) p f (l l' : list A) :
  (forall x, p x = true -> Q x -> Q (f x)) ->
  updateFirst p f l = Some l' -> Forall Q l -> Forall Q l'.
Proof.
  intros Hf. revert l'. induction l as [|x l IH]; intros l'; simpl; [discriminate|].
  destruct (p x) eqn:Ep.
  - intros [= <-] H. apply List.Forall_cons_iff in H as [Hx Hl].
    constructor; [exact (Hf x Ep Hx)|exact Hl].
  - destruct (updateFirst p f l) as [r|]; [|discriminate].
    intros [= <-] H. apply List.Forall_cons_iff in H as [Hx Hl].
    constructor; [exact Hx|]. apply IH; [reflexivity|exact Hl].
Qed.

Lemma updateLast_Forall {A} (Q : A -> Prop) p f (l l' : list A) :
  (forall x, p x = true -> Q x -> Q (f x)) ->
  updateLast p f l = Some l' -> Forall Q l -> Forall Q l'.
Proof.
  intros Hf. unfold updateLast.
  destruct (updateFirst p f (rev l)) as [r|] eqn:E; [|discriminate].
  intros [= <-] H. apply List.Forall_rev.
  apply (updateFirst_Forall Q p f (rev l) r Hf E). apply List.Forall_rev, H.
Qed.

Lemma replay_entryShape os wrs :
  Forall entryShape (Recompute.transactions (Recompute.replay os wrs)).
Proof.
  unfold Recompute.replay.
  set (Q := fun r => Forall entryShape (Recompute.transactions r)).
  assert (H0 : Q Recompute.init) by constructor.
  assert (H1 : forall l acc, Q acc -> Q (fold_left Recompute.creditOrder l acc)).
  { induction l as [|o l IH]; intros acc H; simpl; [exact H|].
    apply IH. unfold Q in *. simpl. apply Forall_app. split; [exact H|].
    repeat constructor. }
  assert (H2 : forall l acc, Q acc -> Q (fold_left Recompute.applyWithdrawal l acc)).
  { induction l as [|o l IH]; intros acc H; simpl; [exact H|].
    apply IH. unfold Q, Recompute.applyWithdrawal in *.
    destruct (WithdrawalRequest.status o); simpl; apply Forall_app;
      (split; [exact H|]); repeat constructor; discriminate. }
  exact (H2 _ _ (H1 _ _ H0)).
Qed.

Lemma settled_entryShape wid x :
  isPendingDebitOf wid x = true -> entryShape x ->
  entryShape (Transaction.setStatus Transaction.completed x).
Proof.
  intros Hp Hx. unfold isPendingDebitOf in Hp.
  apply andb_true_iff in Hp as [Hp _]. apply andb_true_iff in Hp as [_ Hd].
  unfold entryShape, Transaction.isDebit in *. simpl.
  destruct (Transaction.type x); [discriminate|].
  destruct Hx as (_ & Ho & Hw). repeat split; [discriminate|exact Ho|exact Hw].
Qed.

(** X2.  After any sequence of requests every entry of every wallet log is
    either a completed credit or a debit that is tied to a withdrawal
    request, names no order and is pending or completed: no handler writes
    the status [failed], a pending credit or a debit for an order. *)
Theorem entry_shape_kept rs db :
  allWallets (fun w => Forall entryShape (Wallet.transactions w)) db ->
  allWallets (fun w => Forall entryShape (Wallet.transactions w)) (serve rs db).
Proof.
  apply serve_allWallets.
  - constructor.
  - intros amount description orderId w H _. rewrite addTransaction_entry.
    apply Forall_app. split; [exact H|]. repeat constructor.
  - intros amount wid w H _. simpl. apply Forall_app. split; [exact H|].
    repeat constructor; discriminate.
  - intros amount wid w H _. simpl. apply Forall_app. split; [exact H|].
    repeat constructor.
  - intros amount wid w H _. unfold settleHold. simpl.
    destruct (updateLast _ _ _) as [txs|] eqn:E.
    + exact (updateLast_Forall entryShape _ _ _ _ (settled_entryShape wid) E H).
    + apply Forall_app. split; [exact H|]. repeat constructor; discriminate.
  - intros existing os wrs. simpl. apply replay_entryShape.
Qed.

(** ** What the reconciliation computes *)

Lemma sumQ_app l1 l2 : sumQ (l1 ++ l2) == sumQ l1 + sumQ l2.
Proof.
  induction l1 as [|x l IH]; simpl; [ring|]. rewrite IH. ring.
Qed.

Lemma sumQ_insertBy {A} (key : A -> Z) (f : A -> Q) x l :
  sumQ (map f (insertBy key x l)) == f x + sumQ (map f l).
Proof.
  induction l as [|y l IH]; simpl; [reflexivity|].
  destruct (key x <? key y)%Z; simpl; [reflexivity|]. rewrite IH. ring.
Qed.

Lemma sumQ_sortBy {A} (key : A -> Z) (f : A -> Q) l :
  sumQ (map f (sortBy key l)) == sumQ (map f l).
Proof.
  unfold sortBy. induction l as [|x l IH]; simpl; [reflexivity|].
  rewrite sumQ_insertBy, IH. reflexivity.
Qed.

Lemma sumQ_filter_seller s (f : WithdrawalRequest.t -> Q) l :
  sumQ (map f (List.filter
                 (fun wr => String.eqb (WithdrawalRequest.seller wr) s) l)) ==
  sumQ (map (fun wr => if String.eqb (WithdrawalRequest.seller wr) s
                       then f wr else 0) l).
Proof.
  induction l as [|x l IH]; simpl; [reflexivity|].
  destruct (String.eqb (WithdrawalRequest.seller x) s); simpl; rewrite IH; ring.
Qed.

Lemma sumQ_ext {A} (f g : A -> Q) l :
  (forall x, f x == g x) -> sumQ (map f l) == sumQ (map g l).
Proof.
  intros H. induction l as [|x l IH]; simpl; [reflexivity|].
  rewrite IH, H. reflexivity.
Qed.

Lemma replay_credits os acc :
  let r := fold_left Recompute.creditOrder os acc in
  Recompute.totalEarnings r ==
    Recompute.totalEarnings acc + sumQ (map Recompute.sellerEarningsOf os) /\
  Recompute.totalWithdrawn r = Recompute.totalWithdrawn acc /\
  Recompute.pendingWithdrawals r = Recompute.pendingWithdrawals acc.
Proof.
  cbv zeta. revert acc. induction os as [|o os IH]; intros acc; simpl.
  - split; [ring|]. split; reflexivity.
  - destruct (IH (Recompute.creditOrder acc o)) as (H1 & H2 & H3).
    rewrite H1, H2, H3. simpl. split; [ring|]. split; reflexivity.
Qed.

Lemma replay_withdrawals wrs acc :
  let r := fold_left Recompute.applyWithdrawal wrs acc in
  Recompute.totalEarnings r = Recompute.totalEarnings acc /\
  Recompute.totalWithdrawn r ==
    Recompute.totalWithdrawn acc +
    sumQ (map (fun wr => if isProcessed wr then WithdrawalRequest.amount wr else 0) wrs) /\
  Recompute.pendingWithdrawals r ==
    Recompute.pendingWithdrawals acc +
    sumQ (map (fun wr => if isOpen wr then WithdrawalRequest.amount wr else 0) wrs).
Proof.
  cbv zeta. revert acc. induction wrs as [|wr wrs IH]; intros acc; simpl.
  - split; [reflexivity|]. split; ring.
  - destruct (IH (Recompute.applyWithdrawal acc wr)) as (H1 & H2 & H3).
    rewrite H1, H2, H3. unfold Recompute.applyWithdrawal, isProcessed, isOpen.
    destruct (WithdrawalRequest.status wr); simpl;
      (split; [reflexivity|]); split; ring.
Qed.

Lemma replay_earned sellerId db :
  Recompute.totalEarnings
    (Recompute.replay (deliveredOrdersOf sellerId db) (withdrawalsOf sellerId db))
  == earnedBy sellerId db.
Proof.
  unfold Recompute.replay.
  destruct (replay_withdrawals (withdrawalsOf sellerId db)
              (fold_left Recompute.creditOrder (deliveredOrdersOf sellerId db)
                 Recompute.init)) as (H1 & _ & _).
  destruct (replay_credits (deliveredOrdersOf sellerId db) Recompute.init)
    as (H4 & _ & _).
  cbv zeta in *. rewrite H1, H4. simpl.
  unfold earnedBy, deliveredOrdersOf, deliveredOf. rewrite sumQ_sortBy. ring.
Qed.

Lemma replay_held sellerId db :
  Recompute.pendingWithdrawals
    (Recompute.replay (deliveredOrdersOf sellerId db) (withdrawalsOf sellerId db))
  == heldFor sellerId db.
Proof.
  unfold Recompute.replay.
  destruct (replay_withdrawals (withdrawalsOf sellerId db)
              (fold_left Recompute.creditOrder (deliveredOrdersOf sellerId db)
                 Recompute.init)) as (_ & _ & H3).
  destruct (replay_credits (deliveredOrdersOf sellerId db) Recompute.init)
    as (_ & _ & H6).
  cbv zeta in *. rewrite H3, H6. simpl. unfold heldFor, withdrawalsOf.
  rewrite sumQ_sortBy, sumQ_filter_seller, Qplus_0_l.
  apply sumQ_ext. intros x. unfold heldBy.
  destruct (String.eqb _ _); reflexivity.
Qed.

Lemma replay_paid sellerId db :
  Recompute.totalWithdrawn
    (Recompute.replay (deliveredOrdersOf sellerId db) (withdrawalsOf sellerId db))
  == paidOutTo sellerId db.
Proof.
  unfold Recompute.replay.
  destruct (replay_withdrawals (withdrawalsOf sellerId db)
              (fold_left Recompute.creditOrder (deliveredOrdersOf sellerId db)
                 Recompute.init)) as (_ & H2 & _).
  destruct (replay_credits (deliveredOrdersOf sellerId db) Recompute.init)
    as (_ & H5 & _).
  cbv zeta in *. rewrite H2, H5. simpl. unfold paidOutTo, withdrawalsOf.
  rewrite sumQ_sortBy, sumQ_filter_seller, Qplus_0_l.
  apply sumQ_ext. intros x. unfold paidBy.
  destruct (String.eqb _ _); reflexivity.
Qed.


Lemma creditsFor_app id l1 l2 :
  creditsFor id (l1 ++ l2) = (creditsFor id l1 + creditsFor id l2)%nat.
Proof. unfold creditsFor. rewrite List.filter_app, length_app. reflexivity. Qed.

Lemma creditsFor_creditOrder id os acc :
  creditsFor id (Recompute.transactions (fold_left Recompute.creditOrder os acc)) =
  (creditsFor id (Recompute.transactions acc) +
   length (List.filter (Order.hasId id) os))%nat.
Proof.
  revert acc. induction os as [|o os IH]; intros acc; simpl; [lia|].
  rewrite IH. simpl. rewrite creditsFor_app. unfold creditsFor at 2. simpl.
  unfold isCreditFor, Order.hasId. simpl.
  destruct (String.eqb (Order._id o) id); simpl; lia.
Qed.

Lemma creditsFor_applyWithdrawal id wrs acc :
  creditsFor id (Recompute.transactions (fold_left Recompute.applyWithdrawal wrs acc)) =
  creditsFor id (Recompute.transactions acc).
Proof.
  revert acc. induction wrs as [|wr wrs IH]; intros acc; simpl; [reflexivity|].
  rewrite IH. unfold Recompute.applyWithdrawal.
  destruct (WithdrawalRequest.status wr); simpl; rewrite creditsFor_app;
    unfold creditsFor; simpl; lia.
Qed.

Lemma filter_length_insertBy {A} (key : A -> Z) p x (l : list A) :
  length (List.filter p (insertBy key x l)) = length (List.filter p (x :: l)).
Proof.
  induction l as [|y l IH]; simpl; [reflexivity|].
  destruct (key x <? key y)%Z; simpl; [reflexivity|].
  simpl in IH. destruct (p y), (p x); simpl in *; lia.
Qed.

Lemma filter_length_sortBy {A} (key : A -> Z) p (l : list A) :
  length (List.filter p (sortBy key l)) = length (List.filter p l).
Proof.
  unfold sortBy. induction l as [|x l IH]; simpl; [reflexivity|].
  rewrite filter_length_insertBy. simpl. destruct (p x); simpl; lia.
Qed.

Lemma filter_hasId_unique l o :
  List.NoDup (map Order._id l) -> In o l ->
  List.filter (Order.hasId (Order._id o)) l = [o].
Proof.
  induction l as [|x l IH]; simpl; [contradiction|].
  intros Hnd Hin. apply List.NoDup_cons_iff in Hnd as [Hx Hnd].
  assert (Hnone : forall y, ~ In (Order._id y) (map Order._id l) ->
            List.filter (Order.hasId (Order._id y)) l = []).
  { clear. intros y. induction l as [|z l IH]; simpl; [reflexivity|].
    intros H. unfold Order.hasId at 1.
    destruct (String.eqb (Order._id z) (Order._id y)) eqn:E.
    - apply String.eqb_eq in E. tauto.
    - apply IH. tauto. }
  destruct Hin as [->|Hin].
  - unfold Order.hasId at 1. rewrite String.eqb_refl. rewrite (Hnone o Hx).
    reflexivity.
  - unfold Order.hasId at 1.
    destruct (String.eqb (Order._id x) (Order._id o)) eqn:E.
    + apply String.eqb_eq in E. exfalso. apply Hx. rewrite E.
      apply List.in_map, Hin.
    + apply IH; assumption.
Qed.

Lemma filter_filter_comm {A} (p q : A -> bool) l :
  List.filter p (List.filter q l) = List.filter q (List.filter p l).
Proof.
  induction l as [|x l IH]; simpl; [reflexivity|].
  destruct (p x) eqn:Ep, (q x) eqn:Eq; simpl; rewrite ?Ep, ?Eq, IH; reflexivity.
Qed.

(** X4.  In the log written by the reconciliation of a seller, an order of
    the database has exactly one credit entry when it is a delivered order
    of that seller, and none otherwise (order ids being unique). *)
Theorem recompute_credits_once sellerId db o :
  List.NoDup (map Order._id (orders db)) ->
  In o (orders db) ->
  exists w,
    fst (recomputeWalletForSeller sellerId db) = Some w /\
    creditsFor (Order._id o) (Wallet.transactions w) =
      if String.eqb (Order.seller o) sellerId &&
         String.eqb (Order.orderStatus o) "delivered"
      then 1%nat else 0%nat.
Proof.
  intros Hnd Hin. eexists. split; [apply recompute_wallet|].
  simpl. unfold Recompute.replay.
  rewrite creditsFor_applyWithdrawal, creditsFor_creditOrder.
  unfold deliveredOrdersOf. rewrite filter_length_sortBy, filter_filter_comm.
  rewrite (filter_hasId_unique _ _ Hnd Hin). simpl.
  destruct (_ && _); reflexivity.
Qed.

(** ** The life of a withdrawal request *)

Lemma createOrderWith_withdrawals razorpay now fresh req db :
  withdrawals (snd (createOrderWith razorpay now fresh req db)) = withdrawals db.
Proof.
  unfold createOrderWith.
  destruct (OrderRequest.user req) as [userId|]; [|reflexivity].
  destruct (if truthy (OrderRequest.orderIdempotencyKey req) then _ else None);
    [reflexivity|].
  destruct (OrderRequest.shippingAddress req) as [address|]; [|reflexivity].
  destruct (_ || _); [reflexivity|].
  destruct (OrderRequest.items req) as [|item items]; [reflexivity|].
  destruct (groupBySeller (item :: items) []) as [e|parts]; [reflexivity|].
  destruct (forEachSeller _ _ _ _ _ _ _ _ _ _ _) as [[e|created] [db1 s]] eqn:El;
    apply forEachSeller_state in El; destruct El as [(_ & _ & _ & Hw) _];
    simpl in *; exact Hw.
Qed.

Lemma storeOrders_withdrawals os db :
  withdrawals (fold_left (fun d o => storeOrder o d) os db) = withdrawals db.
Proof.
  revert db. induction os as [|o os IH]; intros db; simpl; [reflexivity|].
  rewrite IH. reflexivity.
Qed.

Lemma resyncLoop_withdrawals s set os w n db :
  withdrawals (snd (resyncLoop s set os w n db)) = withdrawals db.
Proof.
  revert w n db. induction os as [|order rest IH]; intros w n db; simpl;
    [reflexivity|].
  destruct (bool_decide _).
  - rewrite IH. destruct (negb _); reflexivity.
  - destruct (Wallet.save _ _ _); simpl; [rewrite IH|]; reflexivity.
Qed.

Lemma findOne_hasId_self id l x :
  findOne (WithdrawalRequest.hasId id) l = Some x ->
  WithdrawalRequest._id x = id /\
  findOne (WithdrawalRequest.hasId (WithdrawalRequest._id x)) l = Some x.
Proof.
  intros H. pose proof (findOne_holds _ _ _ H) as Hid.
  unfold WithdrawalRequest.hasId in Hid. apply String.eqb_eq in Hid.
  split; [exact Hid|]. rewrite Hid. exact H.
Qed.

Lemma admin_requestsStep s notes reason txid adminId now id x db l code :
  findOne (WithdrawalRequest.hasId id) (withdrawals db) = Some x ->
  move (WithdrawalRequest.status x) s ->
  WithdrawalRequest.save
    (WithdrawalRequest.stamp s notes reason txid adminId now x) (withdrawals db)
    = Ok code l ->
  requestsStep (withdrawals db) l.
Proof.
  intros Hf Hm. unfold WithdrawalRequest.save.
  destruct (WithdrawalRequest.validationError _); [discriminate|].
  intros [= _ <-]. simpl WithdrawalRequest._id.
  destruct (findOne_hasId_self _ _ _ Hf) as [_ Hself].
  exact (step_move _ x (WithdrawalRequest.stamp s notes reason txid adminId now x)
           Hself eq_refl eq_refl eq_refl Hm).
Qed.

(** Each handler changes the collection of withdrawal requests by one
    [requestsStep]. *)
Lemma handle_requestsStep r db :
  requestsStep (withdrawals db) (withdrawals (handle r db)).
Proof.
  destruct r; simpl.
  - unfold createWithdrawalRequest.
    destruct (Qlt_bool amount 100) eqn:Emin; [constructor|].
    destruct (wallets db !! sellerId) as [w|]; [|constructor].
    destruct (Qlt_bool (Wallet.balance w) amount); [constructor|].
    destruct (0 <? _)%nat eqn:Ec; [constructor|].
    unfold WithdrawalRequest.create.
    destruct (WithdrawalRequest.validationError _); [constructor|].
    assert (Hs : requestsStep (withdrawals db)
                   (withdrawals db ++
                      [newRequest now newId sellerId amount bankDetails paymentMethod])).
    { apply step_new; [reflexivity| |apply Qlt_bool_false_iff, Emin].
      simpl. apply Nat.ltb_ge in Ec.
      destruct (List.filter _ _); [reflexivity|simpl in Ec; lia]. }
    destruct (Wallet.save _ _ _); exact Hs.
  - unfold approveWithdrawal.
    destruct (findOne _ _) as [x|] eqn:Ef; [|constructor].
    destruct (WithdrawalRequest.status_eqb _ _) eqn:Es; simpl; [|constructor].
    destruct (WithdrawalRequest.save _ _) as [code l|code e] eqn:Esave;
      [|constructor].
    simpl. apply (admin_requestsStep _ _ _ _ _ _ _ _ _ _ _ Ef) in Esave;
      [exact Esave|].
    destruct (WithdrawalRequest.status x); try discriminate. constructor.
  - unfold rejectWithdrawal.
    destruct (findOne _ _) as [x|] eqn:Ef; [|constructor].
    destruct (WithdrawalRequest.status_eqb _ _) eqn:Es; simpl; [|constructor].
    destruct (WithdrawalRequest.save _ _) as [code l|code e] eqn:Esave;
      [|constructor].
    apply (admin_requestsStep _ _ _ _ _ _ _ _ _ _ _ Ef) in Esave.
    + simpl. destruct (wallets db !! _); [|exact Esave].
      destruct (Wallet.save _ _ _); exact Esave.
    + destruct (WithdrawalRequest.status x); try discriminate. constructor.
  - unfold processWithdrawal.
    destruct (findOne _ _) as [x|] eqn:Ef; [|constructor].
    destruct (WithdrawalRequest.status_eqb _ _) eqn:Es; simpl; [|constructor].
    destruct (WithdrawalRequest.save _ _) as [code l|code e] eqn:Esave;
      [|constructor].
    apply (admin_requestsStep _ _ _ _ _ _ _ _ _ _ _ Ef) in Esave.
    + simpl. destruct (wallets db !! _); [|exact Esave].
      destruct (Wallet.save _ _ _); exact Esave.
    + destruct (WithdrawalRequest.status x); try discriminate. constructor.
  - constructor.
  - unfold updateOrderStatus. repeat case_scrutinee; constructor.
  - unfold adminResyncOrderToWallet. repeat case_scrutinee; constructor.
  - unfold adminResyncSellerWallet.
    destruct (negb _); [constructor|].
    destruct (findOrCreateWallet _ _) as [w ws1].
    pose proof (resyncLoop_withdrawals sellerId
                  (creditedOrderIds (Wallet.transactions w))
                  (deliveredOf sellerId (setWallets ws1 db)) w 0
                  (setWallets ws1 db)) as H.
    destruct (resyncLoop _ _ _ _ _ _) as [[[w' n]|] db2]; simpl in *;
      rewrite H; constructor.
  - rewrite createOrderWith_withdrawals. constructor.
  - unfold capturePaymentForOrders.
    repeat case_scrutinee; simpl; try constructor.
    all: rewrite storeOrders_withdrawals; constructor.
Qed.

Lemma mayBecome_refl a : mayBecome a a.
Proof. destruct a; simpl; auto. Qed.

Lemma mayBecome_trans a b c : mayBecome a b -> mayBecome b c -> mayBecome a c.
Proof.
  destruct a; simpl; auto.
  - intros [->| ->]; simpl; auto.
  - intros ->; simpl; auto.
  - intros ->; simpl; auto.
Qed.

Lemma move_mayBecome a b : move a b -> mayBecome a b.
Proof. destruct 1; simpl; auto. Qed.

Lemma findOne_app_some {A} (p : A -> bool) l1 l2 x :
  findOne p l1 = Some x -> findOne p (l1 ++ l2) = Some x.
Proof.
  unfold findOne. induction l1 as [|y l IH]; simpl; [discriminate|].
  destruct (p y); [tauto|exact IH].
Qed.

Lemma findOne_replaceFirst_other id i0 y l :
  WithdrawalRequest._id y = i0 -> id <> i0 ->
  findOne (WithdrawalRequest.hasId id)
    (replaceFirst (WithdrawalRequest.hasId i0) y l) =
  findOne (WithdrawalRequest.hasId id) l.
Proof.
  intros Hy Hne. unfold findOne.
  assert (Hoff : forall z, WithdrawalRequest._id z = i0 ->
                   WithdrawalRequest.hasId id z = false).
  { intros z Hz. unfold WithdrawalRequest.hasId. rewrite Hz.
    destruct (String.eqb i0 id) eqn:E2; [|reflexivity].
    apply String.eqb_eq in E2. congruence. }
  induction l as [|z l IH]; simpl; [reflexivity|].
  destruct (WithdrawalRequest.hasId i0 z) eqn:E; simpl.
  - unfold WithdrawalRequest.hasId in E. apply String.eqb_eq in E.
    rewrite (Hoff y Hy), (Hoff z E). reflexivity.
  - destruct (WithdrawalRequest.hasId id z); [reflexivity|exact IH].
Qed.

Lemma requestsStep_status l l' id wr :
  requestsStep l l' ->
  findOne (WithdrawalRequest.hasId id) l = Some wr ->
  exists wr',
    findOne (WithdrawalRequest.hasId id) l' = Some wr' /\
    mayBecome (WithdrawalRequest.status wr) (WithdrawalRequest.status wr') /\
    WithdrawalRequest.seller wr' = WithdrawalRequest.seller wr /\
    WithdrawalRequest.amount wr' = WithdrawalRequest.amount wr.
Proof.
  intros Hs Hf. destruct Hs as [|doc Hp Hn Ha|x y Hx Hid Hsel Ham Hm].
  - exists wr. split; [exact Hf|]. split; [apply mayBecome_refl|]. split; reflexivity.
  - exists wr. split; [apply findOne_app_some, Hf|].
    split; [apply mayBecome_refl|]. split; reflexivity.
  - destruct (String.eqb id (WithdrawalRequest._id x)) eqn:E.
    + apply String.eqb_eq in E. subst id. rewrite Hx in Hf. injection Hf as <-.
      exists y. split.
      * apply (findOne_replaceFirst _ _ x); [exact Hx|].
        unfold WithdrawalRequest.hasId. rewrite Hid. apply String.eqb_refl.
      * split; [apply move_mayBecome, Hm|]. split; assumption.
    + exists wr. split.
      * rewrite findOne_replaceFirst_other; [exact Hf|exact Hid|].
        intros ->. rewrite String.eqb_refl in E. discriminate.
      * split; [apply mayBecome_refl|]. split; reflexivity.
Qed.

(** X5.  Whatever requests are served, a stored withdrawal request stays
    stored under its id with its seller and its amount, and its status moves
    along pending, approved, processed or pending, rejected only: an approved
    request is later approved or processed, a rejected one stays rejected, a
    processed one stays processed. *)
Theorem withdrawal_status_forward rs db id wr :
  findOne (WithdrawalRequest.hasId id) (withdrawals db) = Some wr ->
  exists wr',
    findOne (WithdrawalRequest.hasId id) (withdrawals (serve rs db)) = Some wr' /\
    mayBecome (WithdrawalRequest.status wr) (WithdrawalRequest.status wr') /\
    WithdrawalRequest.seller wr' = WithdrawalRequest.seller wr /\
    WithdrawalRequest.amount wr' = WithdrawalRequest.amount wr.
Proof.
  unfold serve. revert db wr. induction rs as [|r rs IH]; intros db wr Hf; simpl.
  - exists wr. split; [exact Hf|]. split; [apply mayBecome_refl|]. split; reflexivity.
  - destruct (requestsStep_status _ _ _ _ (handle_requestsStep r db) Hf)
      as (wr1 & Hf1 & Hm1 & Hs1 & Ha1).
    destruct (IH _ _ Hf1) as (wr2 & Hf2 & Hm2 & Hs2 & Ha2).
    exists wr2. split; [exact Hf2|].
    split; [exact (mayBecome_trans _ _ _ Hm1 Hm2)|]. split; congruence.
Qed.

Lemma filter_length_replaceFirst {A} (p q : A -> bool) y l :
  p y = false ->
  (length (List.filter p (replaceFirst q y l)) <= length (List.filter p l))%nat.
Proof.
  intros Hy. induction l as [|x l IH]; simpl; [lia|].
  destruct (q x); simpl.
  - rewrite Hy. destruct (p x); simpl; lia.
  - destruct (p x); simpl; lia.
Qed.

Lemma requestsStep_pending l l' s :
  requestsStep l l' ->
  (length (List.filter (isPendingOf s) l) <= 1)%nat ->
  (length (List.filter (isPendingOf s) l') <= 1)%nat.
Proof.
  intros Hs H. destruct Hs as [|doc Hp Hn Ha|x y Hx Hid Hsel Ham Hm].
  - exact H.
  - rewrite List.filter_app, length_app. simpl.
    destruct (isPendingOf s doc) eqn:E; simpl; [|lia].
    unfold isPendingOf in E. apply andb_true_iff in E as [E _].
    apply String.eqb_eq in E. rewrite E in Hn. rewrite Hn. simpl. lia.
  - etransitivity; [apply filter_length_replaceFirst|exact H].
    unfold isPendingOf. destruct Hm; rewrite andb_false_r; reflexivity.
Qed.

(** X6.  When no seller has more than one pending withdrawal request, none
    has after any sequence of requests: creation refuses a second pending
    request, and no handler returns a request to [pending]. *)
Theorem one_pending_request_kept rs db :
  (forall s, (pendingCount s db <= 1)%nat) ->
  forall s, (pendingCount s (serve rs db) <= 1)%nat.
Proof.
  unfold serve, pendingCount. revert db.
  induction rs as [|r rs IH]; intros db H s; simpl; [apply H|].
  apply IH. intros s'.
  exact (requestsStep_pending _ _ s' (handle_requestsStep r db) (H s')).
Qed.

(** ** Holds in step with the withdrawal requests *)

Lemma sumQ_replaceFirst {A} (q : A -> bool) (f : A -> Q) l x y :
  findOne q l = Some x ->
  sumQ (map f (replaceFirst q y l)) == sumQ (map f l) - f x + f y.
Proof.
  unfold findOne. induction l as [|z l IH]; simpl; [discriminate|].
  destruct (q z).
  - intros [= <-]. simpl. ring.
  - intros H. simpl. rewrite (IH H). ring.
Qed.

Lemma heldBy_nonneg s wr : 0 < WithdrawalRequest.amount wr -> 0 <= heldBy s wr.
Proof.
  intros H. unfold heldBy. destruct (_ && _); [apply Qlt_le_weak, H|apply Qle_refl].
Qed.

Lemma heldFor_bound s l x :
  Forall (fun wr => 0 < WithdrawalRequest.amount wr) l ->
  findOne (WithdrawalRequest.hasId (WithdrawalRequest._id x)) l = Some x ->
  heldBy s x <= sumQ (map (heldBy s) l).
Proof.
  unfold findOne. induction l as [|z l IH]; simpl; [discriminate|].
  intros Hpos Hf. apply List.Forall_cons_iff in Hpos as [Hz Hl].
  assert (Hrest : 0 <= sumQ (map (heldBy s) l)).
  { clear -Hl. induction l as [|a l IH]; simpl; [apply Qle_refl|].
    apply List.Forall_cons_iff in Hl as [Ha Hl].
    pose proof (heldBy_nonneg s a Ha). pose proof (IH Hl). lra. }
  destruct (WithdrawalRequest.hasId _ z).
  - injection Hf as <-. lra.
  - pose proof (IH Hl Hf). pose proof (heldBy_nonneg s z Hz). lra.
Qed.

Lemma requestsStep_positive l l' :
  requestsStep l l' ->
  Forall (fun wr => 0 < WithdrawalRequest.amount wr) l ->
  Forall (fun wr => 0 < WithdrawalRequest.amount wr) l'.
Proof.
  intros Hs H. destruct Hs as [|doc Hp Hn Ha|x y Hx Hid Hsel Ham Hm].
  - exact H.
  - apply Forall_app. split; [exact H|]. constructor; [lra|constructor].
  - assert (Hxpos : 0 < WithdrawalRequest.amount x).
    { rewrite List.Forall_forall in H. apply H.
      exact (proj1 (find_some _ _ Hx)). }
    clear Hx. induction l as [|z l IH]; simpl; [constructor|].
    apply List.Forall_cons_iff in H as [Hz Hl].
    destruct (WithdrawalRequest.hasId _ z).
    + constructor; [rewrite Ham; exact Hxpos|exact Hl].
    + constructor; [exact Hz|exact (IH Hl)].
Qed.

(** The handlers that credit earnings leave [pendingWithdrawals] of every
    seller as it was; a wallet they create holds nothing. *)
Lemma pendingOf_insert s s' w db :
  Wallet.pendingWithdrawals w = pendingOf s db ->
  pendingOf s' (setWallets (<[s := w]> (wallets db)) db) = pendingOf s' db.
Proof.
  intros H. unfold pendingOf in *. simpl.
  destruct (decide (s = s')) as [->|Hne].
  - rewrite lookup_insert_eq. exact H.
  - rewrite lookup_insert_ne by exact Hne. reflexivity.
Qed.

Lemma findOrCreateWallet_pendingOf s db w ws :
  findOrCreateWallet s (wallets db) = (w, ws) ->
  Wallet.pendingWithdrawals w = pendingOf s db /\
  wallets (setWallets ws db) !! s = Some w /\
  forall s', pendingOf s' (setWallets ws db) = pendingOf s' db.
Proof.
  unfold findOrCreateWallet.
  destruct (wallets db !! s) as [w0|] eqn:E; intros [= <- <-].
  - unfold pendingOf. rewrite E. split; [reflexivity|]. split; [exact E|].
    intros s'. reflexivity.
  - split; [unfold pendingOf; rewrite E; reflexivity|].
    split; [simpl; apply lookup_insert_eq|].
    intros s'. apply pendingOf_insert. unfold pendingOf. rewrite E. reflexivity.
Qed.

Lemma creditEarnings_pendingOf order amount db s' :
  pendingOf s' (setWallets (creditEarnings order amount (wallets db)) db) =
  pendingOf s' db.
Proof.
  unfold creditEarnings.
  destruct (findOrCreateWallet_pendingOf (Order.seller order) db
              (default Wallet.create (wallets db !! Order.seller order))
              (match wallets db !! Order.seller order with
               | Some _ => wallets db
               | None => <[Order.seller order := Wallet.create]> (wallets db)
               end)) as (Hw & _ & Hs).
  { unfold findOrCreateWallet. destruct (wallets db !! _); reflexivity. }
  unfold Wallet.save. destruct (Wallet.valid _).
  - rewrite <- (Hs s').
    set (ws1 := match wallets db !! Order.seller order with
                | Some _ => wallets db
                | None => <[Order.seller order := Wallet.create]> (wallets db)
                end) in *.
    change (<[Order.seller order := ?w]> ws1)
      with (<[Order.seller order := w]> (wallets (setWallets ws1 db))).
    change (setWallets (<[Order.seller order := ?w]> (wallets (setWallets ws1 db))) db)
      with (setWallets (<[Order.seller order := w]> (wallets (setWallets ws1 db)))
              (setWallets ws1 db)).
    apply pendingOf_insert. rewrite Hs. exact Hw.
  - apply Hs.
Qed.

Lemma quiet_holdsInSync db db' :
  withdrawals db' = withdrawals db ->
  (forall s, pendingOf s db' = pendingOf s db) ->
  holdsInSync db -> holdsInSync db'.
Proof.
  intros Hw Hp [H1 H2]. split; [rewrite Hw; exact H1|].
  intros s. rewrite Hp. unfold heldFor. rewrite Hw. apply H2.
Qed.

Lemma pendingOf_same db db' s :
  wallets db' = wallets db -> pendingOf s db' = pendingOf s db.
Proof. unfold pendingOf. intros ->. reflexivity. Qed.

Lemma updateOrderStatus_quiet id status db :
  withdrawals (snd (updateOrderStatus id status db)) = withdrawals db /\
  forall s, pendingOf s (snd (updateOrderStatus id status db)) = pendingOf s db.
Proof.
  unfold updateOrderStatus.
  destruct (findOne _ _) as [order|]; [|split; reflexivity].
  destruct (_ && _); simpl; [|split; reflexivity].
  split; [reflexivity|]. intros s.
  exact (creditEarnings_pendingOf _ _ db s).
Qed.

Lemma adminResyncOrderToWallet_quiet orderId db :
  withdrawals (snd (adminResyncOrderToWallet orderId db)) = withdrawals db /\
  forall s, pendingOf s (snd (adminResyncOrderToWallet orderId db)) = pendingOf s db.
Proof.
  unfold adminResyncOrderToWallet.
  destruct (findOne _ _) as [order|]; [|split; reflexivity].
  destruct (negb _); [split; reflexivity|].
  destruct (findOrCreateWallet _ _) as [w ws1] eqn:Ef.
  destruct (findOrCreateWallet_pendingOf _ _ _ _ Ef) as (Hw & _ & Hs).
  destruct (existsb _ _).
  - destruct (negb _); (split; [reflexivity|exact Hs]).
  - simpl. unfold Wallet.save. destruct (Wallet.valid _); simpl.
    + split; [reflexivity|]. intros s. rewrite <- (Hs s).
      apply (pendingOf_insert _ _ _ (setWallets ws1 db)).
      rewrite Hs. exact Hw.
    + split; [reflexivity|exact Hs].
Qed.

Lemma resyncLoop_pendingOf s set os w n db :
  Wallet.pendingWithdrawals w = pendingOf s db ->
  forall s', pendingOf s' (snd (resyncLoop s set os w n db)) = pendingOf s' db.
Proof.
  revert w n db. induction os as [|order rest IH]; intros w n db Hw s'; simpl;
    [reflexivity|].
  destruct (bool_decide _).
  - rewrite IH; [destruct (negb _); reflexivity|].
    rewrite Hw. destruct (negb _); reflexivity.
  - unfold Wallet.save. destruct (Wallet.valid _); simpl; [|reflexivity].
    rewrite IH.
    + apply (pendingOf_insert _ _ _ (storeOrder _ db)). exact Hw.
    + rewrite (pendingOf_insert s s _ (storeOrder _ db)) by exact Hw.
      exact Hw.
Qed.

Lemma adminResyncSellerWallet_quiet sellerExists s db :
  withdrawals (snd (adminResyncSellerWallet sellerExists s db)) = withdrawals db /\
  forall s', pendingOf s' (snd (adminResyncSellerWallet sellerExists s db))
             = pendingOf s' db.
Proof.
  unfold adminResyncSellerWallet.
  destruct (negb _); [split; reflexivity|].
  destruct (findOrCreateWallet _ _) as [w ws1] eqn:Ef.
  destruct (findOrCreateWallet_pendingOf _ _ _ _ Ef) as (Hw & _ & Hs).
  pose proof (resyncLoop_withdrawals s (creditedOrderIds (Wallet.transactions w))
                (deliveredOf s (setWallets ws1 db)) w 0 (setWallets ws1 db)) as H1.
  pose proof (resyncLoop_pendingOf s (creditedOrderIds (Wallet.transactions w))
                (deliveredOf s (setWallets ws1 db)) w 0 (setWallets ws1 db)) as H2.
  rewrite Hs in H2. specialize (H2 Hw).
  destruct (resyncLoop _ _ _ _ _ _) as [[[w' n]|] db2]; simpl in *;
    (split; [exact H1|]); intros s'; rewrite H2; apply Hs.
Qed.

Lemma heldFor_snoc s db doc :
  heldFor s (setWithdrawals (withdrawals db ++ [doc]) db) ==
  heldFor s db + heldBy s doc.
Proof.
  unfold heldFor. simpl. rewrite map_app, sumQ_app. simpl. ring.
Qed.

Lemma heldBy_moved s x y :
  WithdrawalRequest.seller y = WithdrawalRequest.seller x ->
  WithdrawalRequest.amount y = WithdrawalRequest.amount x ->
  move (WithdrawalRequest.status x) (WithdrawalRequest.status y) ->
  heldBy s x == (if String.eqb (WithdrawalRequest.seller x) s
                 then WithdrawalRequest.amount x else 0) /\
  heldBy s y == (if isOpen y then heldBy s x else 0).
Proof.
  intros Hs Ha Hm. unfold heldBy, isOpen. rewrite Hs, Ha.
  destruct (String.eqb (WithdrawalRequest.seller x) s);
    destruct Hm; simpl; split; reflexivity.
Qed.

Section Closing.

(** A request [x] that holds money is overwritten by [y], which does not. *)
Variables (db : DB) (x y : WithdrawalRequest.t).
Hypothesis Hsync : holdsInSync db.
Hypothesis Hx :
  findOne (WithdrawalRequest.hasId (WithdrawalRequest._id x)) (withdrawals db)
    = Some x.
Hypothesis Hid : WithdrawalRequest._id y = WithdrawalRequest._id x.
Hypothesis Hseller : WithdrawalRequest.seller y = WithdrawalRequest.seller x.
Hypothesis Hamount : WithdrawalRequest.amount y = WithdrawalRequest.amount x.
Hypothesis Hopen : isOpen x = true.
Hypothesis Hclosed : isOpen y = false.

Let db1 :=
  setWithdrawals
    (replaceFirst (WithdrawalRequest.hasId (WithdrawalRequest._id x)) y
       (withdrawals db)) db.

Lemma closing_heldFor s :
  heldFor s db1 ==
  heldFor s db - (if String.eqb (WithdrawalRequest.seller x) s
                  then WithdrawalRequest.amount x else 0).
Proof.
  unfold heldFor, db1. simpl. rewrite (sumQ_replaceFirst _ _ _ x y Hx).
  unfold heldBy. rewrite Hseller, Hopen, Hclosed.
  rewrite andb_true_r, andb_false_r. ring.
Qed.

Lemma closing_positive :
  Forall (fun wr => 0 < WithdrawalRequest.amount wr) (withdrawals db1).
Proof.
  destruct Hsync as [Hpos _]. unfold db1. simpl.
  assert (Hxpos : 0 < WithdrawalRequest.amount x).
  { rewrite List.Forall_forall in Hpos. apply Hpos.
    exact (proj1 (find_some _ _ Hx)). }
  clear Hx. induction (withdrawals db) as [|z l IH]; simpl; [constructor|].
  apply List.Forall_cons_iff in Hpos as [Hz Hl].
  destruct (WithdrawalRequest.hasId _ z).
  - constructor; [rewrite Hamount; exact Hxpos|exact Hl].
  - constructor; [exact Hz|exact (IH Hl)].
Qed.

(** Without a wallet for the seller there is nothing held, so [x] cannot
    hold money: the case does not arise. *)
Lemma closing_without_wallet :
  wallets db !! WithdrawalRequest.seller x = None -> holdsInSync db1.
Proof.
  intros Hnone. exfalso. destruct Hsync as [Hpos Hheld].
  specialize (Hheld (WithdrawalRequest.seller x)).
  unfold pendingOf in Hheld. rewrite Hnone in Hheld.
  pose proof (heldFor_bound (WithdrawalRequest.seller x) _ _ Hpos Hx) as Hb.
  fold (heldFor (WithdrawalRequest.seller x) db) in Hb.
  unfold heldBy in Hb. rewrite String.eqb_refl, Hopen in Hb. simpl in Hb.
  assert (Hxpos : 0 < WithdrawalRequest.amount x).
  { rewrite List.Forall_forall in Hpos. apply Hpos.
    exact (proj1 (find_some _ _ Hx)). }
  lra.
Qed.

Lemma closing_with_wallet w w' :
  wallets db !! WithdrawalRequest.seller x = Some w ->
  Wallet.pendingWithdrawals w' ==
    Wallet.pendingWithdrawals w - WithdrawalRequest.amount x ->
  holdsInSync
    (setWallets (<[WithdrawalRequest.seller x := w']> (wallets db1)) db1).
Proof.
  intros Hw Hp. split; [exact closing_positive|].
  intros s. destruct Hsync as [_ Hheld]. specialize (Hheld s).
  assert (Hh : heldFor s
                 (setWallets (<[WithdrawalRequest.seller x := w']> (wallets db1)) db1)
               = heldFor s db1) by reflexivity.
  rewrite Hh, closing_heldFor. unfold pendingOf in *. simpl.
  destruct (String.eqb (WithdrawalRequest.seller x) s) eqn:E.
  - apply String.eqb_eq in E. subst s. rewrite lookup_insert_eq, Hp.
    rewrite Hw in Hheld. rewrite Hheld. reflexivity.
  - rewrite lookup_insert_ne.
    + rewrite Hheld. ring.
    + intros Heq. rewrite Heq, String.eqb_refl in E. discriminate.
Qed.

End Closing.

Lemma createWithdrawalRequest_sync now newId s amount bd pm db :
  holdsInSync db ->
  isOk (fst (createWithdrawalRequest now newId s amount bd pm db)) = true ->
  holdsInSync (snd (createWithdrawalRequest now newId s amount bd pm db)).
Proof.
  intros [Hpos Hheld]. unfold createWithdrawalRequest.
  destruct (Qlt_bool amount 100) eqn:Emin; [discriminate|].
  destruct (wallets db !! s) as [w|] eqn:Ew; [|discriminate].
  destruct (Qlt_bool (Wallet.balance w) amount); [discriminate|].
  destruct (0 <? _)%nat; [discriminate|].
  unfold WithdrawalRequest.create.
  destruct (WithdrawalRequest.validationError _); [discriminate|].
  unfold Wallet.save. destruct (Wallet.valid _); [|discriminate].
  intros _. simpl. apply Qlt_bool_false_iff in Emin.
  set (doc := newRequest now newId s amount bd pm).
  split.
  - simpl. apply Forall_app. split; [exact Hpos|].
    constructor; [simpl; lra|constructor].
  - intros s'. specialize (Hheld s').
    assert (Hh : heldFor s'
                   (setWallets (<[s := holdFunds amount newId w]> (wallets db))
                      (setWithdrawals (withdrawals db ++ [doc]) db))
                 == heldFor s' db + heldBy s' doc)
      by (apply heldFor_snoc).
    rewrite Hh. unfold pendingOf in *. simpl. unfold heldBy. simpl.
    destruct (String.eqb s s') eqn:E.
    + apply String.eqb_eq in E. subst s'. rewrite lookup_insert_eq. simpl.
      rewrite Ew in Hheld. rewrite Hheld. reflexivity.
    + rewrite lookup_insert_ne.
      * rewrite Hheld. simpl. ring.
      * intros Heq. rewrite Heq, String.eqb_refl in E. discriminate.
Qed.

Lemma approveWithdrawal_sync now adminId id notes db :
  holdsInSync db ->
  holdsInSync (snd (approveWithdrawal now adminId id notes db)).
Proof.
  intros Hsync. unfold approveWithdrawal.
  destruct (findOne _ _) as [x|] eqn:Ef; [|exact Hsync].
  destruct (WithdrawalRequest.status_eqb _ _) eqn:Es; simpl; [|exact Hsync].
  unfold WithdrawalRequest.save.
  destruct (WithdrawalRequest.validationError _); [exact Hsync|]. simpl.
  destruct (findOne_hasId_self _ _ _ Ef) as [_ Hself].
  destruct Hsync as [Hpos Hheld]. split.
  - apply (requestsStep_positive (withdrawals db)); [|exact Hpos].
    apply (step_move _ x (WithdrawalRequest.approve adminId notes now x) Hself
             eq_refl eq_refl eq_refl).
    destruct (WithdrawalRequest.status x); try discriminate. constructor.
  - intros s. unfold heldFor, pendingOf in *. simpl.
    rewrite (sumQ_replaceFirst _ _ _ x _ Hself), Hheld.
    unfold heldBy, isOpen. simpl.
    destruct (WithdrawalRequest.status x); try discriminate.
    destruct (String.eqb _ _); simpl; ring.
Qed.

Lemma rejectWithdrawal_sync now adminId id reason db :
  holdsInSync db ->
  isOk (fst (rejectWithdrawal now adminId id reason db)) = true ->
  holdsInSync (snd (rejectWithdrawal now adminId id reason db)).
Proof.
  intros Hsync. unfold rejectWithdrawal.
  destruct (findOne _ _) as [x|] eqn:Ef; [|discriminate].
  destruct (WithdrawalRequest.status_eqb _ _) eqn:Es; simpl; [|discriminate].
  unfold WithdrawalRequest.save.
  destruct (WithdrawalRequest.validationError _); [discriminate|]. simpl.
  destruct (findOne_hasId_self _ _ _ Ef) as [_ Hself].
  assert (Hopen : isOpen x = true)
    by (unfold isOpen; destruct (WithdrawalRequest.status x);
        try discriminate; reflexivity).
  destruct (wallets db !! WithdrawalRequest.seller x) as [w|] eqn:Ew.
  - unfold Wallet.save. destruct (Wallet.valid _); [|discriminate].
    intros _. simpl.
    apply (closing_with_wallet db x (WithdrawalRequest.reject adminId reason now x)
             Hsync Hself eq_refl eq_refl Hopen eq_refl w _ Ew).
    simpl. reflexivity.
  - intros _.
    exact (closing_without_wallet db x
             (WithdrawalRequest.reject adminId reason now x)
             Hsync Hself Hopen Ew).
Qed.

Lemma processWithdrawal_sync now adminId id txid db :
  holdsInSync db ->
  isOk (fst (processWithdrawal now adminId id txid db)) = true ->
  holdsInSync (snd (processWithdrawal now adminId id txid db)).
Proof.
  intros Hsync. unfold processWithdrawal.
  destruct (findOne _ _) as [x|] eqn:Ef; [|discriminate].
  destruct (WithdrawalRequest.status_eqb _ _) eqn:Es; simpl; [|discriminate].
  unfold WithdrawalRequest.save.
  destruct (WithdrawalRequest.validationError _); [discriminate|]. simpl.
  destruct (findOne_hasId_self _ _ _ Ef) as [_ Hself].
  assert (Hopen : isOpen x = true)
    by (unfold isOpen; destruct (WithdrawalRequest.status x);
        try discriminate; reflexivity).
  destruct (wallets db !! WithdrawalRequest.seller x) as [w|] eqn:Ew.
  - unfold Wallet.save. destruct (Wallet.valid _); [|discriminate].
    intros _. simpl.
    apply (closing_with_wallet db x
             (WithdrawalRequest.markAsProcessed adminId txid now x)
             Hsync Hself eq_refl eq_refl Hopen eq_refl w _ Ew).
    simpl. reflexivity.
  - intros _.
    exact (closing_without_wallet db x
             (WithdrawalRequest.markAsProcessed adminId txid now x)
             Hsync Hself Hopen Ew).
Qed.

Lemma recompute_sync s db :
  holdsInSync db -> holdsInSync (snd (recomputeWalletForSeller s db)).
Proof.
  intros [Hpos Hheld]. split; [exact Hpos|].
  intros s'. unfold recomputeWalletForSeller, pendingOf, heldFor. simpl.
  destruct (decide (s = s')) as [->|Hne].
  - rewrite lookup_insert_eq. simpl. apply replay_held.
  - rewrite lookup_insert_ne by exact Hne. apply Hheld.
Qed.

Lemma handle_sync r db :
  holdsInSync db -> accepted r db = true -> holdsInSync (handle r db).
Proof.
  intros H Ha. destruct r; simpl in *.
  - apply createWithdrawalRequest_sync; assumption.
  - apply approveWithdrawal_sync; assumption.
  - apply rejectWithdrawal_sync; assumption.
  - apply processWithdrawal_sync; assumption.
  - apply recompute_sync; assumption.
  - destruct (updateOrderStatus_quiet id status db) as [H1 H2].
    exact (quiet_holdsInSync _ _ H1 H2 H).
  - destruct (adminResyncOrderToWallet_quiet orderId db) as [H1 H2].
    exact (quiet_holdsInSync _ _ H1 H2 H).
  - destruct (adminResyncSellerWallet_quiet sellerExists sellerId db) as [H1 H2].
    exact (quiet_holdsInSync _ _ H1 H2 H).
  - apply (quiet_holdsInSync db); [apply createOrderWith_withdrawals| |exact H].
    intros s. apply pendingOf_same, createOrderWith_wallets.
  - apply (quiet_holdsInSync db); [|intros s; apply pendingOf_same, capture_wallets|exact H].
    unfold capturePaymentForOrders.
    repeat case_scrutinee; simpl; try reflexivity; apply storeOrders_withdrawals.
Qed.


(** ** Withdrawal creation, read backwards *)

Lemma truthy_nonempty s : truthy s = true -> s <> "".
Proof. intros H ->. discriminate H. Qed.

Lemma preValidate_detailsAccepted doc pm :
  WithdrawalRequest.paymentMethod doc = default WithdrawalRequest.bank_transfer pm ->
  WithdrawalRequest.preValidate doc = None ->
  detailsAccepted pm (WithdrawalRequest.bankDetails doc).
Proof.
  unfold detailsAccepted, WithdrawalRequest.preValidate. intros ->.
  destruct (default WithdrawalRequest.bank_transfer pm).
  - destruct (truthy (WithdrawalRequest.accountNumber _)) eqn:E1; [|discriminate].
    destruct (truthy (WithdrawalRequest.ifscCode _)) eqn:E2; [|discriminate].
    intros _. split; apply truthy_nonempty; assumption.
  - destruct (truthy (WithdrawalRequest.upiId _)) eqn:E1; [|discriminate].
    intros _. apply truthy_nonempty, E1.
  - destruct (truthy (WithdrawalRequest.walletNumber _)) eqn:E1; [|discriminate].
    intros _. apply truthy_nonempty, E1.
  - destruct (truthy (WithdrawalRequest.walletNumber _)) eqn:E1; [|discriminate].
    intros _. apply truthy_nonempty, E1.
Qed.

Lemma pending_count_zero sellerId db :
  (0 <? length (List.filter (isPendingOf sellerId) (withdrawals db)))%nat = false ->
  ~ hasPendingRequest sellerId db.
Proof.
  intros Hc Hp. rewrite (pending_count_positive _ _ Hp) in Hc. discriminate.
Qed.

Lemma createWithdrawalRequest_ok_inv
    now newId sellerId amount bd pm db code wr db' :
  createWithdrawalRequest now newId sellerId amount bd pm db = (Ok code wr, db') ->
  exists w,
    creationPreconditions sellerId amount w db /\
    detailsAccepted pm bd /\
    wr = newRequest now newId sellerId amount bd pm /\
    db' = setWallets (<[sellerId := holdFunds amount newId w]> (wallets db))
            (setWithdrawals (withdrawals db ++ [wr]) db).
Proof.
  unfold createWithdrawalRequest.
  destruct (Qlt_bool amount 100) eqn:Emin; [discriminate|].
  destruct (wallets db !! sellerId) as [w|] eqn:Ew; [|discriminate].
  destruct (Qlt_bool (Wallet.balance w) amount) eqn:Ebal; [discriminate|].
  destruct (0 <? _)%nat eqn:Ec; [discriminate|].
  unfold WithdrawalRequest.create, WithdrawalRequest.validationError.
  destruct (WithdrawalRequest.preValidate _) eqn:Epre; [discriminate|].
  destruct (WithdrawalRequest.preSave _); [discriminate|].
  unfold Wallet.save. destruct (Wallet.valid _); [|discriminate].
  intros [= _ <- <-]. exists w. split.
  - split; [exact Ew|]. split; [apply Qlt_bool_false_iff, Emin|].
    split; [apply Qlt_bool_false_iff, Ebal|apply pending_count_zero, Ec].
  - split.
    + exact (preValidate_detailsAccepted
               (newRequest now newId sellerId amount bd pm) pm eq_refl Epre).
    + split; reflexivity.
Qed.

(** X8.  A withdrawal request is created only when the preconditions hold:
    if [createWithdrawalRequest] answers without an error, the seller had a
    wallet holding at least the amount, the amount was at least 100, the
    seller had no pending request and the destination details suit the
    payout method; the answer is the new pending request, which is appended
    to the stored requests, and the wallet is the old one with the amount
    moved from [balance] to [pendingWithdrawals]. *)
Theorem createWithdrawalRequest_only_when_allowed
    now newId sellerId amount bd pm db code wr db' :
  createWithdrawalRequest now newId sellerId amount bd pm db = (Ok code wr, db') ->
  exists w,
    creationPreconditions sellerId amount w db /\
    detailsAccepted pm bd /\
    wr = newRequest now newId sellerId amount bd pm /\
    withdrawals db' = withdrawals db ++ [wr] /\
    wallets db' = <[sellerId := holdFunds amount newId w]> (wallets db) /\
    orders db' = orders db /\ products db' = products db.
Proof.
  intros H. apply createWithdrawalRequest_ok_inv in H.
  destruct H as (w & Hpre & Hd & -> & ->). exists w.
  split; [exact Hpre|]. split; [exact Hd|]. repeat split.
Qed.

(** ** Withdrawal creation and the reconciliation *)

Lemma insertBy_snoc {A} (key : A -> Z) y x (m : list A) :
  (key y < key x)%Z -> insertBy key y (m ++ [x]) = insertBy key y m ++ [x].
Proof.
  intros H. induction m as [|z m IH]; simpl.
  - rewrite (proj2 (Z.ltb_lt _ _) H). reflexivity.
  - destruct (key y <? key z)%Z; [reflexivity|]. rewrite IH. reflexivity.
Qed.

Lemma sortBy_snoc {A} (key : A -> Z) x (l : list A) :
  Forall (fun y => (key y < key x)%Z) l ->
  sortBy key (l ++ [x]) = sortBy key l ++ [x].
Proof.
  unfold sortBy. induction 1 as [|y l Hy _ IH]; simpl; [reflexivity|].
  rewrite IH. apply insertBy_snoc, Hy.
Qed.

(** X9.  Creating a withdrawal request on a reconciled wallet leaves it
    reconciled: when the stored wallet of the seller carries the ledger state
    the reconciliation computes, and the seller's earlier requests were
    created before [now], then after a successful creation the stored wallet
    again carries the ledger state the reconciliation computes from the new
    database, entry for entry. *)
Theorem create_keeps_reconciled now newId sellerId amount bd pm db code wr db' :
  reconciled sellerId db ->
  createWithdrawalRequest now newId sellerId amount bd pm db = (Ok code wr, db') ->
  Forall (fun x => WithdrawalRequest.seller x = sellerId ->
                   (WithdrawalRequest.createdAt x < now)%Z) (withdrawals db) ->
  reconciled sellerId db'.
Proof.
  intros (w & w' & Hw & Hr & Hstate) Hc Hbefore.
  apply createWithdrawalRequest_ok_inv in Hc.
  destruct Hc as (w0 & (Hw0 & _) & _ & -> & ->).
  rewrite Hw in Hw0. injection Hw0 as <-.
  rewrite recompute_wallet in Hr. injection Hr as <-.
  set (doc := newRequest now newId sellerId amount bd pm).
  eexists _, _. split; [simpl; apply lookup_insert_eq|].
  split; [apply recompute_wallet|].
  assert (Hsorted : withdrawalsOf sellerId
            (setWallets (<[sellerId := holdFunds amount newId w]> (wallets db))
               (setWithdrawals (withdrawals db ++ [doc]) db))
          = withdrawalsOf sellerId db ++ [doc]).
  { unfold withdrawalsOf. simpl. rewrite List.filter_app. simpl.
    rewrite String.eqb_refl. apply sortBy_snoc.
    apply List.Forall_forall. intros x Hx. apply List.filter_In in Hx as [Hin Hs].
    apply String.eqb_eq in Hs. rewrite List.Forall_forall in Hbefore.
    exact (Hbefore x Hin Hs). }
  rewrite Hsorted.
  change (deliveredOrdersOf sellerId
            (setWallets (<[sellerId := holdFunds amount newId w]> (wallets db))
               (setWithdrawals (withdrawals db ++ [doc]) db)))
    with (deliveredOrdersOf sellerId db).
  unfold Recompute.replay. rewrite fold_left_app. simpl.
  fold (Recompute.replay (deliveredOrdersOf sellerId db) (withdrawalsOf sellerId db)).
  unfold ledgerState in *. simpl in *.
  injection Hstate as H1 H2 H3 H4 H5.
  rewrite <- H1, <- H2, <- H3, <- H4, <- H5. reflexivity.
Qed.

(** ** Crediting at most once *)

Lemma findOne_replaceFirst_order id o o' l :
  findOne (Order.hasId id) l = Some o -> Order._id o' = Order._id o ->
  findOne (Order.hasId id) (replaceFirst (Order.hasId (Order._id o')) o' l)
    = Some o'.
Proof.
  intros Hf Hid. pose proof (Order_hasId_eq _ _ (findOne_holds _ _ _ Hf)) as He.
  rewrite Hid, He. apply (findOne_replaceFirst _ _ o); [exact Hf|].
  unfold Order.hasId. rewrite Hid, He. apply String.eqb_refl.
Qed.

Lemma creditEarnings_credits order amount db id :
  Order._id order = id ->
  let db' := setWallets (creditEarnings order amount (wallets db)) db in
  (creditsFor id (logOf (Order.seller order) db') <=
   creditsFor id (logOf (Order.seller order) db) + 1)%nat.
Proof.
  intros Hid. cbv zeta. unfold creditEarnings, logOf. cbn -[Wallet.addTransaction].
  destruct (wallets db !! Order.seller order) as [w|] eqn:E;
    cbn -[Wallet.addTransaction]; unfold Wallet.save;
    destruct (Wallet.valid _); rewrite ?lookup_insert_eq, ?E;
    rewrite ?addTransaction_entry, ?creditsFor_app;
    unfold creditsFor; simpl; try lia.
  all: destruct (isCreditFor id _); simpl; lia.
Qed.

Lemma updateOrderStatus_step id status db o :
  findOne (Order.hasId id) (orders db) = Some o ->
  let db' := snd (updateOrderStatus id status db) in
  exists o',
    findOne (Order.hasId id) (orders db') = Some o' /\
    Order.seller o' = Order.seller o /\
    (Order.isEarningsCredited o = true -> Order.isEarningsCredited o' = true) /\
    (Order.isEarningsCredited o = true \/ status <> "delivered" ->
     wallets db' = wallets db) /\
    (creditsFor id (logOf (Order.seller o) db') <=
     creditsFor id (logOf (Order.seller o) db) +
     (if Order.isEarningsCredited o then 0 else 1))%nat /\
    (Order.isEarningsCredited o = false -> status = "delivered" ->
     Order.isEarningsCredited o' = true).
Proof.
  intros Hf. cbv zeta. unfold updateOrderStatus. rewrite Hf.
  pose proof (Order_hasId_eq _ _ (findOne_holds _ _ _ Hf)) as Hid.
  destruct (String.eqb status "delivered") eqn:Es; simpl Order.isEarningsCredited.
  - destruct (Order.isEarningsCredited o) eqn:Eflag; simpl.
    + exists (withStatus status o).
      split; [exact (findOne_replaceFirst_order id o (withStatus status o) _ Hf eq_refl)|].
      split; [reflexivity|]. split; [auto|]. split; [auto|].
      split; [unfold logOf; simpl; lia|]. discriminate.
    + exists (withEarnings (Order.totalPrice o * (1 # 10))
                (Order.totalPrice o - Order.totalPrice o * (1 # 10))
                (withStatus status o)).
      split; [exact (findOne_replaceFirst_order id o
                       (withEarnings (Order.totalPrice o * (1 # 10))
                          (Order.totalPrice o - Order.totalPrice o * (1 # 10))
                          (withStatus status o)) _ Hf eq_refl)|].
      split; [reflexivity|]. split; [discriminate|]. split.
      * intros [H|H]; [discriminate|]. apply String.eqb_eq in Es. contradiction.
      * split; [|reflexivity].
        apply (creditEarnings_credits
                 (withEarnings _ _ (withStatus status o)) _ db id Hid).
  - simpl. exists (withStatus status o).
    split; [exact (findOne_replaceFirst_order id o (withStatus status o) _ Hf eq_refl)|].
    split; [reflexivity|]. split; [auto|]. split; [auto|]. split.
    + unfold logOf; simpl. destruct (Order.isEarningsCredited o); lia.
    + intros _ ->. discriminate.
Qed.

(** X10.  However often and in whatever order the status of an order is
    updated, its earnings are credited at most once: over any sequence of
    status updates of the order, the credit entries for it in the seller's
    log grow by at most one, and not at all when the order was already
    marked as credited or when no update sets the status [delivered]. *)
Theorem status_updates_credit_at_most_once id o statuses db :
  findOne (Order.hasId id) (orders db) = Some o ->
  let db' := serve (map (UpdateOrderStatus id) statuses) db in
  (creditsFor id (logOf (Order.seller o) db') <=
   creditsFor id (logOf (Order.seller o) db) + 1)%nat /\
  (Order.isEarningsCredited o = true -> wallets db' = wallets db) /\
  (~ In "delivered" statuses -> wallets db' = wallets db).
Proof.
  intros Hf. cbv zeta. unfold serve.
  assert (H : forall statuses db o,
    findOne (Order.hasId id) (orders db) = Some o ->
    let db' := fold_left (fun d r => handle r d)
                 (map (UpdateOrderStatus id) statuses) db in
    (creditsFor id (logOf (Order.seller o) db') <=
     creditsFor id (logOf (Order.seller o) db) +
     (if Order.isEarningsCredited o then 0 else 1))%nat /\
    (Order.isEarningsCredited o = true \/ ~ In "delivered" statuses ->
     wallets db' = wallets db)).
  { clear. induction statuses as [|st rest IH]; intros db o Hf; simpl.
    - split; [lia|reflexivity].
    - destruct (updateOrderStatus_step id st db o Hf)
        as (o' & Hf' & Hs & Hmono & Hquiet & Hcount & Hset).
      cbv zeta in *. destruct (IH _ _ Hf') as [IH1 IH2]. cbv zeta in *.
      rewrite Hs in IH1. split.
      + destruct (Order.isEarningsCredited o) eqn:E.
        * rewrite (Hmono eq_refl) in IH1. lia.
        * destruct (String.eqb st "delivered") eqn:Est.
          -- apply String.eqb_eq in Est. rewrite (Hset eq_refl Est) in IH1. lia.
          -- assert (Hne : st <> "delivered")
               by (intros ->; discriminate Est).
             unfold logOf in Hcount, IH1 |- *.
             rewrite (Hquiet (or_intror Hne)) in IH1.
             destruct (Order.isEarningsCredited o'); lia.
      + intros [Hc|Hn].
        * rewrite IH2 by (left; exact (Hmono Hc)). apply Hquiet. left. exact Hc.
        * rewrite IH2 by (right; tauto). apply Hquiet. right.
          intros ->. apply Hn. left. reflexivity. }
  destruct (H statuses db o Hf) as [H1 H2]. cbv zeta in *.
  split; [destruct (Order.isEarningsCredited o); lia|].
  split; intros; apply H2; tauto.
Qed.

(** ** The admin resync of one order *)

Lemma setWallets_same db : setWallets (wallets db) db = db.
Proof. destruct db; reflexivity. Qed.

Lemma findOrCreateWallet_found s ws w :
  ws !! s = Some w -> findOrCreateWallet s ws = (w, ws).
Proof. unfold findOrCreateWallet. intros ->. reflexivity. Qed.

(** An order that is delivered, marked as credited and has a credit entry in
    the seller's wallet is left alone by the resync. *)
Lemma adminResyncOrderToWallet_settled id db o w :
  findOne (Order.hasId id) (orders db) = Some o ->
  Order.orderStatus o = "delivered" ->
  Order.isEarningsCredited o = true ->
  wallets db !! Order.seller o = Some w ->
  existsb (isCreditFor (Order._id o)) (Wallet.transactions w) = true ->
  adminResyncOrderToWallet id db = (Ok 200 ("Order already credited", w), db).
Proof.
  intros Hf Hs Hflag Hw Hc. unfold adminResyncOrderToWallet.
  rewrite Hf, Hs. simpl. rewrite (findOrCreateWallet_found _ _ _ Hw), Hc, Hflag.
  simpl. rewrite setWallets_same. reflexivity.
Qed.

(** X11.  The resync of one order is idempotent: once it has answered
    without an error, running it again on the same order changes nothing in
    the database and answers that the order is already credited. *)
Theorem adminResyncOrderToWallet_idempotent id db code answer db1 :
  adminResyncOrderToWallet id db = (Ok code answer, db1) ->
  exists w,
    adminResyncOrderToWallet id db1 = (Ok 200 ("Order already credited", w), db1).
Proof.
  unfold adminResyncOrderToWallet at 1.
  destruct (findOne _ _) as [o|] eqn:Hf; [|discriminate].
  destruct (String.eqb (Order.orderStatus o) "delivered") eqn:Hs; simpl;
    [|discriminate].
  apply String.eqb_eq in Hs.
  destruct (findOrCreateWallet _ _) as [w ws1] eqn:Ef.
  assert (Hws1 : ws1 !! Order.seller o = Some w).
  { unfold findOrCreateWallet in Ef.
    destruct (wallets db !! Order.seller o) eqn:E; injection Ef as <- <-;
      [exact E|apply lookup_insert_eq]. }
  destruct (existsb _ _) eqn:Hc.
  - destruct (Order.isEarningsCredited o) eqn:Hflag; simpl; intros [= _ _ <-].
    + exists w. apply (adminResyncOrderToWallet_settled id _ o w);
        [exact Hf|exact Hs|exact Hflag|exact Hws1|exact Hc].
    + exists w. apply (adminResyncOrderToWallet_settled id _ (withCredited o) w);
        [|exact Hs|reflexivity|exact Hws1|exact Hc].
      exact (findOne_replaceFirst_order id o (withCredited o) _ Hf eq_refl).
  - unfold Wallet.save. destruct (Wallet.valid _); [|discriminate].
    intros [= _ _ <-]. eexists.
    apply (adminResyncOrderToWallet_settled id _
             (withEarnings (Recompute.commissionOf o) (Recompute.sellerEarningsOf o) o));
      [|exact Hs|reflexivity|simpl; apply lookup_insert_eq|].
    + exact (findOne_replaceFirst_order id o
               (withEarnings (Recompute.commissionOf o)
                  (Recompute.sellerEarningsOf o) o) _ Hf eq_refl).
    + simpl. rewrite existsb_app. simpl.
      unfold isCreditFor at 2. simpl. rewrite String.eqb_refl.
      apply orb_true_r.
Qed.

(** ** The admin resync of a seller *)

(** The set the seller resync builds and the [some] test of the order resync
    agree. *)
Lemma creditedOrderIds_spec id txs :
  id ∈ creditedOrderIds txs <-> existsb (isCreditFor id) txs = true.
Proof.
  unfold creditedOrderIds. rewrite elem_of_list_to_set, list_elem_of_omap.
  rewrite existsb_exists. split.
  - intros (t & Hin & Ht). exists t. split; [apply list_elem_of_In, Hin|].
    unfold isCreditFor. destruct (Transaction.isDebit t); [discriminate|].
    rewrite Ht. simpl. apply String.eqb_refl.
  - intros (t & Hin & Ht). exists t. split; [apply list_elem_of_In, Hin|].
    unfold isCreditFor in Ht. destruct (Transaction.isDebit t); [discriminate|].
    destruct (Transaction.orderId t) as [o|]; [|discriminate].
    simpl in Ht. apply String.eqb_eq in Ht. congruence.
Qed.

Lemma resyncLoop_added s set D : forall w n db wf n' db',
  resyncLoop s set D w n db = (Some (wf, n'), db') ->
  wallets db !! s = Some w ->
  let missing := List.filter (fun o => negb (bool_decide (Order._id o ∈ set))) D in
  exists added,
    Wallet.transactions wf = Wallet.transactions w ++ added /\
    Forall2 paysFor missing added /\
    n' = (n + length missing)%nat /\
    Wallet.balance wf == Wallet.balance w + sumQ (map Recompute.sellerEarningsOf missing) /\
    wallets db' !! s = Some wf.
Proof.
  induction D as [|o D IH]; intros w n db wf n' db'; simpl.
  - intros [= <- <- <-] Hw. exists []. rewrite app_nil_r.
    repeat split; [constructor|lia|simpl; ring|exact Hw].
  - destruct (bool_decide (Order._id o ∈ set)) eqn:Ein; simpl.
    + intros H Hw. apply (IH _ _ _ _ _ _ H).
      destruct (Order.isEarningsCredited o); exact Hw.
    + unfold Wallet.save. destruct (Wallet.valid _); [|discriminate].
      intros H Hw.
      destruct (IH _ _ _ _ _ _ H) as (added & Ht & Hf & Hn & Hb & Hw');
        [simpl; apply lookup_insert_eq|].
      eexists (_ :: added). rewrite Ht. simpl. rewrite <- app_assoc. simpl.
      split; [reflexivity|]. split.
      { constructor; [|exact Hf]. repeat split. }
      split; [lia|]. split; [|exact Hw'].
      rewrite Hb. simpl. ring.
Qed.

Lemma replaceFirst_ids (y : Order.t) l :
  map Order._id (replaceFirst (Order.hasId (Order._id y)) y l) = map Order._id l.
Proof.
  induction l as [|x l IH]; simpl; [reflexivity|].
  unfold Order.hasId at 1. destruct (String.eqb (Order._id x) (Order._id y)) eqn:E;
    simpl; [|now rewrite IH].
  apply String.eqb_eq in E. now rewrite E.
Qed.

Lemma In_replaceFirst {A} (p : A -> bool) y l z :
  In z (replaceFirst p y l) -> z = y \/ In z l.
Proof.
  induction l as [|x l IH]; simpl; [tauto|].
  destruct (p x); simpl; intros [H|H]; auto.
  destruct (IH H); auto.
Qed.

Lemma In_replaceFirst_other {A} (p : A -> bool) y l z :
  In z l -> p z = false -> In z (replaceFirst p y l).
Proof.
  induction l as [|x l IH]; simpl; [tauto|].
  intros [->|H] Hp.
  - rewrite Hp. now left.
  - destruct (p x); simpl; auto.
Qed.

Lemma In_replaceFirst_self {A} (p : A -> bool) y l x :
  In x l -> p x = true -> In y (replaceFirst p y l).
Proof.
  induction l as [|a l IH]; simpl; [tauto|].
  intros [->|H] Hp.
  - rewrite Hp. now left.
  - destruct (p a); simpl; eauto.
Qed.

Lemma NoDup_ids_eq (l : list Order.t) a b :
  List.NoDup (map Order._id l) -> In a l -> In b l ->
  Order._id a = Order._id b -> a = b.
Proof.
  induction l as [|x l IH]; simpl; [contradiction|].
  intros Hnd Ha Hb Hid. apply List.NoDup_cons_iff in Hnd as [Hx Hnd].
  destruct Ha as [<-|Ha], Hb as [<-|Hb]; auto.
  - exfalso. apply Hx. rewrite Hid. now apply in_map.
  - exfalso. apply Hx. rewrite <- Hid. now apply in_map.
Qed.

(** What a stored order looks like after the loop: untouched when its id is
    not among the delivered orders, otherwise marked as credited with the
    seller and the status it had. *)
Lemma resyncLoop_orders s set D : forall w n db r db',
  resyncLoop s set D w n db = (Some r, db') ->
  List.NoDup (map Order._id (orders db)) ->
  List.NoDup (map Order._id D) ->
  (forall o, In o D -> In o (orders db)) ->
  forall z, In z (orders db') ->
    (In z (orders db) /\ ~ In (Order._id z) (map Order._id D)) \/
    (exists o, In o D /\ Order._id z = Order._id o /\
               Order.seller z = Order.seller o /\
               Order.orderStatus z = Order.orderStatus o /\
               Order.isEarningsCredited z = true).
Proof.
  induction D as [|o D IH]; intros w n db r db'; simpl.
  - intros [= _ <-] _ _ _ z Hz. left. tauto.
  - intros H Hnd HndD Hin z Hz.
    apply List.NoDup_cons_iff in HndD as [HoD HndD].
    assert (Hstore : forall o' db1 w1 n1,
      resyncLoop s set D w1 n1 db1 = (Some r, db') ->
      orders db1 = replaceFirst (Order.hasId (Order._id o')) o' (orders db) ->
      Order._id o' = Order._id o -> Order.seller o' = Order.seller o ->
      Order.orderStatus o' = Order.orderStatus o ->
      Order.isEarningsCredited o' = true ->
      (In z (orders db) /\ ~ (Order._id o = Order._id z \/
                               In (Order._id z) (map Order._id D))) \/
      (exists o0, (o = o0 \/ In o0 D) /\ Order._id z = Order._id o0 /\
                  Order.seller z = Order.seller o0 /\
                  Order.orderStatus z = Order.orderStatus o0 /\
                  Order.isEarningsCredited z = true)).
    { intros o' db1 w1 n1 H1 Ho Hid Hse Hst Hfl.
      assert (Hnd1 : List.NoDup (map Order._id (orders db1))).
      { rewrite Ho, replaceFirst_ids. exact Hnd. }
      assert (Hself : In o' (orders db1)).
      { rewrite Ho. apply (In_replaceFirst_self _ _ _ o); [auto|].
        unfold Order.hasId. rewrite Hid. apply String.eqb_refl. }
      destruct (IH _ _ _ _ _ H1 Hnd1 HndD) with (z := z)
        as [[Hz1 Hnot]|(x & Hx & Hrest)]; [| exact Hz | |].
      - intros x Hx. rewrite Ho. apply In_replaceFirst_other; [auto|].
        unfold Order.hasId. apply String.eqb_neq. rewrite Hid. intros E.
        apply HoD. rewrite <- E. now apply in_map.
      - destruct (String.eqb (Order._id z) (Order._id o)) eqn:E.
        + apply String.eqb_eq in E. right. exists o.
          assert (z = o') as ->.
          { apply (NoDup_ids_eq _ _ _ Hnd1 Hz1 Hself). congruence. }
          auto.
        + apply String.eqb_neq in E. left. split.
          * rewrite Ho in Hz1. apply In_replaceFirst in Hz1 as [->|Hz1]; [|exact Hz1].
            congruence.
          * intros [E'|E']; [congruence|tauto].
      - right. exists x. split; [now right|exact Hrest]. }
    destruct (bool_decide (Order._id o ∈ set)) eqn:Ein; simpl in H.
    + destruct (Order.isEarningsCredited o) eqn:Hflag; simpl in H.
      * apply (Hstore o db w n H); auto.
        clear - Hin Hnd. assert (Ho : In o (orders db)) by auto.
        revert Hnd Ho. generalize (orders db). induction l as [|x l IHl]; simpl;
          [contradiction|].
        intros Hnd Ho. apply List.NoDup_cons_iff in Hnd as [Hx Hnd].
        unfold Order.hasId at 1.
        destruct (String.eqb (Order._id x) (Order._id o)) eqn:E.
        -- apply String.eqb_eq in E. destruct Ho as [->|Ho]; [reflexivity|].
           exfalso. apply Hx. rewrite E. now apply in_map.
        -- destruct Ho as [->|Ho]; [rewrite String.eqb_refl in E; discriminate|].
           f_equal. now apply IHl.
      * apply (Hstore (withCredited o) _ w n H); reflexivity.
    + unfold Wallet.save in H. destruct (Wallet.valid _); [|discriminate].
      apply (Hstore (withEarnings (Recompute.commissionOf o)
                       (Recompute.sellerEarningsOf o) o) _ _ _ H); reflexivity.
Qed.

Lemma resyncLoop_nothing_to_do s set D : forall w n db,
  (forall o, In o D ->
     Order._id o ∈ set /\ Order.isEarningsCredited o = true) ->
  resyncLoop s set D w n db = (Some (w, n), db).
Proof.
  induction D as [|o D IH]; intros w n db HD; simpl; [reflexivity|].
  destruct (HD o (or_introl eq_refl)) as [Hin Hfl].
  rewrite (bool_decide_eq_true_2 _ Hin), Hfl. simpl.
  apply IH. intros x Hx. apply HD. now right.
Qed.

Lemma NoDup_ids_filter (p : Order.t -> bool) l :
  List.NoDup (map Order._id l) -> List.NoDup (map Order._id (List.filter p l)).
Proof.
  induction l as [|x l IH]; simpl; [auto|].
  intros Hnd. apply List.NoDup_cons_iff in Hnd as [Hx Hnd].
  destruct (p x); simpl; [|auto].
  apply List.NoDup_cons_iff. split; [|auto].
  intros Hin. apply Hx. apply in_map_iff in Hin as (y & Hy & Hin).
  apply filter_In in Hin as [Hin _]. rewrite <- Hy. now apply in_map.
Qed.

Lemma uncredited_set w D :
  List.filter (fun o => negb (bool_decide
                 (Order._id o ∈ creditedOrderIds (Wallet.transactions w)))) D
  = uncredited w D.
Proof.
  unfold uncredited. apply filter_ext. intros o. f_equal.
  destruct (existsb _ _) eqn:E.
  - apply bool_decide_eq_true_2, creditedOrderIds_spec, E.
  - apply bool_decide_eq_false_2. rewrite creditedOrderIds_spec, E. discriminate.
Qed.


(** X13.  The seller resync is idempotent: when the order ids are distinct,
    running it again after a successful run credits nothing, answers the same
    wallet and leaves the database as it is. *)
Theorem adminResyncSellerWallet_idempotent sellerExists sellerId db code n wopt db2 :
  List.NoDup (map Order._id (orders db)) ->
  adminResyncSellerWallet sellerExists sellerId db = (Ok code (n, wopt), db2) ->
  adminResyncSellerWallet sellerExists sellerId db2 = (Ok 200 (0%nat, wopt), db2).
Proof.
  intros Hnd. unfold adminResyncSellerWallet.
  destruct (sellerExists sellerId); [|discriminate].
  simpl. destruct (findOrCreateWallet _ _) as [w ws1] eqn:Ef.
  destruct (resyncLoop _ _ _ _ _ _) as [[[wf n']|] db'] eqn:El; [|discriminate].
  intros [= _ <- <- <-].
  assert (Hws1 : ws1 !! sellerId = Some w).
  { unfold findOrCreateWallet in Ef.
    destruct (wallets db !! sellerId) eqn:E; injection Ef as <- <-;
      [exact E|apply lookup_insert_eq]. }
  destruct (resyncLoop_added _ _ _ _ _ _ _ _ _ El Hws1)
    as (added & Ht & Hf & _ & _ & Hw').
  rewrite (findOrCreateWallet_found _ _ _ Hw'), setWallets_same.
  rewrite resyncLoop_nothing_to_do; [rewrite Hw'; reflexivity|].
  intros z Hz. apply filter_In in Hz as [Hz Hsel].
  apply andb_true_iff in Hsel as [Hse Hst].
  apply String.eqb_eq in Hse. apply String.eqb_eq in Hst.
  assert (HD : forall o, In o (orders db) -> Order.seller o = sellerId ->
                 Order.orderStatus o = "delivered" ->
                 Order._id o ∈ creditedOrderIds (Wallet.transactions wf)).
  { intros o Ho Hso Hsto.
    assert (HoD : In o (deliveredOf sellerId (setWallets ws1 db))).
    { apply filter_In. split; [exact Ho|].
      rewrite Hso, Hsto, String.eqb_refl. reflexivity. }
    apply creditedOrderIds_spec. rewrite Ht, existsb_app.
    destruct (existsb (isCreditFor (Order._id o)) (Wallet.transactions w)) eqn:E;
      [reflexivity|]. simpl.
    assert (Hm : In o (List.filter
                  (fun o => negb (bool_decide
                     (Order._id o ∈ creditedOrderIds (Wallet.transactions w))))
                  (deliveredOf sellerId (setWallets ws1 db)))).
    { apply filter_In. split; [exact HoD|].
      rewrite bool_decide_eq_false_2; [reflexivity|].
      rewrite creditedOrderIds_spec, E. discriminate. }
    clear - Hm Hf. induction Hf as [|x t l l' Hp Hf IH]; [contradiction|].
    simpl. destruct Hm as [->|Hm].
    - destruct Hp as (Hty & Hid & _). unfold isCreditFor, Transaction.isDebit.
      rewrite Hty, Hid, String.eqb_refl. reflexivity.
    - rewrite (IH Hm). apply orb_true_r. }
  destruct (resyncLoop_orders _ _ _ _ _ _ _ _ El) with (z := z)
    as [[Hz0 Hnot]|(o & Ho & Hid & Hso & Hsto & Hfl)].
  - exact Hnd.
  - apply NoDup_ids_filter. exact Hnd.
  - intros o Ho. apply filter_In in Ho. tauto.
  - exact Hz.
  - exfalso. apply Hnot. apply in_map. apply filter_In. split; [exact Hz0|].
    rewrite Hse, Hst, String.eqb_refl. reflexivity.
  - split; [|exact Hfl]. rewrite Hid.
    apply filter_In in Ho as [Ho Hsel].
    apply andb_true_iff in Hsel as [Hse' Hst'].
    apply String.eqb_eq in Hse'. apply String.eqb_eq in Hst'.
    apply HD; assumption.
Qed.

(** ** The seller partitions of a cart *)

Lemma pushItem_keys item m k :
  In k (map fst (pushItem item m)) <-> k = CartItem.seller item \/ In k (map fst m).
Proof.
  induction m as [|[k0 l0] m IH]; simpl; [intuition congruence|].
  destruct (String.eqb k0 (CartItem.seller item)) eqn:E; simpl.
  - apply String.eqb_eq in E. intuition congruence.
  - rewrite IH. tauto.
Qed.

Lemma pushItem_NoDup item m :
  List.NoDup (map fst m) -> List.NoDup (map fst (pushItem item m)).
Proof.
  induction m as [|[k0 l0] m IH]; simpl.
  - intros _. repeat constructor. simpl. tauto.
  - intros Hnd. apply List.NoDup_cons_iff in Hnd as [Hk Hnd].
    destruct (String.eqb k0 (CartItem.seller item)) eqn:E; simpl.
    + apply List.NoDup_cons_iff. auto.
    + apply List.NoDup_cons_iff. split; [|auto].
      rewrite pushItem_keys. apply String.eqb_neq in E. intuition congruence.
Qed.

Lemma pushItem_parts item m k l' :
  List.NoDup (map fst m) -> In (k, l') (pushItem item m) ->
  (k <> CartItem.seller item /\ In (k, l') m) \/
  (k = CartItem.seller item /\
   ((exists l, In (k, l) m /\ l' = l ++ [item]) \/
    (~ In k (map fst m) /\ l' = [item]))).
Proof.
  induction m as [|[k0 l0] m IH]; simpl.
  - intros _ [[= <- <-]|[]]. right. split; [reflexivity|]. right. tauto.
  - intros Hnd. apply List.NoDup_cons_iff in Hnd as [Hk Hnd].
    destruct (String.eqb k0 (CartItem.seller item)) eqn:E; simpl.
    + apply String.eqb_eq in E. intros [[= <- <-]|Hin].
      * right. split; [exact E|]. left. exists l0. auto.
      * left. split; [|auto]. intros ->. apply Hk. rewrite E.
        apply (in_map fst) in Hin. exact Hin.
    + apply String.eqb_neq in E. intros [[= <- <-]|Hin].
      * left. auto.
      * destruct (IH Hnd Hin) as [[Hne H]|[-> [(l & H & ->)|[Hno ->]]]].
        -- left. auto.
        -- right. split; [reflexivity|]. left. exists l. auto.
        -- right. split; [reflexivity|]. right. split; [|reflexivity].
           intros [H|H]; [congruence|tauto].
Qed.

Lemma itemsOf_snoc k seen item :
  itemsOf k (seen ++ [item]) =
  itemsOf k seen ++ (if String.eqb (CartItem.seller item) k then [item] else []).
Proof. unfold itemsOf. rewrite List.filter_app. reflexivity. Qed.

Lemma itemsOf_none k seen :
  (forall i, In i seen -> CartItem.seller i <> k) -> itemsOf k seen = [].
Proof.
  induction seen as [|x seen IH]; simpl; [reflexivity|]. intros H.
  destruct (String.eqb (CartItem.seller x) k) eqn:E.
  - apply String.eqb_eq in E. exfalso. exact (H x (or_introl eq_refl) E).
  - apply IH. intros i Hi. apply H. now right.
Qed.

Lemma pushItem_flat item m :
  Permutation (concat (map snd (pushItem item m))) (item :: concat (map snd m)).
Proof.
  induction m as [|[k0 l0] m IH]; simpl; [reflexivity|].
  destruct (String.eqb k0 (CartItem.seller item)); simpl.
  - rewrite <- app_assoc. simpl.
    symmetry. apply Permutation_middle.
  - rewrite IH. symmetry. apply Permutation_middle.
Qed.

Lemma groupBySeller_flat items : forall m parts,
  groupBySeller items m = inr parts ->
  Permutation (concat (map snd parts)) (concat (map snd m) ++ items).
Proof.
  induction items as [|item items IH]; intros m parts; simpl.
  - intros [= <-]. rewrite app_nil_r. reflexivity.
  - destruct (_ || _); [discriminate|].
    destruct (negb _); [discriminate|]. destruct (negb _); [discriminate|].
    intros H. rewrite (IH _ _ H), pushItem_flat.
    apply Permutation_middle.
Qed.

Lemma groupBySeller_inv items : forall seen m parts,
  groupBySeller items m = inr parts ->
  List.NoDup (map fst m) ->
  Forall (fun part => snd part = itemsOf (fst part) seen /\ snd part <> []) m ->
  (forall i, In i seen -> In (CartItem.seller i) (map fst m)) ->
  List.NoDup (map fst parts) /\
  Forall (fun part => snd part = itemsOf (fst part) (seen ++ items) /\
                      snd part <> []) parts /\
  (forall i, In i (seen ++ items) -> In (CartItem.seller i) (map fst parts)) /\
  Forall (fun i => String.length (CartItem.product i) = 24%nat /\
                   String.length (CartItem.seller i) = 24%nat) items.
Proof.
  induction items as [|item items IH]; intros seen m parts; simpl.
  - intros [= <-] Hnd Hall Hkeys. rewrite app_nil_r. auto.
  - destruct (_ || _); [discriminate|].
    destruct (Nat.eqb (String.length (CartItem.product item)) 24) eqn:Ep;
      [|discriminate].
    destruct (Nat.eqb (String.length (CartItem.seller item)) 24) eqn:Es;
      [|discriminate].
    simpl. intros H Hnd Hall Hkeys.
    destruct (IH (seen ++ [item]) _ _ H) as (H1 & H2 & H3 & H4).
    + apply pushItem_NoDup, Hnd.
    + apply List.Forall_forall. intros [k l'] Hin. simpl.
      rewrite itemsOf_snoc.
      rewrite List.Forall_forall in Hall.
      destruct (pushItem_parts _ _ _ _ Hnd Hin)
        as [[Hne Hm]|[-> [(l & Hm & ->)|[Hno ->]]]].
      * destruct (Hall _ Hm) as [Hl Hne']. simpl in *.
        apply not_eq_sym, String.eqb_neq in Hne. rewrite Hne, app_nil_r. auto.
      * destruct (Hall _ Hm) as [Hl _]. simpl in *.
        rewrite String.eqb_refl, Hl. split; [reflexivity|].
        intros E. apply app_eq_nil in E as [_ E]. discriminate.
      * rewrite String.eqb_refl, itemsOf_none; [split; [reflexivity|discriminate]|].
        intros i Hi E. apply Hno. rewrite <- E. auto.
    + intros i Hi. rewrite pushItem_keys.
      apply in_app_or in Hi as [Hi|[<-|[]]]; auto.
    + rewrite <- app_assoc in H2, H3. simpl in H2, H3.
      repeat split; try assumption.
      constructor; [|exact H4].
      split; apply Nat.eqb_eq; assumption.
Qed.

(** X14.  The grouping of a cart: when it does not answer with an error,
    the sellers of the groups are pairwise distinct and listed once each,
    the group of a seller holds exactly the cart items of that seller in
    cart order and is never empty, every cart item has its seller among the
    groups, and every product and seller id of the cart is 24 characters
    long. *)
Theorem groupBySeller_partitions items parts :
  groupBySeller items [] = inr parts ->
  List.NoDup (map fst parts) /\
  Forall (fun part => snd part = itemsOf (fst part) items /\ snd part <> []) parts /\
  (forall i, In i items -> In (CartItem.seller i) (map fst parts)) /\
  Forall (fun i => String.length (CartItem.product i) = 24%nat /\
                   String.length (CartItem.seller i) = 24%nat) items.
Proof.
  intros H. apply (groupBySeller_inv items [] [] parts H).
  - constructor.
  - constructor.
  - intros i [].
Qed.

(** ** Sold counts of a created order *)

Lemma productsOnCommit_start db : productsOnCommit (db, startTransaction) = products db.
Proof. destruct db; reflexivity. Qed.

Lemma productsOnCommit_saveOrder o st :
  productsOnCommit (saveOrder o st) = productsOnCommit st.
Proof. destruct st as [[] []]; reflexivity. Qed.

Lemma productsOnCommit_saveProduct inSession id p st :
  (inSession = false -> stagedProducts (snd st) = []) ->
  productsOnCommit (saveProduct inSession id p st) = <[id := p]> (productsOnCommit st).
Proof.
  destruct st as [db s]. unfold productsOnCommit, saveProduct, commitTransaction.
  destruct inSession; simpl; intros H.
  - destruct db; simpl. rewrite fold_left_app. reflexivity.
  - rewrite (H eq_refl). destruct db; reflexivity.
Qed.

Lemma NoDup_app_disjoint {A} (l1 l2 : list A) a :
  List.NoDup (l1 ++ l2) -> In a l1 -> In a l2 -> False.
Proof.
  induction l1 as [|x l1 IH]; simpl; [tauto|].
  intros Hnd Hin1 Hin2. apply List.NoDup_cons_iff in Hnd as [Hx Hnd].
  destruct Hin1 as [->|Hin1]; [|auto].
  apply Hx, in_or_app. now right.
Qed.

Lemma soldCounted_nil inSession db0 st :
  (inSession = false -> stagedProducts (snd st) = []) ->
  soldCounted inSession db0 [] st st.
Proof. intros H. split; [intros ? []|]. split; [tauto|exact H]. Qed.

Lemma soldCounted_app inSession db0 l1 l2 st st1 st2 :
  List.NoDup (map CartItem.product (l1 ++ l2)) ->
  soldCounted inSession db0 l1 st st1 -> soldCounted inSession db0 l2 st1 st2 ->
  soldCounted inSession db0 (l1 ++ l2) st st2.
Proof.
  intros Hnd (Ha & Hb & _) (Ha' & Hb' & Hc').
  rewrite map_app in Hnd.
  split; [|split; [|exact Hc']].
  - intros item Hin. apply in_app_or in Hin as [Hin|Hin]; [|auto].
    destruct (Ha _ Hin) as (p & Hp & Hs). exists p. split; [exact Hp|].
    rewrite <- Hs. apply Hb'. intros Hin2.
    apply (NoDup_app_disjoint _ _ (CartItem.product item) Hnd);
      [now apply in_map|exact Hin2].
  - intros id Hid. rewrite map_app, in_app_iff in Hid.
    destruct (Hb id) as [H1 H2]; [tauto|].
    destruct (Hb' id) as [H1' H2']; [tauto|].
    split; congruence.
Qed.

Lemma resolveItem_sold inSession db0 sellerId item st oi st' :
  resolveItem inSession sellerId item st = (inr oi, st') ->
  (inSession = false -> stagedProducts (snd st) = []) ->
  products (fst st) !! CartItem.product item
    = products db0 !! CartItem.product item ->
  soldCounted inSession db0 [item] st st'.
Proof.
  unfold resolveItem. intros H Hs Hp.
  destruct (products (fst st) !! CartItem.product item) as [p|] eqn:E;
    [|discriminate].
  destruct (sellerProducts (fst st) !! CartItem.sellerProduct item) as [sp|];
    [|discriminate].
  destruct (negb _); [discriminate|]. injection H as _ <-.
  unfold soldCounted. rewrite (productsOnCommit_saveProduct _ _ _ _ Hs).
  split; [|split].
  - intros i [<-|[]]. exists p. split; [auto|apply lookup_insert_eq].
  - intros id Hid. simpl in Hid.
    assert (Hne : CartItem.product item <> id) by tauto.
    split; [apply lookup_insert_ne, Hne|].
    unfold saveProduct. destruct inSession; simpl; [reflexivity|].
    destruct (fst st); simpl. apply lookup_insert_ne, Hne.
  - intros ->. unfold saveProduct. simpl. auto.
Qed.

Lemma resolveItems_sold inSession db0 sellerId items : forall st ois st',
  resolveItems inSession sellerId items st = (inr ois, st') ->
  (inSession = false -> stagedProducts (snd st) = []) ->
  List.NoDup (map CartItem.product items) ->
  (forall i, In i items ->
     products (fst st) !! CartItem.product i = products db0 !! CartItem.product i) ->
  soldCounted inSession db0 items st st'.
Proof.
  induction items as [|item rest IH]; intros st ois st'; simpl.
  - intros [= _ <-] Hs _ _. apply soldCounted_nil, Hs.
  - destruct (resolveItem inSession sellerId item st) as [[e|oi] st1] eqn:E1;
      [discriminate|].
    destruct (resolveItems inSession sellerId rest st1) as [[e|ois2] st2] eqn:E2;
      [discriminate|].
    intros [= _ <-] Hs Hnd Hp.
    pose proof (resolveItem_sold _ db0 _ _ _ _ _ E1 Hs (Hp _ (or_introl eq_refl)))
      as H1.
    apply (soldCounted_app _ _ [item] rest st st1 st2 Hnd H1).
    apply List.NoDup_cons_iff in Hnd as [Hx Hnd].
    destruct H1 as (_ & Hb & Hc).
    apply (IH _ _ _ E2 Hc Hnd). intros i Hi.
    rewrite <- (Hp i (or_intror Hi)). apply Hb. simpl.
    intros [E|[]]. apply Hx. rewrite E. now apply in_map.
Qed.

Lemma soldCounted_saveOrder inSession db0 items st st' o :
  soldCounted inSession db0 items st st' ->
  soldCounted inSession db0 items st (saveOrder o st').
Proof.
  intros (Ha & Hb & Hc). unfold soldCounted.
  rewrite productsOnCommit_saveOrder. simpl. auto.
Qed.

Lemma forEachSeller_sold razorpay now fresh userId req address total db0 parts :
  forall k created st os st',
  forEachSeller razorpay now fresh userId req address total parts k created st
    = (inr os, st') ->
  (razorpay = false -> stagedProducts (snd st) = []) ->
  List.NoDup (map CartItem.product (concat (map snd parts))) ->
  (forall i, In i (concat (map snd parts)) ->
     products (fst st) !! CartItem.product i = products db0 !! CartItem.product i) ->
  soldCounted razorpay db0 (concat (map snd parts)) st st'.
Proof.
  induction parts as [|[sellerId sellerItems] rest IH]; intros k created st os st';
    simpl.
  - intros [= _ <-] Hs _ _. apply soldCounted_nil, Hs.
  - destruct (resolveItems razorpay sellerId sellerItems st) as [[e|ois] st1] eqn:E1;
      [discriminate|].
    intros H Hs Hnd Hp.
    assert (H1 : soldCounted razorpay db0 sellerItems st st1).
    { apply (resolveItems_sold _ _ _ _ _ _ _ E1 Hs).
      - rewrite map_app in Hnd. exact (List.NoDup_app_remove_r _ _ Hnd).
      - intros i Hi. apply Hp, in_or_app. now left. }
    set (order := newOrder _ _ _ _ _ _ _ _ _ _) in H.
    apply (soldCounted_app _ _ _ _ st (saveOrder order st1) st' Hnd
             (soldCounted_saveOrder _ _ _ _ _ order H1)).
    destruct H1 as (_ & Hb & Hc).
    apply (IH _ _ _ _ _ H); [exact Hc| |].
    + rewrite map_app in Hnd. exact (List.NoDup_app_remove_l _ _ Hnd).
    + intros i Hi. simpl. rewrite <- (Hp i (in_or_app _ _ _ (or_intror Hi))).
      apply Hb. intros Hin.
      rewrite map_app in Hnd.
      apply (NoDup_app_disjoint _ _ (CartItem.product i) Hnd);
        [exact Hin|now apply in_map].
Qed.

(** X15.  The sold counts after an order creation that answered with the
    created orders, for a cart whose products are pairwise distinct: the
    sold count of the product of every cart item is its former value plus the
    item's quantity, and no other product has changed.  This holds the same
    for [createOrder] and [createOrderForRazorpay]. *)
Theorem createOrderWith_sold_counts razorpay now fresh req db os db' :
  createOrderWith razorpay now fresh req db = (Ok 201 os, db') ->
  List.NoDup (map CartItem.product (OrderRequest.items req)) ->
  (forall item, In item (OrderRequest.items req) ->
     exists p, products db !! CartItem.product item = Some p /\
       products db' !! CartItem.product item
         = Some (Product.addSold (CartItem.quantity item) p)) /\
  (forall id, ~ In id (map CartItem.product (OrderRequest.items req)) ->
     products db' !! id = products db !! id).
Proof.
  intros H Hnd. apply createOrderWith_created in H.
  destruct H as (userId & address & parts & db1 & s & _ & _ & _ & Hg & Hl & ->).
  pose proof (groupBySeller_flat _ _ _ Hg) as Hperm. simpl in Hperm.
  assert (Hnd' : List.NoDup (map CartItem.product (concat (map snd parts)))).
  { apply (Permutation_NoDup (l := map CartItem.product (OrderRequest.items req)));
      [|exact Hnd].
    apply Permutation_map. symmetry. exact Hperm. }
  destruct (forEachSeller_sold _ _ _ _ _ _ _ db _ _ _ _ _ _ Hl
              (fun _ => eq_refl) Hnd' (fun _ _ => eq_refl)) as (Ha & Hb & _).
  rewrite productsOnCommit_start in Hb.
  split.
  - intros item Hin. apply Ha.
    apply (Permutation_in _ (Permutation_sym Hperm) Hin).
  - intros id Hid. apply Hb. intros Hin. apply Hid.
    apply (Permutation_in _ (Permutation_map CartItem.product Hperm) Hin).
Qed.

(** ** The orders after a capture *)

Lemma storeOrders_fields os : forall db,
  orders (fold_left (fun d o => storeOrder o d) os db) =
    fold_left (fun l o => replaceFirst (Order.hasId (Order._id o)) o l) os (orders db) /\
  products (fold_left (fun d o => storeOrder o d) os db) = products db /\
  sellerProducts (fold_left (fun d o => storeOrder o d) os db) = sellerProducts db /\
  withdrawals (fold_left (fun d o => storeOrder o d) os db) = withdrawals db.
Proof.
  induction os as [|o os IH]; intros db; simpl; [auto|].
  destruct (IH (storeOrder o db)) as (H1 & H2 & H3 & H4).
  rewrite H1, H2, H3, H4. destruct db; auto.
Qed.

Lemma replaceFirst_map (o o' : Order.t) l :
  List.NoDup (map Order._id l) -> In o l -> Order._id o' = Order._id o ->
  replaceFirst (Order.hasId (Order._id o')) o' l =
  map (fun z => if String.eqb (Order._id z) (Order._id o) then o' else z) l.
Proof.
  intros Hnd Hin Hid. rewrite Hid. clear Hid.
  induction l as [|x l IH]; simpl; [contradiction|].
  apply List.NoDup_cons_iff in Hnd as [Hx Hnd].
  unfold Order.hasId at 1.
  destruct (String.eqb (Order._id x) (Order._id o)) eqn:E.
  - f_equal. apply String.eqb_eq in E.
    rewrite <- (map_id l) at 1. apply map_ext_in. intros z Hz.
    destruct (String.eqb (Order._id z) (Order._id o)) eqn:E'; [|reflexivity].
    apply String.eqb_eq in E'. exfalso. apply Hx. rewrite E, <- E'.
    now apply in_map.
  - f_equal. destruct Hin as [->|Hin]; [|auto].
    rewrite String.eqb_refl in E. discriminate.
Qed.

Lemma storeOrders_map (f : Order.t -> Order.t) :
  (forall o, Order._id (f o) = Order._id o) ->
  forall F l,
  List.NoDup (map Order._id l) -> List.NoDup (map Order._id F) ->
  (forall o, In o F -> In o l) ->
  fold_left (fun l o => replaceFirst (Order.hasId (Order._id o)) o l) (map f F) l =
  map (fun z => if existsb (fun o => String.eqb (Order._id z) (Order._id o)) F
                then f z else z) l.
Proof.
  intros Hf. induction F as [|o F IH]; intros l Hnd HndF Hin; simpl.
  - symmetry. apply map_id.
  - apply List.NoDup_cons_iff in HndF as [HoF HndF].
    assert (Ho : In o l) by (apply Hin; now left).
    rewrite IH; [| |exact HndF|].
    + rewrite (replaceFirst_map o (f o) l Hnd Ho (Hf o)), map_map.
      apply map_ext_in. intros z Hz.
      destruct (String.eqb (Order._id z) (Order._id o)) eqn:E; simpl; [|reflexivity].
      apply String.eqb_eq in E.
      assert (z = o) as -> by exact (NoDup_ids_eq _ _ _ Hnd Hz Ho E).
      destruct (existsb _ F) eqn:Ex; [|reflexivity].
      exfalso. apply existsb_exists in Ex as (x & Hx & Ex).
      apply String.eqb_eq in Ex. apply HoF. rewrite <- (Hf o), Ex.
      now apply in_map.
    + rewrite replaceFirst_ids. exact Hnd.
    + intros x Hx. apply In_replaceFirst_other; [apply Hin; now right|].
      unfold Order.hasId. apply String.eqb_neq. rewrite Hf. intros E.
      apply HoF. rewrite <- E. now apply in_map.
Qed.

(** X16.  What a successful capture writes, when the order ids are
    distinct: exactly the orders named in the request are replaced by their
    paid version (paid, confirmed, method razorpay, with the payment
    result), every other order and every other collection is left as it
    was, and the answer lists the paid versions. *)
Theorem capture_marks_named_orders env c now req db code paid db' :
  List.NoDup (map Order._id (orders db)) ->
  capturePaymentForOrders env c now req db = (Ok code paid, db') ->
  paid = map (markPaid now req) (findOrdersIn (CaptureRequest.orderIds req) db) /\
  orders db' =
    map (fun o => if existsb (String.eqb (Order._id o)) (CaptureRequest.orderIds req)
                  then markPaid now req o else o) (orders db) /\
  products db' = products db /\ sellerProducts db' = sellerProducts db /\
  wallets db' = wallets db /\ withdrawals db' = withdrawals db.
Proof.
  intros Hnd. unfold capturePaymentForOrders.
  destruct (CaptureRequest.orderIds req) as [|i ids] eqn:Eids; [discriminate|].
  rewrite <- Eids.
  destruct (_ || _ || _); [discriminate|].
  destruct (RAZORPAY_KEY_SECRET env) as [key|]; [|discriminate].
  destruct (negb (String.eqb _ _)); [discriminate|].
  destruct (negb (Nat.eqb _ _)); [discriminate|].
  destruct (negb (forallb _ _)); [discriminate|].
  destruct (secureFunds _ _ _ _) as [[code' msg]|[]]; [discriminate|].
  intros [= _ <- <-].
  destruct (storeOrders_fields
              (map (markPaid now req) (findOrdersIn (CaptureRequest.orderIds req) db))
              db) as (H1 & H2 & H3 & H4).
  split; [reflexivity|]. split; [|rewrite storeOrders_wallets; auto].
  rewrite H1. unfold findOrdersIn.
  rewrite (storeOrders_map (markPaid now req) (fun _ => eq_refl));
    [|exact Hnd|apply NoDup_ids_filter, Hnd|intros o Ho; apply filter_In in Ho; tauto].
  apply map_ext_in. intros z Hz.
  replace (existsb (fun o => String.eqb (Order._id z) (Order._id o)) _)
    with (existsb (String.eqb (Order._id z)) (CaptureRequest.orderIds req));
    [reflexivity|].
  destruct (existsb (String.eqb (Order._id z)) (CaptureRequest.orderIds req)) eqn:E;
    symmetry.
  - apply existsb_exists. exists z. split; [|apply String.eqb_refl].
    apply filter_In. auto.
  - apply not_true_is_false. intros Ex.
    apply existsb_exists in Ex as (x & Hx & Ex). apply String.eqb_eq in Ex.
    apply filter_In in Hx as [_ Hx]. rewrite Ex, Hx in E. discriminate.
Qed.

(** X17.  The capture repeats the check of the verification handler: a
    request with at least one order id whose payment fields fail
    [verifyRazorpayPayment] is never captured; the capture answers with an
    error and leaves the database as it was. *)
Theorem unverified_payment_is_not_captured env c now req db code message :
  CaptureRequest.orderIds req <> [] ->
  verifyRazorpayPayment env c (CaptureRequest.razorpay_order_id req)
    (CaptureRequest.razorpay_payment_id req)
    (CaptureRequest.razorpay_signature req) = Err code message ->
  exists code' message',
    capturePaymentForOrders env c now req db = (Err code' message', db).
Proof.
  unfold verifyRazorpayPayment, capturePaymentForOrders. intros Hne.
  destruct (CaptureRequest.orderIds req) as [|i ids]; [contradiction|].
  destruct (_ || _ || _); [eauto|].
  destruct (RAZORPAY_KEY_SECRET env) as [key|]; [|eauto].
  destruct (negb (String.eqb _ _)); [eauto|discriminate].
Qed.

(** X19.  What the length test of the capture guarantees when the order ids
    are distinct: a capture that succeeds was given pairwise distinct order
    ids, each of them the id of a stored order of the buyer who made the
    request. *)
Theorem capture_names_stored_orders env c now req db code paid db' :
  List.NoDup (map Order._id (orders db)) ->
  capturePaymentForOrders env c now req db = (Ok code paid, db') ->
  List.NoDup (CaptureRequest.orderIds req) /\
  forall id, In id (CaptureRequest.orderIds req) ->
    exists o, In o (orders db) /\ Order._id o = id /\
              Some (Order.user o) = option_map fst (CaptureRequest.user req).
Proof.
  intros Hnd H. destruct (capture_success_inv _ _ _ _ _ _ _ _ H)
    as (_ & Hlen & Hown & _).
  set (found := findOrdersIn (CaptureRequest.orderIds req) db) in *.
  assert (Hf : List.NoDup (map Order._id found)) by apply NoDup_ids_filter, Hnd.
  assert (Hincl : incl (map Order._id found) (CaptureRequest.orderIds req)).
  { intros id Hin. apply in_map_iff in Hin as (o & <- & Ho).
    apply filter_In in Ho as [_ Ho]. apply existsb_exists in Ho as (x & Hx & E).
    apply String.eqb_eq in E. rewrite E. exact Hx. }
  assert (Hle : (length (CaptureRequest.orderIds req) <= length (map Order._id found))%nat)
    by (rewrite length_map, Hlen; reflexivity).
  split; [exact (List.NoDup_incl_NoDup Hf Hle Hincl)|].
  intros id Hid. apply (List.NoDup_length_incl Hf Hle Hincl) in Hid.
  apply in_map_iff in Hid as (o & <- & Ho). exists o.
  rewrite List.Forall_forall in Hown. split; [|split; [reflexivity|exact (Hown o Ho)]].
  apply filter_In in Ho. tauto.
Qed.

(** ** The terms of an order *)

Lemma termsOf_id a b : termsOf a = termsOf b -> Order._id a = Order._id b.
Proof. unfold termsOf. congruence. Qed.

Lemma replaceFirst_terms (o' : Order.t) l :
  (forall z, In z l -> Order._id z = Order._id o' -> termsOf z = termsOf o') ->
  map termsOf (replaceFirst (Order.hasId (Order._id o')) o' l) = map termsOf l.
Proof.
  induction l as [|x l IH]; simpl; [reflexivity|]. intros H.
  unfold Order.hasId at 1.
  destruct (String.eqb (Order._id x) (Order._id o')) eqn:E; simpl.
  - apply String.eqb_eq in E. rewrite (H x (or_introl eq_refl) E). reflexivity.
  - rewrite IH; [reflexivity|]. intros z Hz. apply H. now right.
Qed.

(** Storing a new version of a stored order keeps the terms of all orders,
    when the ids are distinct. *)
Lemma storeOrder_terms l0 o o' db :
  List.NoDup (map Order._id l0) -> In o l0 -> termsOf o' = termsOf o ->
  map termsOf (orders db) = map termsOf l0 ->
  map termsOf (orders (storeOrder o' db)) = map termsOf l0.
Proof.
  intros Hnd Ho Ht Hm. simpl. rewrite <- Hm. apply replaceFirst_terms.
  intros z Hz Hid. rewrite Ht.
  assert (Hin : In (termsOf z) (map termsOf l0))
    by (rewrite <- Hm; now apply in_map).
  apply in_map_iff in Hin as (z0 & Hz0 & Hin). rewrite <- Hz0. f_equal.
  apply (NoDup_ids_eq l0 _ _ Hnd Hin Ho).
  rewrite (termsOf_id _ _ Hz0), Hid. apply termsOf_id, Ht.
Qed.

Lemma storeOrders_terms l0 (f : Order.t -> Order.t) :
  (forall o, termsOf (f o) = termsOf o) ->
  List.NoDup (map Order._id l0) ->
  forall os db, (forall o, In o os -> In o l0) ->
  map termsOf (orders db) = map termsOf l0 ->
  map termsOf (orders (fold_left (fun d o => storeOrder o d) (map f os) db))
    = map termsOf l0.
Proof.
  intros Hf Hnd. induction os as [|o os IH]; intros db Hin Hm; simpl; [exact Hm|].
  apply IH; [intros x Hx; apply Hin; now right|].
  apply (storeOrder_terms l0 o); auto. apply Hin. now left.
Qed.

Lemma resyncLoop_terms l0 s set D : forall w n db,
  List.NoDup (map Order._id l0) -> (forall o, In o D -> In o l0) ->
  map termsOf (orders db) = map termsOf l0 ->
  map termsOf (orders (snd (resyncLoop s set D w n db))) = map termsOf l0.
Proof.
  induction D as [|o D IH]; intros w n db Hnd Hin Hm; simpl; [exact Hm|].
  assert (Ho : In o l0) by (apply Hin; now left).
  assert (HD : forall x, In x D -> In x l0) by (intros x Hx; apply Hin; now right).
  destruct (bool_decide _).
  - apply IH; [exact Hnd|exact HD|].
    destruct (negb _); [|exact Hm].
    apply (storeOrder_terms l0 o); auto.
  - assert (Hs : map termsOf
                   (orders (storeOrder
                      (withEarnings (Recompute.commissionOf o)
                         (Recompute.sellerEarningsOf o) o) db)) = map termsOf l0)
      by (apply (storeOrder_terms l0 o); auto).
    unfold Wallet.save. destruct (Wallet.valid _); [|exact Hs].
    apply IH; [exact Hnd|exact HD|exact Hs].
Qed.

Lemma createOrderWith_orders razorpay now fresh req db :
  exists added,
    orders (snd (createOrderWith razorpay now fresh req db)) = orders db ++ added.
Proof.
  unfold createOrderWith.
  destruct (OrderRequest.user req) as [userId|];
    [|exists []; symmetry; apply app_nil_r].
  destruct (if truthy (OrderRequest.orderIdempotencyKey req) then _ else None);
    [exists []; symmetry; apply app_nil_r|].
  destruct (OrderRequest.shippingAddress req) as [address|];
    [|exists []; symmetry; apply app_nil_r].
  destruct (_ || _); [exists []; symmetry; apply app_nil_r|].
  destruct (OrderRequest.items req) as [|item items];
    [exists []; symmetry; apply app_nil_r|].
  destruct (groupBySeller (item :: items) []) as [e|parts];
    [exists []; symmetry; apply app_nil_r|].
  destruct (forEachSeller _ _ _ _ _ _ _ _ _ _ _) as [[e|created] [db1 s]] eqn:El;
    apply forEachSeller_state in El; destruct El as [(Ho & _) _]; simpl in *.
  - exists []. rewrite app_nil_r. exact Ho.
  - exists (stagedOrders s). rewrite Ho. reflexivity.
Qed.

Lemma handle_terms r db :
  List.NoDup (map Order._id (orders db)) ->
  exists added,
    map termsOf (orders (handle r db)) = map termsOf (orders db) ++ added.
Proof.
  intros Hnd.
  assert (Hsame : forall db', orders db' = orders db ->
            exists added,
              map termsOf (orders db') = map termsOf (orders db) ++ added).
  { intros db' ->. exists []. symmetry. apply app_nil_r. }
  assert (Hkeep : forall db',
            map termsOf (orders db') = map termsOf (orders db) ->
            exists added,
              map termsOf (orders db') = map termsOf (orders db) ++ added).
  { intros db' ->. exists []. symmetry. apply app_nil_r. }
  destruct r; simpl.
  - apply Hsame. unfold createWithdrawalRequest. repeat case_scrutinee; reflexivity.
  - apply Hsame. unfold approveWithdrawal. repeat case_scrutinee; reflexivity.
  - apply Hsame. unfold rejectWithdrawal. repeat case_scrutinee; reflexivity.
  - apply Hsame. unfold processWithdrawal. repeat case_scrutinee; reflexivity.
  - apply Hsame. reflexivity.
  - apply Hkeep. unfold updateOrderStatus.
    destruct (findOne _ _) as [o|] eqn:Hf; [|reflexivity].
    assert (Ho : In o (orders db)) by exact (proj1 (find_some _ _ Hf)).
    destruct (_ && _); simpl snd;
      apply (storeOrder_terms (orders db) o); auto.
  - apply Hkeep. unfold adminResyncOrderToWallet.
    destruct (findOne _ _) as [o|] eqn:Hf; [|reflexivity].
    assert (Ho : In o (orders db)) by exact (proj1 (find_some _ _ Hf)).
    destruct (negb _); [reflexivity|].
    destruct (findOrCreateWallet _ _) as [w ws1].
    destruct (existsb _ _).
    + destruct (negb _); simpl snd; [|reflexivity].
      apply (storeOrder_terms (orders db) o); auto.
    + assert (Hs : map termsOf
                     (orders (storeOrder
                        (withEarnings (Recompute.commissionOf o)
                           (Recompute.sellerEarningsOf o) o)
                        (setWallets ws1 db))) = map termsOf (orders db))
        by (apply (storeOrder_terms (orders db) o); auto).
      cbv zeta. destruct (Wallet.save _ _ _); exact Hs.
  - apply Hkeep. unfold adminResyncSellerWallet.
    destruct (negb _); [reflexivity|].
    destruct (findOrCreateWallet _ _) as [w ws1].
    pose proof (resyncLoop_terms (orders db) sellerId
                  (creditedOrderIds (Wallet.transactions w))
                  (deliveredOf sellerId (setWallets ws1 db)) w 0
                  (setWallets ws1 db) Hnd) as Hl.
    destruct (resyncLoop _ _ _ _ _ _) as [[[wf n]|] db2]; simpl in *;
      apply Hl; try reflexivity;
      intros o Ho; apply filter_In in Ho; tauto.
  - destruct (createOrderWith_orders razorpay now fresh req db) as (added & ->).
    exists (map termsOf added). apply map_app.
  - apply Hkeep. unfold capturePaymentForOrders.
    repeat case_scrutinee; try reflexivity.
    apply (storeOrders_terms (orders db) (markPaid now req)); auto.
    intros o Ho. apply filter_In in Ho. tauto.
Qed.

(** X20.  No request deletes or reorders an order or changes its terms:
    along a run in which the order ids stay distinct, the list of the terms
    of the stored orders (id, number, buyer, seller, items, address, prices,
    discount, coupon, keys and creation time) only grows at its end. *)
Theorem orders_keep_their_terms rs db :
  uniqueIdsAlong rs db ->
  exists added,
    map termsOf (orders (serve rs db)) = map termsOf (orders db) ++ added.
Proof.
  unfold serve. revert db. induction rs as [|r rs IH]; intros db; simpl.
  - intros _. exists []. symmetry. apply app_nil_r.
  - intros [Hnd Hrest]. destruct (handle_terms r db Hnd) as (a1 & H1).
    destruct (IH _ Hrest) as (a2 & H2). exists (a1 ++ a2).
    rewrite H2, H1, app_assoc. reflexivity.
Qed.

(** ** The totals of the orders of a cart *)

Lemma fold_left_sumQ {A} (f : A -> Q) l : forall a,
  fold_left (fun s x => s + f x) l a == a + sumQ (map f l).
Proof.
  induction l as [|x l IH]; intros a; simpl; [ring|]. rewrite IH. ring.
Qed.

Lemma sumQ_perm l l' : Permutation l l' -> sumQ l == sumQ l'.
Proof.
  induction 1 as [|x l l' _ IH|x y l|l l' l'' _ IH1 _ IH2]; simpl.
  - reflexivity.
  - rewrite IH. reflexivity.
  - ring.
  - rewrite IH1. exact IH2.
Qed.

Lemma priced_value db sellerId items ois :
  Forall2 (pricedFromListing db sellerId) items ois ->
  pricesMatchListings db items ->
  sumQ (map orderItemValue ois) == sumQ (map cartValue items).
Proof.
  induction 1 as [|item oi items ois Hp _ IH]; intros Hm; simpl; [reflexivity|].
  apply List.Forall_cons_iff in Hm as [(listing & Hl & Hprice) Hm].
  destruct Hp as (listing' & Hl' & _ & Hpo & Hq & _).
  rewrite Hl in Hl'. injection Hl' as <-.
  rewrite (IH Hm). unfold orderItemValue, cartValue.
  rewrite Hpo, Hq, Hprice. reflexivity.
Qed.

Lemma partitions_value db discount total parts os :
  Forall2 (orderOfPartition db discount total) parts os ->
  pricesMatchListings db (concat (map snd parts)) ->
  sumQ (map Order.itemsPrice os) == sumQ (map cartValue (concat (map snd parts))).
Proof.
  induction 1 as [|part o parts os Hp _ IH]; intros Hm; simpl; [reflexivity|].
  apply Forall_app in Hm as [Hm1 Hm2].
  destruct Hp as (_ & Hitems & Hip & _).
  rewrite map_app, sumQ_app, (IH Hm2), Hip.
  unfold itemsPriceOf.
  rewrite (fold_left_sumQ orderItemValue (Order.orderItems o) 0).
  rewrite (priced_value _ _ _ _ Hitems Hm1). ring.
Qed.

Lemma forEachSeller_no_fees razorpay now fresh userId req address total parts :
  forall k created st os st',
  forEachSeller razorpay now fresh userId req address total parts k created st
    = (inr os, st') ->
  Forall (fun o => Order.shippingPrice o = 0 /\ Order.taxPrice o = 0) created ->
  Forall (fun o => Order.shippingPrice o = 0 /\ Order.taxPrice o = 0) os.
Proof.
  induction parts as [|[sellerId sellerItems] rest IH]; intros k created st os st';
    simpl.
  - intros [= <- _] H. exact H.
  - destruct (resolveItems razorpay sellerId sellerItems st) as [[e|ois] st1];
      [discriminate|].
    intros H Hc. apply (IH _ _ _ _ _ H).
    apply Forall_app. split; [exact Hc|]. repeat constructor.
Qed.

Lemma shares_total discount total (os : list Order.t) :
  ~ total == 0 ->
  Forall (fun o => Order.totalPrice o ==
                   Order.itemsPrice o - discount * (Order.itemsPrice o / total)) os ->
  sumQ (map Order.totalPrice os) ==
  sumQ (map Order.itemsPrice os) - discount * (sumQ (map Order.itemsPrice os) / total).
Proof.
  intros Ht. induction 1 as [|o os Ho _ IH]; simpl.
  - field. exact Ht.
  - rewrite Ho, IH. field. exact Ht.
Qed.


(** ** Worked instances *)

Ltac distinct_ids :=
  vm_compute; repeat (constructor; [simpl; intuition discriminate|]); constructor.

Lemma startDb_wallets :
  wallets Scenario.startDb = <["s1" := Sample.walletWith 500]> ∅.
Proof. reflexivity. Qed.


Lemma entry_shape_kept_witness :
  allWallets (fun w => Forall entryShape (Wallet.transactions w)) Scenario.startDb /\
  allWallets (fun w => Forall entryShape (Wallet.transactions w))
    (serve Scenario.day Scenario.startDb) /\
  exists w, wallets (serve Scenario.day Scenario.startDb) !! "s1" = Some w /\
            length (Wallet.transactions w) = 5%nat.
Proof.
  assert (H : allWallets (fun w => Forall entryShape (Wallet.transactions w))
                Scenario.startDb).
  { unfold allWallets. rewrite startDb_wallets.
    apply map_Forall_insert_2; [|apply map_Forall_empty].
    repeat constructor. }
  split; [exact H|]. split; [exact (entry_shape_kept Scenario.day _ H)|].
  eexists. split; vm_compute; reflexivity.
Defined.

Lemma recompute_credits_once_witness :
  exists w,
    fst (recomputeWalletForSeller "s1" Sample.historyDb) = Some w /\
    creditsFor "o1" (Wallet.transactions w) = 1%nat.
Proof.
  apply (recompute_credits_once "s1" Sample.historyDb
           (Sample.order "o1" "s1" 1000 "delivered" 20)).
  - distinct_ids.
  - simpl. auto.
Defined.

Lemma withdrawal_status_forward_witness :
  exists wr',
    findOne (WithdrawalRequest.hasId "w1")
      (withdrawals (serve Scenario.attempts Sample.historyDb)) = Some wr' /\
    WithdrawalRequest.status wr' = WithdrawalRequest.processed /\
    WithdrawalRequest.seller wr' = "s1" /\
    WithdrawalRequest.amount wr' = 200.
Proof.
  exact (withdrawal_status_forward Scenario.attempts Sample.historyDb "w1"
           (Sample.request "w1" 200 WithdrawalRequest.processed 30) eq_refl).
Defined.

Lemma one_pending_request_kept_witness :
  (pendingCount "s1" Sample.historyDb = 1)%nat /\
  (pendingCount "s1" (serve Scenario.attempts Sample.historyDb) <= 1)%nat.
Proof.
  split; [reflexivity|].
  apply (one_pending_request_kept Scenario.attempts Sample.historyDb).
  intros s. unfold pendingCount, isPendingOf. cbn -[String.eqb].
  destruct (String.eqb "s1" s); simpl; lia.
Defined.


Lemma createWithdrawalRequest_only_when_allowed_witness :
  exists wr db',
    createWithdrawalRequest 0 "w1" "s1" 200 Sample.bankAccount None Sample.walletDb
      = (Ok 201 wr, db') /\
    exists w,
      creationPreconditions "s1" 200 w Sample.walletDb /\
      detailsAccepted None Sample.bankAccount /\
      wr = newRequest 0 "w1" "s1" 200 Sample.bankAccount None /\
      withdrawals db' = withdrawals Sample.walletDb ++ [wr] /\
      wallets db' = <["s1" := holdFunds 200 "w1" w]> (wallets Sample.walletDb) /\
      orders db' = orders Sample.walletDb /\ products db' = products Sample.walletDb.
Proof.
  destruct (createWithdrawalRequest 0 "w1" "s1" 200 Sample.bankAccount None
              Sample.walletDb) as [r db'] eqn:E.
  assert (exists wr, r = Ok 201 wr) as (wr & ->).
  { pose proof E as E'. vm_compute in E'. injection E' as <- _.
    eexists. reflexivity. }
  exists wr, db'. split; [reflexivity|].
  exact (createWithdrawalRequest_only_when_allowed _ _ _ _ _ _ _ _ _ _ E).
Defined.

Lemma create_keeps_reconciled_witness :
  reconciled "s1" Scenario.reconciledDb /\
  exists wr db',
    createWithdrawalRequest 60 "w2" "s1" 300 Sample.bankAccount None
      Scenario.reconciledDb = (Ok 201 wr, db') /\
    reconciled "s1" db'.
Proof.
  assert (H : reconciled "s1" Scenario.reconciledDb).
  { eexists _, _. split; [vm_compute; reflexivity|].
    split; vm_compute; reflexivity. }
  split; [exact H|].
  destruct (createWithdrawalRequest 60 "w2" "s1" 300 Sample.bankAccount None
              Scenario.reconciledDb) as [r db'] eqn:E.
  assert (exists wr, r = Ok 201 wr) as (wr & ->).
  { pose proof E as E'. vm_compute in E'. injection E' as <- _.
    eexists. reflexivity. }
  exists wr, db'. split; [reflexivity|].
  apply (create_keeps_reconciled _ _ _ _ _ _ _ _ _ _ H E).
  repeat constructor.
Defined.

Lemma status_updates_credit_at_most_once_witness :
  (creditsFor "o1"
     (logOf "s1" (serve (map (UpdateOrderStatus "o1")
                           ["delivered"; "shipped"; "delivered"])
                    Sample.shippedDb)) <= 0 + 1)%nat.
Proof.
  exact (proj1 (status_updates_credit_at_most_once "o1"
                  (Sample.order "o1" "s1" 1000 "shipped" 10)
                  ["delivered"; "shipped"; "delivered"] Sample.shippedDb eq_refl)).
Defined.

Lemma adminResyncOrderToWallet_idempotent_witness :
  exists answer db1 w,
    adminResyncOrderToWallet "o1" Scenario.deliveredDb = (Ok 200 answer, db1) /\
    fst answer = "Order credited to wallet" /\
    adminResyncOrderToWallet "o1" db1 = (Ok 200 ("Order already credited", w), db1).
Proof.
  destruct (adminResyncOrderToWallet "o1" Scenario.deliveredDb) as [r db1] eqn:E.
  assert (exists answer, r = Ok 200 answer /\ fst answer = "Order credited to wallet")
    as (answer & -> & Ha).
  { pose proof E as E'. vm_compute in E'. injection E' as <- _.
    eexists. split; reflexivity. }
  destruct (adminResyncOrderToWallet_idempotent _ _ _ _ _ E) as (w & Hw).
  exists answer, db1, w. auto.
Defined.


Lemma adminResyncSellerWallet_idempotent_witness :
  exists wopt db2,
    adminResyncSellerWallet (fun _ => true) "s1" Scenario.deliveredDb
      = (Ok 200 (2%nat, wopt), db2) /\
    adminResyncSellerWallet (fun _ => true) "s1" db2 = (Ok 200 (0%nat, wopt), db2).
Proof.
  destruct (adminResyncSellerWallet (fun _ => true) "s1" Scenario.deliveredDb)
    as [r db2] eqn:E.
  assert (exists wopt, r = Ok 200 (2%nat, wopt)) as (wopt & ->).
  { pose proof E as E'. vm_compute in E'. injection E' as <- _.
    eexists. reflexivity. }
  exists wopt, db2. split; [reflexivity|].
  apply (adminResyncSellerWallet_idempotent _ _ _ _ _ _ _
           (ltac:(distinct_ids)
              : List.NoDup (map Order._id (orders Scenario.deliveredDb))) E).
Defined.

Lemma groupBySeller_partitions_witness :
  exists parts,
    groupBySeller (OrderRequest.items Sample.cart) [] = inr parts /\
    map fst parts = [Sample.sA; Sample.sB] /\
    List.NoDup (map fst parts) /\
    Forall (fun part =>
              snd part = itemsOf (fst part) (OrderRequest.items Sample.cart) /\
              snd part <> []) parts.
Proof.
  destruct (groupBySeller (OrderRequest.items Sample.cart) []) as [e|parts] eqn:E;
    [vm_compute in E; discriminate|].
  exists parts. split; [reflexivity|]. split.
  - pose proof E as E'. vm_compute in E'. injection E' as <-. reflexivity.
  - destruct (groupBySeller_partitions _ _ E) as (H1 & H2 & _). auto.
Defined.

Lemma createOrderWith_sold_counts_witness :
  exists os db',
    createOrderForRazorpay 1000 Sample.fresh Sample.cart Sample.shopDb
      = (Ok 201 os, db') /\
    option_map Product.totalSold (products db' !! Sample.p1) = Some 2%Z /\
    forall item, In item (OrderRequest.items Sample.cart) ->
      exists p, products Sample.shopDb !! CartItem.product item = Some p /\
        products db' !! CartItem.product item
          = Some (Product.addSold (CartItem.quantity item) p).
Proof.
  destruct (createOrderForRazorpay 1000 Sample.fresh Sample.cart Sample.shopDb)
    as [r db'] eqn:E.
  assert (exists os, r = Ok 201 os /\
            option_map Product.totalSold (products db' !! Sample.p1) = Some 2%Z)
    as (os & -> & Hsold).
  { pose proof E as E'. vm_compute in E'. injection E' as <- <-.
    eexists. split; [reflexivity|]. vm_compute. reflexivity. }
  exists os, db'. split; [reflexivity|]. split; [exact Hsold|].
  apply (createOrderWith_sold_counts true 1000 Sample.fresh Sample.cart
           Sample.shopDb os db' E).
  vm_compute. repeat (constructor; [simpl; intuition discriminate|]); constructor.
Defined.

Lemma capture_marks_named_orders_witness :
  exists paid db',
    capturePaymentForOrders Sample.env Sample.collaborators 5000
      (Sample.capture Scenario.goodSignature) Sample.unpaidDb = (Ok 200 paid, db') /\
    map Order.paymentStatus (orders db') = ["paid"; "paid"] /\
    orders db' =
      map (fun o => if existsb (String.eqb (Order._id o)) ["o1"; "o2"]
                    then markPaid 5000 (Sample.capture Scenario.goodSignature) o
                    else o) (orders Sample.unpaidDb).
Proof.
  destruct (capturePaymentForOrders Sample.env Sample.collaborators 5000
              (Sample.capture Scenario.goodSignature) Sample.unpaidDb)
    as [r db'] eqn:E.
  assert (exists paid, r = Ok 200 paid /\
            map Order.paymentStatus (orders db') = ["paid"; "paid"])
    as (paid & -> & Hp).
  { pose proof E as E'. vm_compute in E'. injection E' as <- <-.
    eexists. split; reflexivity. }
  exists paid, db'. split; [reflexivity|]. split; [exact Hp|].
  apply (capture_marks_named_orders _ _ _ _ _ _ _ _
           (ltac:(distinct_ids)
              : List.NoDup (map Order._id (orders Sample.unpaidDb))) E).
Defined.

Lemma unverified_payment_is_not_captured_witness :
  exists code' message',
    capturePaymentForOrders Sample.env Sample.collaborators 5000
      (Sample.capture "forged") Sample.unpaidDb
    = (Err code' message', Sample.unpaidDb).
Proof.
  apply (unverified_payment_is_not_captured Sample.env Sample.collaborators 5000
           (Sample.capture "forged") Sample.unpaidDb 400
           "Payment signature verification failed").
  - discriminate.
  - vm_compute. reflexivity.
Defined.

Lemma aggregates_stay_non_negative_witness :
  allWallets nonNegative Scenario.startDb /\
  allWallets nonNegative (serve Scenario.morning Scenario.startDb) /\
  exists w, wallets (serve Scenario.morning Scenario.startDb) !! "s1" = Some w /\
            Qred (Wallet.balance w) = 1000.
Proof.
  assert (H : allWallets nonNegative Scenario.startDb).
  { unfold allWallets. rewrite startDb_wallets.
    apply map_Forall_insert_2; [|apply map_Forall_empty].
    repeat split; discriminate. }
  split; [exact H|].
  split; [exact (aggregates_stay_non_negative Scenario.morning _ eq_refl H)|].
  eexists. split; vm_compute; reflexivity.
Defined.

Lemma capture_names_stored_orders_witness :
  exists paid db',
    capturePaymentForOrders Sample.env Sample.collaborators 5000
      (Sample.capture Scenario.goodSignature) Sample.unpaidDb = (Ok 200 paid, db') /\
    List.NoDup ["o1"; "o2"] /\
    forall id, In id ["o1"; "o2"] ->
      exists o, In o (orders Sample.unpaidDb) /\ Order._id o = id /\
                Some (Order.user o) = Some "u1".
Proof.
  destruct (capturePaymentForOrders Sample.env Sample.collaborators 5000
              (Sample.capture Scenario.goodSignature) Sample.unpaidDb)
    as [r db'] eqn:E.
  assert (exists paid, r = Ok 200 paid) as (paid & ->).
  { pose proof E as E'. vm_compute in E'. injection E' as <- _.
    eexists. reflexivity. }
  exists paid, db'. split; [reflexivity|].
  apply (capture_names_stored_orders _ _ _ _ _ _ _ _
           (ltac:(distinct_ids)
              : List.NoDup (map Order._id (orders Sample.unpaidDb))) E).
Defined.

Lemma orders_keep_their_terms_witness :
  exists added,
    map termsOf (orders (serve Scenario.trade Scenario.busyDb))
      = map termsOf (orders Scenario.busyDb) ++ added /\
    length (orders (serve Scenario.trade Scenario.busyDb)) = 4%nat.
Proof.
  destruct (orders_keep_their_terms Scenario.trade Scenario.busyDb) as (added & H).
  - unfold Scenario.trade. cbn [uniqueIdsAlong].
    repeat (split; [distinct_ids|]). exact I.
  - exists added. split; [exact H|]. vm_compute. reflexivity.
Defined.

